(** * seisflows: the line-search controller of [seisflows/optimize/base.py]

    A shallow embedding of class [base] (nonlinear optimization base class):
    the direction dispatcher [compute_direction], the line-search state
    machine [initialize_search] / [search_status] / [finalize_search] and the
    history accessors [step_lens] / [func_vals].

    Numbers are IEEE binary64 values (Rocq's primitive [float]), as Python
    floats and numpy [float64] arrays are.  The working directory
    [PATH.OPTIMIZE] is a finite map from file names to stored values. *)

From Stdlib Require Import ZArith Lia Floats List Bool Sorted Permutation Ascii.
From stdpp Require Import gmap strings list fin_maps sorting.

Set Warnings "-inexact-float".
Open Scope string_scope.
Open Scope list_scope.

(** ** numpy and Python primitives used by the class *)

Module np.

(** [np.isnan] *)
Definition isnan (x : float) : bool := PrimFloat.is_nan x.

(** Truth value of a Python float: [bool(x)] is [x != 0.0]. *)
Definition truthy (x : float) : bool := negb (x =? 0)%float.

(** Comparison used by numpy's sorting kernels for doubles,
    [a < b || (b != b && a == a)]: not-a-number sorts last. *)
Definition DOUBLE_LT (a b : float) : bool :=
  (a <? b)%float || (isnan b && negb (isnan a)).

(** Indexing [v[i]] at an index that is in range. *)
Definition item (v : list float) (i : nat) : float := nth i v nan.

(** One pass of the inner loop of numpy's indirect insertion sort: the index
    [vi] is moved left past every index whose key is greater.  [left] holds
    the indices placed so far, nearest neighbour first. *)
Fixpoint shift_in (v : list float) (vi : nat) (left : list nat) : list nat :=
  match left with
  | [] => [vi]
  | pk :: left' =>
      if DOUBLE_LT (item v vi) (item v pk)
      then pk :: shift_in v vi left'
      else vi :: left
  end.

(** [v.argsort()] with the default kind, on an array of at most 16 elements:
    numpy's introsort hands a range that short straight to the insertion
    sort below.  A longer array is partitioned first; numpy still answers a
    permutation of the positions that sorts the keys, as this definition
    does, but equal keys need not keep their order there, so what depends on
    the order of equal keys is stated for at most 16 elements only. *)
Definition argsort (v : list float) : list nat :=
  rev (fold_left (fun left vi => shift_in v vi left) (seq 0 (length v)) []).

(** Fancy indexing [f[idx]]. *)
Definition take (f : list float) (idx : list nat) : list float :=
  map (item f) idx.

(** [abs(x)] on an array. *)
Definition absolute (x : list float) : list float := map PrimFloat.abs x.

(** [any(f[1:] < f[0])] *)
Definition any_below_first (f : list float) : bool :=
  match f with
  | [] => false
  | f0 :: f1 => existsb (fun y => (y <? f0)%float) f1
  end.

(** [f[-2] < f[-1]] *)
Definition last_two_increase (f : list float) : bool :=
  match rev f with
  | b :: a :: _ => (a <? b)%float
  | _ => false
  end.

(** [np.all(vals[-1] < vals[:-1])] *)
Definition last_below_all (vals : list float) : bool :=
  match rev vals with
  | [] => true
  | v :: earlier => forallb (fun y => (v <? y)%float) earlier
  end.

(** The loop of numpy's [DOUBLE_argmin]: [mp] is the least value so far and
    [min_ind] its index; an element [y] with [not (y >= mp)] moves it, a
    not-a-number ends the scan. *)
Fixpoint argmin_loop (ip : list float) (i : nat) (mp : float) (min_ind : nat)
  : nat :=
  match ip with
  | [] => min_ind
  | y :: ip' =>
      if negb (mp <=? y)%float
      then if isnan y then i else argmin_loop ip' (S i) y i
      else argmin_loop ip' (S i) mp min_ind
  end.

(** [f.argmin()] *)
Definition argmin (f : list float) : nat :=
  match f with
  | [] => 0
  | mp :: ip => if isnan mp then 0 else argmin_loop ip 1 mp 0
  end.

(** [np.minimum], the reduction step of [f.min()]:
    [(io1 <= in2 || isnan(io1)) ? io1 : in2]. *)
Definition minimum (io1 in2 : float) : float :=
  if (io1 <=? in2)%float || isnan io1 then io1 else in2.

(** [f.min()] *)
Definition amin (f : list float) : float :=
  match f with
  | [] => nan
  | io1 :: rest => fold_left minimum rest io1
  end.

(** Python's builtin [max] over a sequence; [None] on an empty one, where
    Python raises [ValueError]. *)
Definition py_max (l : list float) : option float :=
  match l with
  | [] => None
  | a :: r => Some (fold_left (fun cur y => if (cur <? y)%float then y else cur) r a)
  end.

(** [a + b] on arrays, with numpy's broadcasting of one-element arrays;
    [None] where numpy raises [ValueError] on mismatched shapes. *)
Definition add (a b : list float) : option (list float) :=
  if Nat.eqb (length a) (length b) then Some (zip_with PrimFloat.add a b)
  else match a, b with
       | [x], _ => Some (map (PrimFloat.add x) b)
       | _, [y] => Some (map (fun x => (x + y)%float) a)
       | _, _ => None
       end.

(** [p * alpha] for an array [p] and a scalar [alpha]. *)
Definition scale (p : list float) (alpha : float) : list float :=
  map (fun x => (x * alpha)%float) p.

(** [any(f[1:] <= f[0])] *)
Definition any_at_or_below_first (f : list float) : bool :=
  match f with
  | [] => false
  | f0 :: f1 => existsb (fun y => (y <=? f0)%float) f1
  end.

(** Conversion of a Python integer to a float, as in [float * int]: the
    nearest double, ties to even; [None] where Python raises
    [OverflowError]. *)
Definition float_of_int (n : Z) : option float :=
  let r := SF2Prim (binary_normalize prec emax n 0 false) in
  if PrimFloat.is_infinity r then None else Some r.

End np.

(** ** The working directory *)

(** A stored file holds a scalar ([savetxt]) or a vector ([savenpy]). *)
Inductive value : Type :=
  | Scalar (x : float)
  | Array (v : list float).

Inductive exn : Type :=
  | IOError             (* a file read or moved does not exist *)
  | ValueError          (* [raise ValueError]: the trial objective is NaN *)
  | NameError           (* [p_new] never assigned *)
  | ZeroDivisionError
  | IndexError.

(** Modelled from the spec: the Vector/Scalar Store ([loadtxt], [savetxt],
    [loadnpy], [savenpy] of [seisflows.tools] and [unix.rm], [unix.mv]) is a
    key-value storage of named arrays and scalars whose reads return exactly
    what was written. *)
Definition loadtxt (name : string) (fs : gmap string value) : option float :=
  match fs !! name with
  | Some (Scalar x) => Some x
  | _ => None
  end.

(** Modelled from the spec: reading a named vector; [None] where the read
    fails because no vector is stored under the name. *)
Definition loadnpy (name : string) (fs : gmap string value)
  : option (list float) :=
  match fs !! name with
  | Some (Array v) => Some v
  | _ => None
  end.

(** Modelled from the spec: writing a named scalar. *)
Definition savetxt (name : string) (x : float) (fs : gmap string value)
  : gmap string value := <[name := Scalar x]> fs.

(** Modelled from the spec: writing a named vector. *)
Definition savenpy (name : string) (v : list float) (fs : gmap string value)
  : gmap string value := <[name := Array v]> fs.

(** Modelled from the spec: the store's [delete] ([unix.rm]); removing a
    missing file is not an error. *)
Definition rm (name : string) (fs : gmap string value) : gmap string value :=
  delete name fs.

(** Modelled from the spec: the store's [rename] ([unix.mv]); it fails when
    the source is missing and replaces an existing target. *)
Definition mv (src dst : string) (fs : gmap string value)
  : option (gmap string value) :=
  match fs !! src with
  | Some v => Some (<[dst := v]> (delete src fs))
  | None => None
  end.

(** Consecutive [unix.mv] calls: stops at the first missing source, keeping
    the moves already made. *)
Fixpoint mv_all (moves : list (string * string)) (fs : gmap string value)
  : bool * gmap string value :=
  match moves with
  | [] => (true, fs)
  | (src, dst) :: rest =>
      match mv src dst fs with
      | Some fs' => mv_all rest fs'
      | None => (false, fs)
      end
  end.

(** ** Class [base] *)

Module optimize.

(** The parameters [PAR] the class reads, after [check] has filled in the
    defaults ([STEPMAX] 10, [STEPTHRESH] None, [STEPINIT] 0.05, [STEPFACTOR]
    0.5, [STEPOVERSHOOT] 0.). *)
Record parameters : Type := {
  SCHEME : string;
  LINESEARCH : string;
  STEPMAX : Z;
  STEPTHRESH : option float;
  STEPINIT : float;
  STEPFACTOR : float;
  STEPOVERSHOOT : float
}.

(** The attributes of [self], and the files of [PATH.OPTIMIZE]. *)
Record state : Type := {
  fs : gmap string value;
  iter : Z;
  restart : Z;
  restart_count : Z;
  search_history : list (float * float);
  step_count : Z;
  isdone : Z;
  isbest : Z;
  isbrak : Z
}.

Definition set_fs (d : gmap string value) (st : state) : state :=
  {| fs := d; iter := iter st; restart := restart st;
     restart_count := restart_count st; search_history := search_history st;
     step_count := step_count st; isdone := isdone st; isbest := isbest st;
     isbrak := isbrak st |}.

Definition set_iter (n : Z) (st : state) : state :=
  {| fs := fs st; iter := n; restart := restart st;
     restart_count := restart_count st; search_history := search_history st;
     step_count := step_count st; isdone := isdone st; isbest := isbest st;
     isbrak := isbrak st |}.

Definition set_restart (r : Z) (st : state) : state :=
  {| fs := fs st; iter := iter st; restart := r;
     restart_count := restart_count st; search_history := search_history st;
     step_count := step_count st; isdone := isdone st; isbest := isbest st;
     isbrak := isbrak st |}.

Definition set_restart_count (n : Z) (st : state) : state :=
  {| fs := fs st; iter := iter st; restart := restart st;
     restart_count := n; search_history := search_history st;
     step_count := step_count st; isdone := isdone st; isbest := isbest st;
     isbrak := isbrak st |}.

Definition set_search_history (h : list (float * float)) (st : state) : state :=
  {| fs := fs st; iter := iter st; restart := restart st;
     restart_count := restart_count st; search_history := h;
     step_count := step_count st; isdone := isdone st; isbest := isbest st;
     isbrak := isbrak st |}.

Definition set_step_count (n : Z) (st : state) : state :=
  {| fs := fs st; iter := iter st; restart := restart st;
     restart_count := restart_count st; search_history := search_history st;
     step_count := n; isdone := isdone st; isbest := isbest st;
     isbrak := isbrak st |}.

Definition set_isdone (n : Z) (st : state) : state :=
  {| fs := fs st; iter := iter st; restart := restart st;
     restart_count := restart_count st; search_history := search_history st;
     step_count := step_count st; isdone := n; isbest := isbest st;
     isbrak := isbrak st |}.

Definition set_isbest (n : Z) (st : state) : state :=
  {| fs := fs st; iter := iter st; restart := restart st;
     restart_count := restart_count st; search_history := search_history st;
     step_count := step_count st; isdone := isdone st; isbest := n;
     isbrak := isbrak st |}.

Definition set_isbrak (n : Z) (st : state) : state :=
  {| fs := fs st; iter := iter st; restart := restart st;
     restart_count := restart_count st; search_history := search_history st;
     step_count := step_count st; isdone := isdone st; isbest := isbest st;
     isbrak := n |}.

(** Truth value of a Python integer flag. *)
Definition true_int (n : Z) : bool := negb (n =? 0)%Z.

(** A method returns a value or raises; either way it leaves a state. *)
Inductive outcome (A : Type) : Type :=
  | Ok (a : A) (st : state)
  | Raise (e : exn) (st : state).

Arguments Ok {A} a st.
Arguments Raise {A} e st.

Definition after {A : Type} (o : outcome A) : state :=
  match o with
  | Ok _ st => st
  | Raise _ st => st
  end.

(** [setup]: [self.restart = 0], [self.restart_count = 0].  The outer
    iteration counter [self.iter] is owned by the driver and starts at 1; the
    line-search attributes are assigned by [initialize_search]. *)
Definition setup (d : gmap string value) : state :=
  {| fs := d; iter := 1; restart := 0; restart_count := 0;
     search_history := []; step_count := 0; isdone := 0; isbest := 0;
     isbrak := 0 |}.

Section methods.

Variable PAR : parameters.

(** [np.dot] on two vectors of equal length.  The value is the one numpy's
    BLAS computes; the source does not fix how the products are summed and
    rounded, so the function is a parameter of the class. *)
Variable dot : list float -> list float -> float.

(** [compute_direction].  [alg] is what the Direction Algorithm object
    ([self.NLCG()] or [self.LBFGS()]) answers on this call: a direction and a
    restart flag.  [np.dot] raises [ValueError] on vectors of different
    lengths, once [p_new] is written. *)
Definition compute_direction (alg : list float * Z) (st : state)
  : outcome unit :=
  match loadnpy "g_new" (fs st) with
  | None => Raise IOError st
  | Some g_new =>
      let '(p_new, restart') :=
        if String.eqb (SCHEME PAR) "SD" then
          (Some (map PrimFloat.opp g_new), restart st)
        else if String.eqb (SCHEME PAR) "NLCG" then
          (Some (fst alg), snd alg)
        else if String.eqb (SCHEME PAR) "LBFGS" then
          (Some (fst alg), snd alg)
        else (None, restart st) in
      let st := set_restart restart' st in
      (* keep track of number of restarts *)
      let st :=
        if true_int (restart st)
        then set_restart_count (restart_count st + 1) st
        else st in
      match p_new with
      | None => Raise NameError st
      | Some p_new =>
          let d := savenpy "p_new" p_new (fs st) in
          if Nat.eqb (length g_new) (length p_new)
          then Ok tt (set_fs (savetxt "s_new" (dot g_new p_new) d) st)
          else Raise ValueError (set_fs d st)
      end
  end.

(** [step_init].  The scalars read back are Python floats, whose division
    raises on a zero divisor. *)
Definition step_init (st : state) : exn + float :=
  match loadtxt "alpha" (fs st), loadtxt "s_new" (fs st),
        loadtxt "s_old" (fs st) with
  | Some alpha, Some s_new, Some s_old =>
      if (s_old =? 0)%float then inl ZeroDivisionError
      else
        let s_ratio := (s_new / s_old)%float in
        inr (2 * s_ratio * alpha)%float
  | _, _, _ => inl IOError
  end.

(** [step_lens] *)
Definition step_lens (sort : bool) (st : state) : list float :=
  let x := map fst (search_history st) in
  let f := map snd (search_history st) in
  let f_sorted := np.take f (np.argsort (np.absolute x)) in
  let x_sorted := np.take x (np.argsort (np.absolute x)) in
  if sort then x_sorted else x.

(** [func_vals] *)
Definition func_vals (sort : bool) (st : state) : list float :=
  let x := map fst (search_history st) in
  let f := map snd (search_history st) in
  let f_sorted := np.take f (np.argsort (np.absolute x)) in
  let x_sorted := np.take x (np.argsort (np.absolute x)) in
  if sort then f_sorted else f.

(** [initialize_search], "reset search history". *)
Definition reset_search (f : float) (st : state) : state :=
  set_isbrak 0 (set_isbest 0 (set_isdone 0 (set_step_count 0
    (set_search_history [(0%float, f)] st)))).

(** [initialize_search], "determine initial step length". *)
Definition initial_step (p_ratio : float) (st : state) : exn + float :=
  if (iter st =? 1)%Z then inr (p_ratio * STEPINIT PAR)%float
  else if true_int (restart st) then inr (p_ratio * STEPINIT PAR)%float
  else if String.eqb (LINESEARCH PAR) "Backtrack" then inr 1%float
  else step_init st.

(** [initialize_search], "optional ad hoc scaling". *)
Definition ad_hoc_scaling (alpha : float) : float :=
  if np.truthy (STEPOVERSHOOT PAR) then (alpha * STEPOVERSHOOT PAR)%float
  else alpha.

(** [initialize_search], "optional maximum step length safegaurd". *)
Definition step_safeguard (p_ratio : float) (st : state) (alpha : float)
  : float :=
  match STEPTHRESH PAR with
  | Some thresh =>
      if np.truthy thresh
      then if (p_ratio * thresh <? alpha)%float && (1 <? iter st)%Z
           then (p_ratio * thresh)%float
           else alpha
      else alpha
  | None => alpha
  end.

(** [initialize_search].  The record sent to the step writer is not part of
    the state. *)
Definition initialize_search (st : state) : outcome unit :=
  match loadnpy "m_new" (fs st), loadnpy "p_new" (fs st),
        loadtxt "f_new" (fs st) with
  | Some m, Some p, Some f =>
      match np.py_max (np.absolute m), np.py_max (np.absolute p) with
      | Some norm_m, Some norm_p =>
          let p_ratio := (norm_m / norm_p)%float in
          let st := reset_search f st in
          match initial_step p_ratio st with
          | inl e => Raise e st
          | inr alpha =>
              let alpha := ad_hoc_scaling alpha in
              let alpha := step_safeguard p_ratio st alpha in
              match np.add m (np.scale p alpha) with
              | None => Raise ValueError st
              | Some m_try =>
                  Ok tt (set_fs (savetxt "alpha" alpha
                                   (savenpy "m_try" m_try (fs st))) st)
              end
          end
      | _, _ => Raise ValueError st
      end
  | _, _, _ => Raise IOError st
  end.

(** [search_status], "update search history". *)
Definition update_history (x_ f_ : float) (st : state) : state :=
  let st := set_search_history (search_history st ++ [(x_, f_)]) st in
  set_step_count (step_count st + 1) st.

(** [search_status], "is current step length the best so far?". *)
Definition best_so_far (st : state) : state :=
  let vals := func_vals false st in
  if np.last_below_all vals then set_isbest 1 st else st.

(** [search_status], "are stopping criteria satisfied?". *)
Definition stopping_criteria (st : state) : state :=
  let f := func_vals true st in
  if String.eqb (LINESEARCH PAR) "Fixed" then
    if np.any_below_first f && np.last_two_increase f
    then set_isdone 1 st else st
  else if String.eqb (LINESEARCH PAR) "Bracket"
          || (iter st =? 1)%Z || true_int (restart st) then
    if true_int (isbrak st) then set_isdone 1 st
    else if np.any_below_first f && np.last_two_increase f
         then set_isbrak 1 st else st
  else if String.eqb (LINESEARCH PAR) "Backtrack" then
    if np.any_below_first f then set_isdone 1 st else st
  else st.

(** [search_status], the check against [PAR.STEPMAX]. *)
Definition max_iter (st : state) : state :=
  if (STEPMAX PAR <=? step_count st)%Z then set_isdone (-1) st else st.

(** [search_status].  The record sent to the step writer is not part of the
    state. *)
Definition search_status (st : state) : outcome (Z * Z) :=
  match loadtxt "alpha" (fs st), loadtxt "f_try" (fs st) with
  | Some x_, Some f_ =>
      if np.isnan f_ then Raise ValueError st
      else
        let st := update_history x_ f_ st in
        let st := best_so_far st in
        let st := stopping_criteria st in
        let st := max_iter st in
        Ok (isdone st, isbest st) st
  | _, _ => Raise IOError st
  end.

(** The files [finalize_search] rotates, in the order of its [unix.mv]
    calls. *)
Definition rotation : list (string * string) :=
  [("m_new", "m_old"); ("f_new", "f_old"); ("g_new", "g_old");
   ("p_new", "p_old"); ("s_new", "s_old")].

(** [finalize_search].  The summary records go to the run logger, which is
    not part of the state; computing them reads [f[1]] and [x[1]]. *)
Definition finalize_search (st : state) : outcome unit :=
  match loadnpy "m_new" (fs st), loadnpy "g_new" (fs st),
        loadnpy "p_new" (fs st), loadtxt "s_new" (fs st) with
  | Some m, Some g, Some p, Some s =>
      match search_history st with
      | [] => Raise ValueError st
      | _ :: _ =>
          let x := step_lens true st in
          let f := func_vals true st in
          (* clean working directory *)
          let d := rm "f_try" (rm "m_try" (rm "alpha" (fs st))) in
          let d :=
            if (1 <? iter st)%Z
            then rm "s_old" (rm "p_old" (rm "g_old" (rm "f_old"
                   (rm "m_old" d))))
            else d in
          match mv_all rotation d with
          | (false, d) => Raise IOError (set_fs d st)
          | (true, d) =>
              (* write updated model *)
              let alpha := np.item x (np.argmin f) in
              let d := savetxt "alpha" alpha d in
              match np.add m (np.scale p alpha) with
              | None => Raise ValueError (set_fs d st)
              | Some m_new =>
                  let d := savenpy "m_new" m_new d in
                  let d := savetxt "f_new" (np.amin f) d in
                  (* append latest output *)
                  if (length f <? 2)%nat then Raise IndexError (set_fs d st)
                  else Ok tt (set_fs d st)
              end
          end
      end
  | _, _, _, _ => Raise IOError st
  end.

(** ** Runs *)

(** Between two status calls [compute_step] writes the next trial step to
    [alpha] and the external evaluator writes the objective of the trial
    model to [f_try]. *)
Definition evaluate (trial : float * float) (st : state) : state :=
  set_fs (savetxt "f_try" (snd trial) (savetxt "alpha" (fst trial) (fs st)))
    st.

(** A line search after [initialize_search]: one status call per trial. *)
Fixpoint line_search (trials : list (float * float)) (st : state)
  : outcome (list (Z * Z)) :=
  match trials with
  | [] => Ok [] st
  | t :: rest =>
      match search_status (evaluate t st) with
      | Raise e st' => Raise e st'
      | Ok r st' =>
          match line_search rest st' with
          | Ok rs st'' => Ok (r :: rs) st''
          | Raise e st'' => Raise e st''
          end
      end
  end.

(** What the driver does with the object over a whole run. *)
Inductive call : Type :=
  | Compute_direction (alg : list float * Z)
  | Initialize_search
  | Search_status
  | Finalize_search
  | Env_store (name : string) (v : value)
  | Env_iter (n : Z).

Definition step (st : state) (c : call) : state :=
  match c with
  | Compute_direction alg => after (compute_direction alg st)
  | Initialize_search => after (initialize_search st)
  | Search_status => after (search_status st)
  | Finalize_search => after (finalize_search st)
  | Env_store name v => set_fs (<[name := v]> (fs st)) st
  | Env_iter n => set_iter n st
  end.

Definition run (d : gmap string value) (calls : list call) : state :=
  fold_left step calls (setup d).

(** The Direction Algorithm is invoked by this [compute_direction] call and
    reports a restart. *)
Definition reports_restart (alg : list float * Z) (st : state) : bool :=
  match loadnpy "g_new" (fs st) with
  | None => false
  | Some _ =>
      (String.eqb (SCHEME PAR) "NLCG" || String.eqb (SCHEME PAR) "LBFGS")
      && true_int (snd alg)
  end.

End methods.

(** ** [compute_step] *)

(** What [compute_step] can raise: an exception of the class itself, the
    [OverflowError] of float arithmetic, or whatever [polyfit2] or
    [backtrack2] raises. *)
Inductive step_exn : Type :=
  | Builtin (e : exn)
  | OverflowError
  | HelperError.

Inductive step_outcome : Type :=
  | Stepped (st : state)
  | Step_raise (e : step_exn) (st : state).

Definition after_step (o : step_outcome) : state :=
  match o with
  | Stepped st => st
  | Step_raise _ st => st
  end.

Section step.

Variable PAR : parameters.

(** [polyfit2] and [backtrack2] of [seisflows.tools.math], and the C
    library's [pow]; [None] where they raise (for [pow]: where Python turns
    a range error into [OverflowError]). *)
Variable polyfit2 : list float -> list float -> option float.
Variable backtrack2 :
  float -> float -> float -> float -> float -> float -> option float.
Variable c_pow : float -> float -> option float.

(** [x ** -1] on a Python float. *)
Definition reciprocal_power (x : float) : step_exn + float :=
  if np.isnan x then inr x
  else if PrimFloat.is_infinity x then
    inr (if (x <? 0)%float then (-0)%float else 0%float)
  else if (x =? 0)%float then inl (Builtin ZeroDivisionError)
  else match c_pow x (-1)%float with
       | Some r => inr r
       | None => inl OverflowError
       end.

(** [compute_step], "compute trial step length". *)
Definition trial_step (p_ratio s : float) (st : state) : step_exn + float :=
  let x := step_lens true st in
  let f := func_vals true st in
  if String.eqb (LINESEARCH PAR) "Fixed" then
    match np.float_of_int (step_count st + 1) with
    | Some n => inr (p_ratio * n * STEPINIT PAR)%float
    | None => inl OverflowError
    end
  else if String.eqb (LINESEARCH PAR) "Bracket"
          || (iter st =? 1)%Z || true_int (restart st) then
    if np.any_below_first f && np.last_two_increase f then
      match polyfit2 x f with
      | Some alpha => inr alpha
      | None => inl HelperError
      end
    else if np.any_at_or_below_first f then
      match loadtxt "alpha" (fs st) with
      | None => inl (Builtin IOError)
      | Some alpha =>
          match reciprocal_power (STEPFACTOR PAR) with
          | inl e => inl e
          | inr r => inr (alpha * r)%float
          end
      end
    else
      match loadtxt "alpha" (fs st) with
      | None => inl (Builtin IOError)
      | Some alpha => inr (alpha * STEPFACTOR PAR)%float
      end
  else if String.eqb (LINESEARCH PAR) "Backtrack" then
    match x, f with
    | _ :: x1 :: _, f0 :: f1 :: _ =>
        match backtrack2 f0 s x1 f1 0.1%float 0.5%float with
        | Some alpha => inr alpha
        | None => inl HelperError
        end
    | _, _ => inl (Builtin IndexError)
    end
  else inl (Builtin NameError).

(** [compute_step] *)
Definition compute_step (st : state) : step_outcome :=
  match loadnpy "m_new" (fs st), loadnpy "p_new" (fs st),
        loadtxt "s_new" (fs st) with
  | Some m, Some p, Some s =>
      match np.py_max (np.absolute m), np.py_max (np.absolute p) with
      | Some norm_m, Some norm_p =>
          let p_ratio := (norm_m / norm_p)%float in
          match search_history st with
          | [] => Step_raise (Builtin ValueError) st
          | _ :: _ =>
              match trial_step p_ratio s st with
              | inl e => Step_raise e st
              | inr alpha =>
                  (* write trial model corresponding to chosen step length *)
                  let d := savetxt "alpha" alpha (fs st) in
                  match np.add m (np.scale p alpha) with
                  | None => Step_raise (Builtin ValueError) (set_fs d st)
                  | Some m_try =>
                      Stepped (set_fs (savenpy "m_try" m_try d) st)
                  end
              end
          end
      | _, _ => Step_raise (Builtin ValueError) st
      end
  | _, _, _ => Step_raise (Builtin IOError) st
  end.

End step.

End optimize.

(** ** [os.path.join] *)

Module posixpath.

(** [b.startswith('/')] *)
Definition startswith_sep (b : string) : bool :=
  match b with
  | String "/"%char _ => true
  | _ => false
  end.

(** [path.endswith('/')] *)
Fixpoint endswith_sep (path : string) : bool :=
  match path with
  | EmptyString => false
  | String c EmptyString => Ascii.eqb c "/"%char
  | String _ rest => endswith_sep rest
  end.

(** One round of the loop of [join]. *)
Definition join_step (path b : string) : string :=
  if startswith_sep b then b
  else if String.eqb path "" || endswith_sep path then String.append path b
  else String.append path (String.append "/" b).

(** [join(a, *p)] *)
Definition join (a : string) (p : list string) : string :=
  fold_left join_step p a.

End posixpath.

(** ** [check]: parameters and paths *)

Module config.

(** A parameter value. *)
Inductive pyval : Type :=
  | PyNone
  | PyBool (b : bool)
  | PyInt (n : Z)
  | PyFloat (x : float)
  | PyStr (s : string).

Inductive config_error : Type :=
  | ParameterError
  | AttributeError.

(** [if name not in PAR: setattr(PAR, name, v)] *)
Definition default (name : string) (v : pyval) (PAR : gmap string pyval)
  : gmap string pyval :=
  match PAR !! name with
  | Some _ => PAR
  | None => <[name := v]> PAR
  end.

(** [PAR.SCHEME in ['LBFGS']] *)
Definition is_str (v : option pyval) (s : string) : bool :=
  match v with
  | Some (PyStr s') => String.eqb s' s
  | _ => false
  end.

(** [base.check].  [PAR] and [PATH] are the global parameter and path
    tables; reading a missing attribute raises [AttributeError]. *)
Definition check (PAR : gmap string pyval) (PATH : gmap string string)
  : config_error + (gmap string pyval * gmap string string) :=
  match PAR !! "BEGIN" with
  | None => inl ParameterError
  | Some _ =>
  match PAR !! "END" with
  | None => inl ParameterError
  | Some _ =>
  match PATH !! "SUBMIT" with
  | None => inl ParameterError
  | Some _ =>
  match (match PATH !! "OPTIMIZE" with
         | Some _ => Some PATH
         | None =>
             match PATH !! "GLOBAL" with
             | Some g =>
                 Some (<["OPTIMIZE" := posixpath.join g ["optimize"]]> PATH)
             | None => None
             end
         end) with
  | None => inl AttributeError
  | Some PATH =>
      (* search direction algorithm *)
      let PAR := default "SCHEME" (PyStr "LBFGS") PAR in
      let PAR := default "PRECOND" (PyBool false) PAR in
      (* line search algorithm *)
      let PAR :=
        match PAR !! "LINESEARCH" with
        | Some _ => PAR
        | None =>
            if is_str (PAR !! "SCHEME") "LBFGS"
            then <["LINESEARCH" := PyStr "Backtrack"]> PAR
            else <["LINESEARCH" := PyStr "Bracket"]> PAR
        end in
      (* search direction tuning parameters *)
      let PAR := default "NLCGMAX" (PyFloat infinity) PAR in
      let PAR := default "NLCGTHRESH" (PyFloat infinity) PAR in
      let PAR := default "LBFGSMEM" (PyInt 5) PAR in
      let PAR := default "LBFGSMAX" (PyFloat infinity) PAR in
      let PAR := default "LBFGSTHRESH" (PyFloat 0) PAR in
      (* line search tuning parameters *)
      let PAR := default "STEPMAX" (PyInt 10) PAR in
      let PAR := default "STEPTHRESH" PyNone PAR in
      let PAR := default "STEPINIT" (PyFloat 0.05) PAR in
      let PAR := default "STEPFACTOR" (PyFloat 0.5) PAR in
      let PAR := default "STEPOVERSHOOT" (PyFloat 0) PAR in
      inr (PAR, PATH)
  end end end end.

(** The names [base.check] fills in. *)
Definition defaulted : list string :=
  ["SCHEME"; "PRECOND"; "LINESEARCH"; "NLCGMAX"; "NLCGTHRESH"; "LBFGSMEM";
   "LBFGSMAX"; "LBFGSTHRESH"; "STEPMAX"; "STEPTHRESH"; "STEPINIT";
   "STEPFACTOR"; "STEPOVERSHOOT"].

End config.

(** ** Class [tiger_sm] of [seisflows/system/tiger_sm.py] *)

Module tiger_sm.

Import config.

Section check.

(** The result type and the [check] method of the parent class
    ([slurm_sm], not part of these sources). *)
Variable result : Type.
Variable super_check : gmap string pyval -> gmap string string -> result.

(** [PAR.UUID] as a path component: [join] needs a string. *)
Definition component (v : option pyval) : option string :=
  match v with
  | Some (PyStr s) => Some s
  | _ => None
  end.

(** The defaults [tiger_sm.check] sets before it calls the parent's check:
    [uuid] is what [str(uuid4())] returns and [user] what [getuser()]
    returns.  [None] where [join] is handed a [UUID] that is not a
    string. *)
Definition check_defaults (uuid user : string) (PAR : gmap string pyval)
  (PATH : gmap string string)
  : option (gmap string pyval * gmap string string) :=
  let PAR := default "UUID" (PyStr uuid) PAR in
  match (match PATH !! "SCRATCH" with
         | Some _ => Some PATH
         | None =>
             match component (PAR !! "UUID") with
             | Some id =>
                 Some (<["SCRATCH" :=
                          posixpath.join "/scratch/gpfs"
                            [user; "seisflows"; id]]> PATH)
             | None => None
             end
         end) with
  | None => None
  | Some PATH =>
      let PATH :=
        match PATH !! "LOCAL" with
        | Some _ => PATH
        | None => <["LOCAL" := ""]> PATH
        end in
      Some (PAR, PATH)
  end.

(** [tiger_sm.check] *)
Definition check (uuid user : string) (PAR : gmap string pyval)
  (PATH : gmap string string) : option result :=
  match check_defaults uuid user PAR PATH with
  | Some (PAR, PATH) => Some (super_check PAR PATH)
  | None => None
  end.

End check.

End tiger_sm.

(** ** Vocabulary of the statements *)

Import optimize.

Definition sf_nan (x : spec_float) : bool :=
  match x with
  | S754_nan => true
  | _ => false
  end.

(** Index [a] is placed before index [b] by an ascending sort on [key] that
    breaks ties by position: its key sorts strictly first, or the keys tie
    and [a] was inserted first. *)
Definition before (key : list float) (a b : nat) : Prop :=
  np.DOUBLE_LT (np.item key a) (np.item key b) = true
  \/ (np.DOUBLE_LT (np.item key b) (np.item key a) = false /\ a < b).

(** The test [any(f[1:] < f[0]) and (f[-2] < f[-1])] on the sorted objective
    values of [st]: some trial beats the baseline and the last two values
    increase. *)
Definition bracket_found (st : state) : bool :=
  np.any_below_first (func_vals true st)
  && np.last_two_increase (func_vals true st).

(** The stopping criterion of the strategy in force holds in [st], the state
    of [search_status] once the trial is recorded. *)
Definition criteria_met (PAR : parameters) (st : state) : bool :=
  if String.eqb (LINESEARCH PAR) "Fixed" then bracket_found st
  else if String.eqb (LINESEARCH PAR) "Bracket"
          || (iter st =? 1)%Z || true_int (restart st)
       then true_int (isbrak st)
  else if String.eqb (LINESEARCH PAR) "Backtrack"
       then np.any_below_first (func_vals true st)
  else false.

(** The stopping criterion holds at none of the status calls of a line
    search. *)
Fixpoint never_met (PAR : parameters) (trials : list (float * float))
  (st : state) : bool :=
  match trials with
  | [] => true
  | t :: rest =>
      negb (criteria_met PAR
              (best_so_far (update_history (fst t) (snd t) (evaluate t st))))
      && never_met PAR rest (after (search_status PAR (evaluate t st)))
  end.

(** ** Sample runs *)

Definition sample_PAR (linesearch : string) (stepmax : Z) : parameters :=
  {| SCHEME := "LBFGS"; LINESEARCH := linesearch; STEPMAX := stepmax;
     STEPTHRESH := None; STEPINIT := 0.05%float; STEPFACTOR := 0.5%float;
     STEPOVERSHOOT := 0%float |}.

Definition sample_dir : gmap string value :=
  <["m_new" := Array [1%float; 2%float]]>
  (<["p_new" := Array [0.5%float; (-1)%float]]>
  (<["g_new" := Array [1%float; 1%float]]>
  (<["s_new" := Scalar (-1)%float]>
  (<["f_new" := Scalar 10%float]>
  (<["s_old" := Scalar (-2)%float]>
  (<["alpha" := Scalar 0.5%float]> ∅)))))).

(** A search just initialized, in outer iteration [n]. *)
Definition sample_search (linesearch : string) (n : Z) : state :=
  after (initialize_search (sample_PAR linesearch 10)
           (set_iter n (setup sample_dir))).

(** Two directories agree on every file but the named ones. *)
Definition same_files_except (names : list string)
  (d d' : gmap string value) : Prop :=
  forall name, ~ In name names -> d' !! name = d !! name.

(** Two states agree on every attribute of the object. *)
Definition same_attributes (st st' : state) : Prop :=
  iter st' = iter st /\ restart st' = restart st
  /\ restart_count st' = restart_count st
  /\ search_history st' = search_history st
  /\ step_count st' = step_count st /\ isdone st' = isdone st
  /\ isbest st' = isbest st /\ isbrak st' = isbrak st.

(** The scheme [base.check] works with: the one given, else LBFGS. *)
Definition scheme_in_force (PAR : gmap string config.pyval) : config.pyval :=
  match PAR !! "SCHEME" with
  | Some v => v
  | None => config.PyStr "LBFGS"
  end.

(** The defaults of [base.check] for a given scheme. *)
Definition default_table (scheme : config.pyval)
  : gmap string config.pyval :=
  list_to_map
    [("SCHEME", config.PyStr "LBFGS");
     ("PRECOND", config.PyBool false);
     ("LINESEARCH",
      config.PyStr (if config.is_str (Some scheme) "LBFGS"
                    then "Backtrack" else "Bracket"));
     ("NLCGMAX", config.PyFloat infinity);
     ("NLCGTHRESH", config.PyFloat infinity);
     ("LBFGSMEM", config.PyInt 5);
     ("LBFGSMAX", config.PyFloat infinity);
     ("LBFGSTHRESH", config.PyFloat 0);
     ("STEPMAX", config.PyInt 10);
     ("STEPTHRESH", config.PyNone);
     ("STEPINIT", config.PyFloat 0.05);
     ("STEPFACTOR", config.PyFloat 0.5);
     ("STEPOVERSHOOT", config.PyFloat 0)].

(** Sample parameter and path tables. *)
Definition sample_table : gmap string config.pyval :=
  <["BEGIN" := config.PyInt 1]>
  (<["END" := config.PyInt 5]>
  (<["SCHEME" := config.PyStr "NLCG"]>
  (<["STEPMAX" := config.PyInt 7]> ∅))).

Definition sample_paths : gmap string string :=
  <["SUBMIT" := "/home/user/run"]> (<["GLOBAL" := "/scratch/run"]> ∅).

(** Sample helpers for [compute_step]: a parabola fit that answers 0.75, a
    backtrack that halves the step, and an exact reciprocal. *)
Definition sample_polyfit2 (x f : list float) : option float :=
  Some 0.75%float.

Definition sample_backtrack2 (f0 s x1 f1 b1 b2 : float) : option float :=
  Some (x1 * b2)%float.

Definition sample_pow (x y : float) : option float := Some (1 / x)%float.

(** A steepest-descent configuration. *)
Definition sample_SD : parameters :=
  {| SCHEME := "SD"; LINESEARCH := "Bracket"; STEPMAX := 10;
     STEPTHRESH := None; STEPINIT := 0.05%float; STEPFACTOR := 0.5%float;
     STEPOVERSHOOT := 0%float |}.

(** Zero, negative or not-a-number. *)
Definition sf_nonpos (x : spec_float) : Prop :=
  match x with
  | S754_zero _ | S754_nan => True
  | S754_infinity s | S754_finite s _ _ => s = true
  end.

(** A configuration with a step threshold. *)
Definition sample_thresh : parameters :=
  {| SCHEME := "LBFGS"; LINESEARCH := "Backtrack"; STEPMAX := 10;
     STEPTHRESH := Some 0.25%float; STEPINIT := 0.05%float;
     STEPFACTOR := 0.5%float; STEPOVERSHOOT := 0%float |}.

(** The directory before the first iteration: no step and no old slope. *)
Definition sample_first : gmap string value :=
  <["m_new" := Array [1%float; 2%float]]>
  (<["p_new" := Array [0.5%float; (-1)%float]]>
  (<["g_new" := Array [1%float; 1%float]]>
  (<["s_new" := Scalar (-1)%float]>
  (<["f_new" := Scalar 10%float]> ∅)))).

(** How a call ended: the exception it raised, or the value it returned. *)
Definition ending {A : Type} (o : outcome A) : exn + A :=
  match o with
  | Ok a _ => inr a
  | Raise e _ => inl e
  end.

(** The exception [compute_step] raised, if it raised one. *)
Definition step_ending (o : step_outcome) : option step_exn :=
  match o with
  | Stepped _ => None
  | Step_raise e _ => Some e
  end.

(** A dot product that keeps the sign of a sum of non-positive terms: it
    answers no positive value when no product of two paired entries is
    positive.  Every order of summation, fused or not, has this property. *)
Definition keeps_sign (dot : list float -> list float -> float) : Prop :=
  forall a b,
    Forall2 (fun x y => (0 <? x * y)%float = false) a b ->
    (0 <? dot a b)%float = false.

(** A sample dot product: the rounded products added from left to right. *)
Definition sample_dot (a b : list float) : float :=
  fold_left (fun acc '(x, y) => (acc + x * y)%float) (combine a b) 0%float.

(** Step [x] sorts strictly before step [y] when the steps are ordered by
    absolute value, ascending: |x| is smaller, or [y] is not-a-number and [x]
    is not (numpy sorts not-a-number last). *)
Definition smaller_step (x y : float) : Prop :=
  (PrimFloat.abs x <? PrimFloat.abs y)%float = true
  \/ (PrimFloat.is_nan y = true /\ PrimFloat.is_nan x = false).


(** ** Order facts about binary64 comparisons *)

(** The sample searches are initialized without error. *)
Example sample_search_initialized :
  initialize_search (sample_PAR "Fixed" 10) (set_iter 1 (setup sample_dir))
  = Ok tt (sample_search "Fixed" 1)
  /\ initialize_search (sample_PAR "Bracket" 10)
       (set_iter 2 (setup sample_dir))
     = Ok tt (sample_search "Bracket" 2)
  /\ initialize_search (sample_PAR "Backtrack" 10)
       (set_iter 2 (setup sample_dir))
     = Ok tt (sample_search "Backtrack" 2).
Proof. vm_compute. repeat split; reflexivity. Qed.

(** The scenario of the spec: baseline 10; under Backtrack a first trial at
    step 1 gives 12 (continue), a second trial gives 8 (done, best). *)
Example backtrack_scenario :
  exists st,
    line_search (sample_PAR "Backtrack" 10)
      [(1%float, 12%float); (0.5%float, 8%float)]
      (sample_search "Backtrack" 2)
    = Ok [(0%Z, 0%Z); (1%Z, 1%Z)] st.
Proof. eexists. vm_compute. reflexivity. Qed.

Ltac sf_signs :=
  repeat match goal with s : bool |- _ => destruct s end.

Ltac sf_cmp :=
  repeat match goal with
  | |- context [Z.compare ?a ?b] => destruct (Z.compare_spec a b)
  | H : context [Z.compare ?a ?b] |- _ => destruct (Z.compare_spec a b)
  | |- context [Pos.compare_cont Eq ?a ?b] =>
      change (Pos.compare_cont Eq a b) with (Pos.compare a b);
      destruct (Pos.compare_spec a b)
  | H : context [Pos.compare_cont Eq ?a ?b] |- _ =>
      change (Pos.compare_cont Eq a b) with (Pos.compare a b) in H;
      destruct (Pos.compare_spec a b)
  end.

Ltac sf_bash :=
  sf_signs; simpl; try congruence; auto;
  sf_cmp; simpl; try congruence; auto; try lia.

Lemma SFltb_irrefl x : SFltb x x = false.
Proof.
  unfold SFltb. destruct x as [s|s| |s m e]; sf_bash.
Qed.

Lemma SFltb_trans x y z :
  SFltb x y = true -> SFltb y z = true -> SFltb x z = true.
Proof.
  unfold SFltb.
  destruct x as [sx|sx| |sx mx ex], y as [sy|sy| |sy my ey],
    z as [sz|sz| |sz mz ez]; sf_bash.
Qed.

Lemma SFltb_negtrans x y z :
  sf_nan y = false -> SFltb x z = true ->
  SFltb x y = true \/ SFltb y z = true.
Proof.
  unfold SFltb.
  destruct x as [sx|sx| |sx mx ex], y as [sy|sy| |sy my ey],
    z as [sz|sz| |sz mz ez]; sf_bash.
Qed.

Lemma SFleb_ltb x y : SFleb x y = true -> SFltb y x = false.
Proof.
  unfold SFleb, SFltb.
  destruct x as [sx|sx| |sx mx ex], y as [sy|sy| |sy my ey]; sf_bash.
Qed.

Lemma SFleb_false x y :
  sf_nan x = false -> sf_nan y = false -> SFleb x y = false ->
  SFltb y x = true.
Proof.
  unfold SFleb, SFltb.
  destruct x as [sx|sx| |sx mx ex], y as [sy|sy| |sy my ey]; sf_bash.
Qed.

Lemma SFltb_nan_l x y : sf_nan x = true -> SFltb x y = false.
Proof. unfold SFltb. destruct x, y; simpl; congruence. Qed.

Lemma SFltb_nan_r x y : sf_nan y = true -> SFltb x y = false.
Proof. unfold SFltb. destruct x, y; simpl; congruence. Qed.

Lemma SFltb_abs_zero x s : SFltb (SFabs x) (S754_zero s) = false.
Proof. destruct x as [sx|sx| |sx mx ex]; reflexivity. Qed.

Lemma isnan_spec x : np.isnan x = sf_nan (Prim2SF x).
Proof.
  unfold np.isnan, is_nan. rewrite FloatAxioms.eqb_spec. unfold SFeqb.
  destruct (Prim2SF x) as [s|s| |s m e]; sf_bash.
Qed.

Lemma ltb_irrefl x : (x <? x)%float = false.
Proof. rewrite ltb_spec. apply SFltb_irrefl. Qed.

Lemma ltb_trans x y z :
  (x <? y)%float = true -> (y <? z)%float = true -> (x <? z)%float = true.
Proof. rewrite !ltb_spec. apply SFltb_trans. Qed.

Lemma ltb_asym x y : (x <? y)%float = true -> (y <? x)%float = false.
Proof.
  intros H. destruct (y <? x)%float eqn:E; [|reflexivity].
  pose proof (ltb_trans _ _ _ H E) as H'. rewrite ltb_irrefl in H'.
  discriminate.
Qed.

Lemma ltb_negtrans x y z :
  np.isnan y = false -> (x <? z)%float = true ->
  (x <? y)%float = true \/ (y <? z)%float = true.
Proof. rewrite isnan_spec, !ltb_spec. apply SFltb_negtrans. Qed.

Lemma leb_not_gt x y : (x <=? y)%float = true -> (y <? x)%float = false.
Proof. rewrite leb_spec, ltb_spec. apply SFleb_ltb. Qed.

Lemma not_leb_gt x y :
  np.isnan x = false -> np.isnan y = false ->
  (x <=? y)%float = false -> (y <? x)%float = true.
Proof. rewrite !isnan_spec, leb_spec, ltb_spec. apply SFleb_false. Qed.

Lemma ltb_nan_l x y : np.isnan x = true -> (x <? y)%float = false.
Proof. rewrite isnan_spec, ltb_spec. apply SFltb_nan_l. Qed.

Lemma ltb_nan_r x y : np.isnan y = true -> (x <? y)%float = false.
Proof. rewrite isnan_spec, ltb_spec. apply SFltb_nan_r. Qed.

Lemma ltb_true_not_nan x y :
  (x <? y)%float = true -> np.isnan x = false /\ np.isnan y = false.
Proof.
  intros H. split.
  - destruct (np.isnan x) eqn:E; [|reflexivity].
    rewrite (ltb_nan_l _ _ E) in H. discriminate.
  - destruct (np.isnan y) eqn:E; [|reflexivity].
    rewrite (ltb_nan_r _ _ E) in H. discriminate.
Qed.

Lemma abs_not_below_zero y : (PrimFloat.abs y <? 0)%float = false.
Proof.
  rewrite ltb_spec, abs_spec.
  change (Prim2SF 0) with (S754_zero false). apply SFltb_abs_zero.
Qed.

(** numpy's sorting comparison is a strict weak order on all doubles. *)
Lemma DOUBLE_LT_irrefl a : np.DOUBLE_LT a a = false.
Proof.
  unfold np.DOUBLE_LT. rewrite ltb_irrefl.
  destruct (np.isnan a); reflexivity.
Qed.

Lemma DOUBLE_LT_asym a b : np.DOUBLE_LT a b = true -> np.DOUBLE_LT b a = false.
Proof.
  unfold np.DOUBLE_LT. intros H.
  apply orb_true_iff in H as [H|H].
  - rewrite (ltb_asym _ _ H). destruct (ltb_true_not_nan _ _ H) as [-> ->].
    reflexivity.
  - apply andb_true_iff in H as [Hb Ha]. apply negb_true_iff in Ha.
    rewrite (ltb_nan_l _ _ Hb), Ha. reflexivity.
Qed.

Lemma DOUBLE_LT_negtrans a b c :
  np.DOUBLE_LT a c = true ->
  np.DOUBLE_LT a b = true \/ np.DOUBLE_LT b c = true.
Proof.
  unfold np.DOUBLE_LT. intros H.
  assert (Ha : np.isnan a = false).
  { apply orb_true_iff in H as [H|H].
    - apply (ltb_true_not_nan _ _ H).
    - apply andb_true_iff in H as [_ H]. now apply negb_true_iff in H. }
  destruct (np.isnan b) eqn:Hb.
  - left. rewrite Ha. apply orb_true_r.
  - apply orb_true_iff in H as [H|H].
    + destruct (ltb_negtrans a b c Hb H) as [E|E]; rewrite E; auto.
    + apply andb_true_iff in H as [Hc _]. right. rewrite Hc.
      apply orb_true_r.
Qed.

Lemma DOUBLE_LT_abs_zero y : np.DOUBLE_LT (PrimFloat.abs y) 0 = false.
Proof. unfold np.DOUBLE_LT. rewrite abs_not_below_zero. reflexivity. Qed.

(** ** [argsort]: an ascending sort, stable on short arrays *)

Section argsort_facts.

Variable key : list float.

Lemma shift_in_perm vi left : Permutation (np.shift_in key vi left) (vi :: left).
Proof.
  induction left as [|pk left' IH]; simpl.
  - apply Permutation_refl.
  - destruct (np.DOUBLE_LT _ _).
    + eapply Permutation_trans; [apply perm_skip, IH | apply perm_swap].
    + apply Permutation_refl.
Qed.

Lemma shift_in_sorted vi left :
  StronglySorted (flip (before key)) left ->
  Forall (fun k => k < vi) left ->
  StronglySorted (flip (before key)) (np.shift_in key vi left).
Proof.
  induction left as [|pk left' IH]; simpl; intros Hs Hlt.
  - constructor; constructor.
  - apply StronglySorted_inv in Hs as [Hs Hpk].
    apply Forall_cons_iff in Hlt as [Hpkvi Hlt].
    destruct (np.DOUBLE_LT (np.item key vi) (np.item key pk)) eqn:E.
    + constructor; [apply IH; assumption|].
      eapply Permutation_Forall; [apply Permutation_sym, shift_in_perm|].
      constructor; [left; exact E | exact Hpk].
    + constructor; [constructor; assumption|].
      constructor; [right; split; assumption|].
      rewrite List.Forall_forall in Hpk, Hlt |- *. intros t Ht.
      right. split; [|apply Hlt, Ht].
      destruct (np.DOUBLE_LT (np.item key vi) (np.item key t)) eqn:Et;
        [|reflexivity].
      destruct (DOUBLE_LT_negtrans _ (np.item key pk) _ Et) as [C|C];
        [congruence|].
      destruct (Hpk t Ht) as [B|[B _]]; [|congruence].
      apply DOUBLE_LT_asym in B. congruence.
Qed.

Lemma argsort_left n :
  Permutation (fold_left (fun l vi => np.shift_in key vi l) (seq 0 n) [])
    (seq 0 n)
  /\ StronglySorted (flip (before key))
       (fold_left (fun l vi => np.shift_in key vi l) (seq 0 n) []).
Proof.
  induction n as [|n [IHp IHs]].
  - split; constructor.
  - rewrite seq_S, fold_left_app. simpl. split.
    + eapply Permutation_trans; [apply shift_in_perm|].
      eapply Permutation_trans; [apply perm_skip, IHp|].
      apply Permutation_cons_append.
    + apply shift_in_sorted; [exact IHs|].
      eapply Permutation_Forall; [apply Permutation_sym, IHp|].
      rewrite List.Forall_forall. intros k Hk. apply in_seq in Hk. lia.
Qed.

Lemma StronglySorted_rev_flip (R : nat -> nat -> Prop) l :
  StronglySorted (flip R) l -> StronglySorted R (rev l).
Proof.
  induction 1 as [|a l Hs IH Ha]; simpl; [constructor|].
  apply StronglySorted_app. split; [|split].
  - intros x1 x2 H1 H2. apply list_elem_of_In in H1, H2.
    destruct H2 as [<-|[]]. apply in_rev in H1.
    rewrite List.Forall_forall in Ha. apply (Ha x1 H1).
  - exact IH.
  - constructor; constructor.
Qed.

Lemma argsort_perm : Permutation (np.argsort key) (seq 0 (length key)).
Proof.
  unfold np.argsort. eapply Permutation_trans;
    [apply Permutation_sym, Permutation_rev|]. apply argsort_left.
Qed.

(** Equal keys keep their positions' order.  This is the order of the
    insertion sort, which is all numpy runs on at most 16 elements; the fact
    is stated for those arrays only. *)
Lemma argsort_sorted :
  length key <= 16 -> StronglySorted (before key) (np.argsort key).
Proof. intros _. apply StronglySorted_rev_flip, argsort_left. Qed.


Lemma argsort_length : length (np.argsort key) = length key.
Proof.
  rewrite (Permutation_length argsort_perm). apply length_seq.
Qed.

End argsort_facts.

(** ** [argmin] and [amin] *)

Lemma minimum_nan io1 rest :
  np.isnan io1 = true -> fold_left np.minimum rest io1 = io1.
Proof.
  intros H. induction rest as [|y rest IH]; simpl; [reflexivity|].
  unfold np.minimum at 2. rewrite H, orb_true_r. exact IH.
Qed.

Lemma item_app_r pre (y : float) ip : np.item (pre ++ y :: ip) (length pre) = y.
Proof. unfold np.item. rewrite app_nth2, Nat.sub_diag by lia. reflexivity. Qed.

Lemma item_app_l pre (ip : list float) k :
  k < length pre -> np.item (pre ++ ip) k = np.item pre k.
Proof. intros H. unfold np.item. apply app_nth1, H. Qed.

Lemma argmin_loop_spec ip : forall pre mp min_ind,
  min_ind < length pre ->
  np.item pre min_ind = mp ->
  np.isnan mp = false ->
  (forall z, In z pre -> (z <? mp)%float = false) ->
  let k := np.argmin_loop ip (length pre) mp min_ind in
  k < length (pre ++ ip)
  /\ (forall z, In z (pre ++ ip) -> (z <? np.item (pre ++ ip) k)%float = false)
  /\ fold_left np.minimum ip mp = np.item (pre ++ ip) k.
Proof.
  induction ip as [|y ip IH]; intros pre mp min_ind Hlt Hmp Hnan Hmin; simpl.
  - rewrite app_nil_r, Hmp. auto.
  - unfold np.minimum at 2. rewrite Hnan, orb_false_r.
    destruct (mp <=? y)%float eqn:Ele; simpl.
    + specialize (IH (pre ++ [y]) mp min_ind).
      rewrite <- app_assoc, length_app in IH. simpl in IH.
      rewrite Nat.add_1_r in IH. apply IH; [lia| |exact Hnan|].
      * rewrite item_app_l by exact Hlt. exact Hmp.
      * intros z Hz. apply in_app_iff in Hz as [Hz|[<-|[]]];
          [apply Hmin, Hz | apply leb_not_gt, Ele].
    + destruct (np.isnan y) eqn:Ey.
      * rewrite item_app_r, (minimum_nan _ _ Ey), length_app. simpl.
        repeat split; [lia|]. intros z _. apply ltb_nan_r, Ey.
      * pose proof (not_leb_gt _ _ Hnan Ey Ele) as Hy.
        specialize (IH (pre ++ [y]) y (length pre)).
        rewrite <- app_assoc, length_app in IH. simpl in IH.
        rewrite Nat.add_1_r in IH. apply IH; [lia| |exact Ey|].
        -- apply (item_app_r pre y []).
        -- intros z Hz. apply in_app_iff in Hz as [Hz|[<-|[]]];
             [|apply ltb_irrefl].
           destruct (z <? y)%float eqn:Ez; [|reflexivity].
           rewrite <- (Hmin z Hz). symmetry. eapply ltb_trans; eassumption.
Qed.

(** [f.argmin()] is the position of a least element of [f], and [f.min()] is
    the element there. *)
Lemma argmin_spec f :
  f <> [] ->
  np.argmin f < length f
  /\ (forall z, In z f -> (z <? np.item f (np.argmin f))%float = false)
  /\ np.amin f = np.item f (np.argmin f).
Proof.
  destruct f as [|mp ip]; [congruence|]. intros _. simpl.
  destruct (np.isnan mp) eqn:E.
  - rewrite (minimum_nan _ _ E). repeat split; [lia|].
    intros z _. apply ltb_nan_r, E.
  - apply (argmin_loop_spec ip [mp] mp 0); simpl; auto.
    intros z [<-|[]]. apply ltb_irrefl.
Qed.



(** ** The history views *)

Lemma combine_take (x f : list float) idx :
  combine (np.take x idx) (np.take f idx)
  = map (fun i => (np.item x i, np.item f i)) idx.
Proof. induction idx as [|i idx IH]; simpl; [|rewrite IH]; reflexivity. Qed.

Lemma item_history (h : list (float * float)) i :
  (np.item (map fst h) i, np.item (map snd h) i) = nth i h (nan, nan).
Proof.
  unfold np.item.
  pose proof (map_nth fst h (nan, nan) i) as H1.
  pose proof (map_nth snd h (nan, nan) i) as H2.
  simpl in H1, H2. rewrite H1, H2.
  destruct (nth i h (nan, nan)); reflexivity.
Qed.


Lemma sorted_views st :
  combine (step_lens true st) (func_vals true st)
  = map (fun i => nth i (search_history st) (nan, nan))
      (np.argsort (np.absolute (map fst (search_history st)))).
Proof.
  unfold step_lens, func_vals. rewrite combine_take.
  apply map_ext. intros i. apply item_history.
Qed.

Lemma item_absolute x j :
  np.item (np.absolute x) j = PrimFloat.abs (np.item x j).
Proof.
  unfold np.item, np.absolute.
  change nan with (PrimFloat.abs nan) at 1. apply map_nth.
Qed.

Lemma isnan_abs x : np.isnan (PrimFloat.abs x) = np.isnan x.
Proof.
  rewrite !isnan_spec, abs_spec.
  destruct (Prim2SF x) as [s|s| |s m e]; reflexivity.
Qed.

Lemma DOUBLE_LT_abs x y :
  np.DOUBLE_LT (PrimFloat.abs x) (PrimFloat.abs y) = true
  <-> smaller_step x y.
Proof.
  unfold np.DOUBLE_LT, smaller_step. rewrite !isnan_abs.
  unfold np.isnan. rewrite orb_true_iff, andb_true_iff, negb_true_iff.
  reflexivity.
Qed.




(** ** [search_status] *)

Lemma stopping_criteria_isdone PAR st :
  isdone (stopping_criteria PAR st)
  = if criteria_met PAR st then 1%Z else isdone st.
Proof.
  unfold stopping_criteria, criteria_met, bracket_found.
  repeat case_match; reflexivity.
Qed.

Lemma stopping_criteria_keeps PAR st :
  search_history (stopping_criteria PAR st) = search_history st
  /\ step_count (stopping_criteria PAR st) = step_count st
  /\ isbest (stopping_criteria PAR st) = isbest st
  /\ fs (stopping_criteria PAR st) = fs st.
Proof. unfold stopping_criteria. repeat case_match; auto. Qed.

Lemma best_so_far_keeps st :
  search_history (best_so_far st) = search_history st
  /\ step_count (best_so_far st) = step_count st
  /\ isdone (best_so_far st) = isdone st
  /\ isbrak (best_so_far st) = isbrak st
  /\ iter (best_so_far st) = iter st
  /\ restart (best_so_far st) = restart st
  /\ fs (best_so_far st) = fs st.
Proof. unfold best_so_far. case_match; repeat split; reflexivity. Qed.

Lemma search_status_ok PAR st x_ f_ :
  loadtxt "alpha" (fs st) = Some x_ ->
  loadtxt "f_try" (fs st) = Some f_ ->
  np.isnan f_ = false ->
  search_status PAR st
  = let st' := max_iter PAR (stopping_criteria PAR
                 (best_so_far (update_history x_ f_ st))) in
    Ok (isdone st', isbest st') st'.
Proof. intros Ha Hf Hn. unfold search_status. rewrite Ha, Hf, Hn. reflexivity. Qed.

(** C3: when the trial objective read from [f_try] is not-a-number,
    [search_status] raises (the [ValueError] of the source, the spec's
    InvalidObjective) and leaves the object as it was: the history and
    [step_count] are those before the call. *)
Theorem search_status_nan_raises PAR st x_ f_ :
  loadtxt "alpha" (fs st) = Some x_ ->
  loadtxt "f_try" (fs st) = Some f_ ->
  np.isnan f_ = true ->
  search_status PAR st = Raise ValueError st
  /\ search_history (after (search_status PAR st)) = search_history st
  /\ step_count (after (search_status PAR st)) = step_count st.
Proof.
  intros Ha Hf Hn. unfold search_status. rewrite Ha, Hf, Hn. auto.
Qed.

Lemma search_status_nan_raises_witness :
  search_status (sample_PAR "Bracket" 10)
    (evaluate (1%float, nan) (sample_search "Bracket" 1))
  = Raise ValueError (evaluate (1%float, nan) (sample_search "Bracket" 1)).
Proof.
  apply (search_status_nan_raises (sample_PAR "Bracket" 10)
           (evaluate (1%float, nan) (sample_search "Bracket" 1)) 1%float nan);
    vm_compute; reflexivity.
Defined.

(** C9: when a status call both meets the stopping criterion of the strategy
    in force (the convergence checks set [isdone] to 1) and brings
    [step_count] to [STEPMAX] or more, the later [STEPMAX] check overwrites
    the result and the call returns [isdone = -1]. *)
Theorem stepmax_overrides_convergence PAR st x_ f_ :
  loadtxt "alpha" (fs st) = Some x_ ->
  loadtxt "f_try" (fs st) = Some f_ ->
  np.isnan f_ = false ->
  criteria_met PAR (best_so_far (update_history x_ f_ st)) = true ->
  (STEPMAX PAR <= step_count st + 1)%Z ->
  isdone (stopping_criteria PAR (best_so_far (update_history x_ f_ st))) = 1%Z
  /\ exists st', search_status PAR st = Ok ((-1)%Z, isbest st') st'
                 /\ isdone st' = (-1)%Z.
Proof.
  intros Ha Hf Hn Hc Hmax. split.
  - rewrite stopping_criteria_isdone, Hc. reflexivity.
  - rewrite (search_status_ok _ _ _ _ Ha Hf Hn). cbv zeta.
    set (st1 := stopping_criteria PAR _).
    assert (Hs : step_count st1 = (step_count st + 1)%Z).
    { unfold st1.
      destruct (stopping_criteria_keeps PAR
                  (best_so_far (update_history x_ f_ st))) as (_ & -> & _).
      destruct (best_so_far_keeps (update_history x_ f_ st)) as (_ & -> & _).
      reflexivity. }
    unfold max_iter. rewrite Hs.
    destruct (Z.leb_spec (STEPMAX PAR) (step_count st + 1)); [|lia].
    eexists. split; reflexivity.
Qed.

Lemma stepmax_overrides_convergence_witness :
  exists st',
    search_status (sample_PAR "Backtrack" 1)
      (evaluate (1%float, 8%float) (sample_search "Backtrack" 2))
    = Ok ((-1)%Z, isbest st') st'
    /\ isdone st' = (-1)%Z.
Proof.
  apply (stepmax_overrides_convergence (sample_PAR "Backtrack" 1)
           (evaluate (1%float, 8%float) (sample_search "Backtrack" 2))
           1%float 8%float); vm_compute; congruence.
Defined.

Lemma max_iter_keeps PAR st :
  search_history (max_iter PAR st) = search_history st
  /\ step_count (max_iter PAR st) = step_count st
  /\ isbest (max_iter PAR st) = isbest st
  /\ isbrak (max_iter PAR st) = isbrak st
  /\ fs (max_iter PAR st) = fs st.
Proof. unfold max_iter. case_match; repeat split; reflexivity. Qed.

Lemma func_vals_history sort st st' :
  search_history st' = search_history st ->
  func_vals sort st' = func_vals sort st.
Proof. unfold func_vals. intros ->. reflexivity. Qed.

Lemma bracket_found_history st st' :
  search_history st' = search_history st ->
  bracket_found st' = bracket_found st.
Proof.
  intros H. unfold bracket_found. rewrite (func_vals_history _ _ _ H).
  reflexivity.
Qed.

Lemma stopping_criteria_isbrak PAR st :
  String.eqb (LINESEARCH PAR) "Fixed" = false ->
  String.eqb (LINESEARCH PAR) "Bracket" || (iter st =? 1)%Z
    || true_int (restart st) = true ->
  isbrak (stopping_criteria PAR st)
  = if true_int (isbrak st) then isbrak st
    else if bracket_found st then 1%Z else isbrak st.
Proof.
  intros Hfix Hbr. unfold stopping_criteria, bracket_found.
  rewrite Hfix, Hbr. repeat case_match; reflexivity.
Qed.

(** C4 as stated fails under the Fixed strategy: in iteration 1 with
    [LINESEARCH = 'Fixed'], a status call whose sorted history has a trial
    below the baseline and increasing last two values does not set [isbrak];
    the Fixed branch is taken first and sets [isdone]. *)
Lemma fixed_strategy_is_not_overridden :
  let PAR := sample_PAR "Fixed" 10 in
  let st := evaluate (2%float, 9%float)
              (after (line_search PAR [(1%float, 8%float)]
                        (sample_search "Fixed" 1))) in
  iter st = 1%Z
  /\ true_int (isbrak st) = false
  /\ bracket_found (after (search_status PAR st)) = true
  /\ ~ (true_int (isbrak (after (search_status PAR st))) = true
        <-> bracket_found (after (search_status PAR st)) = true).
Proof.
  vm_compute. repeat split; try reflexivity.
  intros [_ H]. specialize (H eq_refl). discriminate.
Qed.

(** C4 (amended): when the strategy is not Fixed and it is Bracket, or
    [iter == 1], or the restart flag is set: if [isbrak] was set when
    [search_status] is called, the stopping criteria set [isdone = 1]
    whatever the new trial's objective, and the call returns 1 unless
    [step_count] has reached [STEPMAX] (then -1); otherwise the call sets
    [isbrak] exactly when some non-baseline entry of the sorted history is
    strictly below the baseline and its last two entries increase. *)
Theorem bracket_criteria PAR st x_ f_ :
  loadtxt "alpha" (fs st) = Some x_ ->
  loadtxt "f_try" (fs st) = Some f_ ->
  np.isnan f_ = false ->
  String.eqb (LINESEARCH PAR) "Fixed" = false ->
  String.eqb (LINESEARCH PAR) "Bracket" || (iter st =? 1)%Z
    || true_int (restart st) = true ->
  exists st',
    search_status PAR st = Ok (isdone st', isbest st') st'
    /\ (true_int (isbrak st) = true ->
        isdone (stopping_criteria PAR (best_so_far (update_history x_ f_ st)))
        = 1%Z
        /\ isdone st'
           = if (STEPMAX PAR <=? step_count st + 1)%Z then (-1)%Z else 1%Z)
    /\ (true_int (isbrak st) = false ->
        true_int (isbrak st') = bracket_found st').
Proof.
  intros Ha Hf Hn Hfix Hbr.
  rewrite (search_status_ok _ _ _ _ Ha Hf Hn). cbv zeta.
  eexists. split; [reflexivity|].
  set (st1 := best_so_far (update_history x_ f_ st)).
  destruct (best_so_far_keeps (update_history x_ f_ st))
    as (Hh1 & Hc1 & Hd1 & Hb1 & Hi1 & Hr1 & _). fold st1 in Hh1, Hc1, Hd1, Hb1, Hi1, Hr1.
  simpl in Hc1, Hb1, Hi1, Hr1.
  assert (Hcr : criteria_met PAR st1 = true_int (isbrak st)).
  { unfold criteria_met. rewrite Hfix, Hi1, Hr1, Hbr, Hb1. reflexivity. }
  destruct (stopping_criteria_keeps PAR st1) as (Hh2 & Hc2 & _).
  split.
  - intros Hset. rewrite stopping_criteria_isdone, Hcr, Hset.
    split; [reflexivity|].
    unfold max_iter. rewrite Hc2, Hc1.
    destruct (STEPMAX PAR <=? step_count st + 1)%Z; simpl; [reflexivity|].
    rewrite stopping_criteria_isdone, Hcr, Hset. reflexivity.
  - intros Hunset.
    destruct (max_iter_keeps PAR (stopping_criteria PAR st1))
      as (Hh3 & _ & _ & -> & _).
    rewrite (bracket_found_history st1 _) by (rewrite Hh3; exact Hh2).
    rewrite (stopping_criteria_isbrak PAR st1 Hfix)
      by (rewrite Hi1, Hr1; exact Hbr).
    rewrite Hb1, Hunset.
    destruct (bracket_found st1); simpl; [reflexivity | exact Hunset].
Qed.

Lemma bracket_criteria_witness :
  exists st',
    search_status (sample_PAR "Bracket" 10)
      (evaluate (1.5%float, 20%float)
         (after (line_search (sample_PAR "Bracket" 10)
                   [(1%float, 8%float); (2%float, 9%float)]
                   (sample_search "Bracket" 2))))
    = Ok (isdone st', isbest st') st'
    /\ isdone st' = 1%Z.
Proof.
  destruct (bracket_criteria (sample_PAR "Bracket" 10)
              (evaluate (1.5%float, 20%float)
                 (after (line_search (sample_PAR "Bracket" 10)
                           [(1%float, 8%float); (2%float, 9%float)]
                           (sample_search "Bracket" 2))))
              1.5%float 20%float)
    as (st' & Hrun & Hset & _); try (vm_compute; reflexivity).
  exists st'. split; [exact Hrun|].
  destruct Hset as [_ ->]; vm_compute; reflexivity.
Defined.

(** C5 (evaluation at the failing input): baseline objective 10, first trial
    8, second trial 9.  The second status call still returns [isbest = 1]
    although the most recent objective, 9, is not below the earlier 8: the
    flag is set by the first call and no later call clears it. *)
Lemma isbest_stays_set_after_worse_trial :
  exists st',
    line_search (sample_PAR "Bracket" 10)
      [(1%float, 8%float); (2%float, 9%float)] (sample_search "Bracket" 2)
    = Ok [(0%Z, 1%Z); (0%Z, 1%Z)] st'
    /\ func_vals false st' = [10%float; 8%float; 9%float]
    /\ np.last_below_all (func_vals false st') = false
    /\ isbest st' = 1%Z.
Proof. eexists. vm_compute. repeat split; reflexivity. Qed.

(** ** The working directory *)

Lemma loadtxt_savetxt name x d : loadtxt name (savetxt name x d) = Some x.
Proof. unfold loadtxt, savetxt. rewrite lookup_insert_eq. reflexivity. Qed.

Lemma loadnpy_savenpy name v d : loadnpy name (savenpy name v d) = Some v.
Proof. unfold loadnpy, savenpy. rewrite lookup_insert_eq. reflexivity. Qed.

Lemma loadtxt_savetxt_ne name name' x d :
  name <> name' -> loadtxt name' (savetxt name x d) = loadtxt name' d.
Proof.
  intros H. unfold loadtxt, savetxt. rewrite lookup_insert_ne by exact H.
  reflexivity.
Qed.

Lemma loadnpy_savetxt name name' x d :
  name <> name' -> loadnpy name' (savetxt name x d) = loadnpy name' d.
Proof.
  intros H. unfold loadnpy, savetxt. rewrite lookup_insert_ne by exact H.
  reflexivity.
Qed.

Lemma loadtxt_savenpy name name' v d :
  name <> name' -> loadtxt name' (savenpy name v d) = loadtxt name' d.
Proof.
  intros H. unfold loadtxt, savenpy. rewrite lookup_insert_ne by exact H.
  reflexivity.
Qed.

Lemma loadnpy_savenpy_ne name name' v d :
  name <> name' -> loadnpy name' (savenpy name v d) = loadnpy name' d.
Proof.
  intros H. unfold loadnpy, savenpy. rewrite lookup_insert_ne by exact H.
  reflexivity.
Qed.

(** ** [initialize_search] *)

Lemma step_safeguard_reset PAR p_ratio f st alpha :
  step_safeguard PAR p_ratio (reset_search f st) alpha
  = step_safeguard PAR p_ratio st alpha.
Proof. reflexivity. Qed.

Lemma initial_step_cases PAR p_ratio st alpha0 :
  initial_step PAR p_ratio st = inr alpha0 ->
  (iter st = 1%Z \/ true_int (restart st) = true ->
   alpha0 = (p_ratio * STEPINIT PAR)%float)
  /\ (iter st <> 1%Z -> true_int (restart st) = false ->
      LINESEARCH PAR = "Backtrack" -> alpha0 = 1%float)
  /\ (iter st <> 1%Z -> true_int (restart st) = false ->
      LINESEARCH PAR <> "Backtrack" ->
      exists alpha s_new s_old,
        loadtxt "alpha" (fs st) = Some alpha
        /\ loadtxt "s_new" (fs st) = Some s_new
        /\ loadtxt "s_old" (fs st) = Some s_old
        /\ alpha0 = (2 * (s_new / s_old) * alpha)%float).
Proof.
  unfold initial_step. intros H.
  destruct (Z.eqb_spec (iter st) 1) as [Hi|Hi].
  - injection H as <-. split; [reflexivity | split; congruence].
  - destruct (true_int (restart st)) eqn:Hr.
    + injection H as <-. split; [reflexivity | split; congruence].
    + destruct (String.eqb_spec (LINESEARCH PAR) "Backtrack") as [Hb|Hb].
      * injection H as <-.
        split; [intros [?|?]; congruence | split; congruence].
      * split; [intros [?|?]; congruence | split; [congruence|]].
        intros _ _ _. unfold step_init in H.
        destruct (loadtxt "alpha" (fs st)) as [alpha|]; [|discriminate].
        destruct (loadtxt "s_new" (fs st)) as [s_new|]; [|discriminate].
        destruct (loadtxt "s_old" (fs st)) as [s_old|]; [|discriminate].
        destruct (s_old =? 0)%float; [discriminate|].
        injection H as <-. eauto 7.
Qed.

(** C6: [initialize_search] determines the initial step length [alpha0] as
    [p_ratio * STEPINIT] when [iter == 1] or the restart flag is set,
    otherwise as 1 under the Backtrack strategy, otherwise as
    [2 * (s_new / s_old) * alpha] with the stored previous [alpha]
    ([step_init]); the step written to [alpha] is [alpha0] after the optional
    overshoot scaling and step safeguard, and is [alpha0] itself when neither
    option is configured. *)
Theorem initialize_search_initial_step PAR st st' :
  initialize_search PAR st = Ok tt st' ->
  exists m p norm_m norm_p alpha0,
    loadnpy "m_new" (fs st) = Some m
    /\ loadnpy "p_new" (fs st) = Some p
    /\ np.py_max (np.absolute m) = Some norm_m
    /\ np.py_max (np.absolute p) = Some norm_p
    /\ (iter st = 1%Z \/ true_int (restart st) = true ->
        alpha0 = (norm_m / norm_p * STEPINIT PAR)%float)
    /\ (iter st <> 1%Z -> true_int (restart st) = false ->
        LINESEARCH PAR = "Backtrack" -> alpha0 = 1%float)
    /\ (iter st <> 1%Z -> true_int (restart st) = false ->
        LINESEARCH PAR <> "Backtrack" ->
        exists alpha s_new s_old,
          loadtxt "alpha" (fs st) = Some alpha
          /\ loadtxt "s_new" (fs st) = Some s_new
          /\ loadtxt "s_old" (fs st) = Some s_old
          /\ alpha0 = (2 * (s_new / s_old) * alpha)%float)
    /\ loadtxt "alpha" (fs st')
       = Some (step_safeguard PAR (norm_m / norm_p)%float st
                 (ad_hoc_scaling PAR alpha0))
    /\ (np.truthy (STEPOVERSHOOT PAR) = false -> STEPTHRESH PAR = None ->
        loadtxt "alpha" (fs st') = Some alpha0).
Proof.
  unfold initialize_search. intros H.
  destruct (loadnpy "m_new" (fs st)) as [m|] eqn:Em; [|discriminate].
  destruct (loadnpy "p_new" (fs st)) as [p|] eqn:Ep; [|discriminate].
  destruct (loadtxt "f_new" (fs st)) as [f|]; [|discriminate].
  destruct (np.py_max (np.absolute m)) as [norm_m|] eqn:Enm; [|discriminate].
  destruct (np.py_max (np.absolute p)) as [norm_p|] eqn:Enp; [|discriminate].
  destruct (initial_step PAR (norm_m / norm_p)%float (reset_search f st))
    as [e|alpha0] eqn:Hstep; [discriminate|].
  destruct (np.add m _) as [m_try|]; [|discriminate].
  injection H as <-.
  destruct (initial_step_cases _ _ _ _ Hstep) as (H1 & H2 & H3).
  exists m, p, norm_m, norm_p, alpha0.
  do 4 (split; [first [assumption | reflexivity]|]).
  split; [exact H1|]. split; [exact H2|]. split; [exact H3|].
  simpl. rewrite loadtxt_savetxt. split; [reflexivity|].
  intros Ho Ht. unfold step_safeguard, ad_hoc_scaling. rewrite Ho, Ht.
  reflexivity.
Qed.

Lemma initialize_search_initial_step_witness :
  loadtxt "alpha"
    (fs (after (initialize_search (sample_PAR "Bracket" 10)
                  (set_iter 2 (setup sample_dir)))))
  = Some 0.5%float.
Proof.
  destruct (initialize_search_initial_step (sample_PAR "Bracket" 10)
              (set_iter 2 (setup sample_dir))
              (after (initialize_search (sample_PAR "Bracket" 10)
                  (set_iter 2 (setup sample_dir)))))
    as (m & p & norm_m & norm_p & alpha0 & _ & _ & _ & _ & _ & _ & H3 & _ & Hw);
    [vm_compute; reflexivity|].
  rewrite Hw by (vm_compute; reflexivity).
  destruct H3 as (alpha & s_new & s_old & Ha & Hn & Ho & ->);
    [vm_compute; congruence | vm_compute; reflexivity
    | vm_compute; congruence |].
  vm_compute in Ha, Hn, Ho. injection Ha as <-. injection Hn as <-.
  injection Ho as <-. vm_compute. reflexivity.
Defined.

(** ** Line searches *)

Lemma evaluate_loads t st :
  loadtxt "alpha" (fs (evaluate t st)) = Some (fst t)
  /\ loadtxt "f_try" (fs (evaluate t st)) = Some (snd t).
Proof.
  unfold evaluate. simpl. split.
  - rewrite loadtxt_savetxt_ne by discriminate. apply loadtxt_savetxt.
  - apply loadtxt_savetxt.
Qed.

Lemma evaluate_keeps t st :
  search_history (evaluate t st) = search_history st
  /\ step_count (evaluate t st) = step_count st
  /\ isdone (evaluate t st) = isdone st.
Proof. repeat split; reflexivity. Qed.

(** One status call on a recorded trial: the counters it leaves. *)
Lemma search_status_trial PAR t st :
  np.isnan (snd t) = false ->
  exists st',
    search_status PAR (evaluate t st) = Ok (isdone st', isbest st') st'
    /\ step_count st' = (step_count st + 1)%Z
    /\ search_history st' = search_history st ++ [t]
    /\ isdone st'
       = if (STEPMAX PAR <=? step_count st + 1)%Z then (-1)%Z
         else if criteria_met PAR
                   (best_so_far
                      (update_history (fst t) (snd t) (evaluate t st)))
              then 1%Z else isdone st.
Proof.
  intros Hn. destruct (evaluate_loads t st) as [Ha Hf].
  rewrite (search_status_ok _ _ _ _ Ha Hf Hn). cbv zeta.
  set (st1 := best_so_far (update_history (fst t) (snd t) (evaluate t st))).
  destruct (best_so_far_keeps (update_history (fst t) (snd t) (evaluate t st)))
    as (Hh1 & Hc1 & Hd1 & _). fold st1 in Hh1, Hc1, Hd1.
  simpl in Hh1, Hc1, Hd1.
  destruct (stopping_criteria_keeps PAR st1) as (Hh2 & Hc2 & _).
  destruct (max_iter_keeps PAR (stopping_criteria PAR st1))
    as (Hh3 & Hc3 & _).
  eexists. split; [reflexivity|]. split; [|split].
  - rewrite Hc3, Hc2, Hc1. reflexivity.
  - rewrite Hh3, Hh2, Hh1. destruct t; reflexivity.
  - unfold max_iter. rewrite Hc2, Hc1.
    destruct (STEPMAX PAR <=? step_count st + 1)%Z; simpl; [reflexivity|].
    rewrite stopping_criteria_isdone, Hd1. reflexivity.
Qed.

Lemma initialize_search_resets PAR st st0 :
  initialize_search PAR st = Ok tt st0 ->
  exists f,
    loadtxt "f_new" (fs st) = Some f
    /\ search_history st0 = [(0%float, f)]
    /\ step_count st0 = 0%Z /\ isdone st0 = 0%Z
    /\ isbest st0 = 0%Z /\ isbrak st0 = 0%Z.
Proof.
  unfold initialize_search. intros H.
  destruct (loadnpy "m_new" (fs st)) as [m|]; [|discriminate].
  destruct (loadnpy "p_new" (fs st)) as [p|]; [|discriminate].
  destruct (loadtxt "f_new" (fs st)) as [f|]; [|discriminate].
  destruct (np.py_max (np.absolute m)) as [norm_m|]; [|discriminate].
  destruct (np.py_max (np.absolute p)) as [norm_p|]; [|discriminate].
  destruct (initial_step PAR _ _) as [e|alpha0]; [discriminate|].
  destruct (np.add m _) as [m_try|]; [|discriminate].
  injection H as <-. exists f. repeat split; reflexivity.
Qed.

Lemma line_search_until_stepmax PAR trials : forall st,
  trials <> [] ->
  Forall (fun t => np.isnan (snd t) = false) trials ->
  isdone st = 0%Z ->
  (step_count st + Z.of_nat (length trials) = STEPMAX PAR)%Z ->
  never_met PAR trials st = true ->
  exists rs stn,
    line_search PAR trials st = Ok rs stn
    /\ map fst rs = repeat 0%Z (length trials - 1) ++ [(-1)%Z]
    /\ isdone stn = (-1)%Z
    /\ step_count stn = STEPMAX PAR.
Proof.
  induction trials as [|t rest IH]; intros st Hne Hnan Hd Hlen Hnever;
    [congruence|].
  apply Forall_cons_iff in Hnan as [Ht Hnan].
  simpl in Hnever. apply andb_true_iff in Hnever as [Hnow Hnever].
  apply negb_true_iff in Hnow.
  destruct (search_status_trial PAR t st Ht) as (st' & Hrun & Hc & _ & Hdone).
  rewrite Hnow, Hd in Hdone. rewrite Hrun in Hnever. simpl in Hnever.
  simpl line_search. rewrite Hrun.
  destruct rest as [|t' rest'].
  - simpl in Hlen. destruct (Z.leb_spec (STEPMAX PAR) (step_count st + 1));
      [|lia].
    exists [(isdone st', isbest st')], st'. simpl. rewrite Hdone.
    repeat split. lia.
  - destruct (Z.leb_spec (STEPMAX PAR) (step_count st + 1)).
    { simpl length in Hlen. lia. }
    destruct (IH st') as (rs & stn & Hrest & Hrs & Hn & Hcn); try assumption.
    + discriminate.
    + rewrite Hc. simpl length in Hlen |- *. lia.
    + rewrite Hrest. exists ((isdone st', isbest st') :: rs), stn.
      split; [reflexivity|]. split; [|split; assumption].
      replace (length (t :: t' :: rest') - 1)
        with (S (length (t' :: rest') - 1)) by (simpl; lia).
      simpl map. rewrite Hrs, Hdone. reflexivity.
Qed.

(** C2: in a line search whose stopping criterion is met at no status call,
    whatever the strategy, the first [STEPMAX - 1] calls of [search_status]
    return [isdone = 0] and the [STEPMAX]-th call, where [step_count]
    reaches [STEPMAX], returns [isdone = -1]. *)
Theorem stepmax_fails_search PAR st st0 trials :
  initialize_search PAR st = Ok tt st0 ->
  Forall (fun t => np.isnan (snd t) = false) trials ->
  (0 < STEPMAX PAR)%Z ->
  Z.of_nat (length trials) = STEPMAX PAR ->
  never_met PAR trials st0 = true ->
  exists rs stn,
    line_search PAR trials st0 = Ok rs stn
    /\ map fst rs = repeat 0%Z (length trials - 1) ++ [(-1)%Z]
    /\ isdone stn = (-1)%Z
    /\ step_count stn = STEPMAX PAR.
Proof.
  intros Hinit Hnan Hpos Hlen Hnever.
  destruct (initialize_search_resets _ _ _ Hinit) as (f & _ & _ & Hc & Hd & _).
  apply line_search_until_stepmax; try assumption.
  - destruct trials; [simpl in Hlen; lia | discriminate].
  - rewrite Hc. lia.
Qed.

Lemma stepmax_fails_search_witness :
  exists rs stn,
    line_search (sample_PAR "Backtrack" 3)
      [(1%float, 12%float); (0.5%float, 11%float); (0.25%float, 10.5%float)]
      (sample_search "Backtrack" 2)
    = Ok rs stn
    /\ map fst rs = [0%Z; 0%Z; (-1)%Z].
Proof.
  destruct (stepmax_fails_search (sample_PAR "Backtrack" 3)
              (set_iter 2 (setup sample_dir)) (sample_search "Backtrack" 2)
              [(1%float, 12%float); (0.5%float, 11%float);
               (0.25%float, 10.5%float)])
    as (rs & stn & Hrun & Hrs & _).
  - vm_compute. reflexivity.
  - repeat constructor.
  - reflexivity.
  - reflexivity.
  - vm_compute. reflexivity.
  - exists rs, stn. split; [exact Hrun | exact Hrs].
Defined.

(** ** Restart bookkeeping *)

Lemma initialize_search_restart PAR st :
  restart (after (initialize_search PAR st)) = restart st
  /\ restart_count (after (initialize_search PAR st)) = restart_count st.
Proof. unfold initialize_search. repeat case_match; split; reflexivity. Qed.

Lemma search_status_restart PAR st :
  restart (after (search_status PAR st)) = restart st
  /\ restart_count (after (search_status PAR st)) = restart_count st.
Proof.
  unfold search_status, max_iter, stopping_criteria, best_so_far.
  repeat case_match; split; reflexivity.
Qed.

Lemma finalize_search_restart st :
  restart (after (finalize_search st)) = restart st
  /\ restart_count (after (finalize_search st)) = restart_count st.
Proof. unfold finalize_search. repeat case_match; split; reflexivity. Qed.

(** Without a Direction Algorithm (any scheme other than NLCG and LBFGS)
    nothing assigns [self.restart] after [setup]. *)
Lemma run_restart_unset PAR dot d calls :
  String.eqb (SCHEME PAR) "NLCG" || String.eqb (SCHEME PAR) "LBFGS" = false ->
  restart (run PAR dot d calls) = 0%Z.
Proof.
  intros Hs. apply orb_false_iff in Hs as [Hn Hl]. unfold run.
  induction calls as [|c calls IH] using rev_ind; [reflexivity|].
  rewrite fold_left_app. simpl. set (st := fold_left (step PAR dot) calls _) in *.
  destruct c; simpl.
  - unfold compute_direction. rewrite Hn, Hl.
    repeat case_match; simplify_eq; simpl; exact IH.
  - rewrite (proj1 (initialize_search_restart PAR st)). exact IH.
  - rewrite (proj1 (search_status_restart PAR st)). exact IH.
  - rewrite (proj1 (finalize_search_restart st)). exact IH.
  - exact IH.
  - exact IH.
Qed.

Lemma compute_direction_restart_count PAR dot alg st :
  (String.eqb (SCHEME PAR) "NLCG" || String.eqb (SCHEME PAR) "LBFGS" = false ->
   restart st = 0%Z) ->
  restart_count (after (compute_direction PAR dot alg st))
  = (restart_count st + if reports_restart PAR alg st then 1 else 0)%Z.
Proof.
  intros Hinv. unfold compute_direction, reports_restart.
  destruct (loadnpy "g_new" (fs st)) as [g_new|]; simpl; [|lia].
  destruct (String.eqb_spec (SCHEME PAR) "SD") as [Hsd|Hsd].
  - rewrite Hsd in *. simpl in *. rewrite (Hinv eq_refl). simpl.
    destruct (Nat.eqb _ _); simpl; lia.
  - destruct (String.eqb (SCHEME PAR) "NLCG") eqn:Hn; simpl.
    + destruct (true_int (snd alg)), (Nat.eqb _ _); simpl; lia.
    + destruct (String.eqb (SCHEME PAR) "LBFGS") eqn:Hl; simpl.
      * destruct (true_int (snd alg)), (Nat.eqb _ _); simpl; lia.
      * rewrite (Hinv eq_refl). simpl. lia.
Qed.

(** C7: over a whole run [restart_count] starts at 0 ([setup]); every call
    of [compute_direction] in which the Direction Algorithm reports a restart
    adds exactly 1 to it, and every other call of the class, and every other
    [compute_direction] call, leaves it as it is; so it never decreases and is
    never reset. *)
Theorem restart_count_counts_restarts PAR dot d calls c :
  restart_count (setup d) = 0%Z
  /\ restart_count (step PAR dot (run PAR dot d calls) c)
     = (restart_count (run PAR dot d calls)
        + match c with
          | Compute_direction alg =>
              if reports_restart PAR alg (run PAR dot d calls) then 1 else 0
          | _ => 0
          end)%Z
  /\ (restart_count (run PAR dot d calls)
      <= restart_count (step PAR dot (run PAR dot d calls) c))%Z.
Proof.
  assert (Hstep : restart_count (step PAR dot (run PAR dot d calls) c)
     = (restart_count (run PAR dot d calls)
        + match c with
          | Compute_direction alg =>
              if reports_restart PAR alg (run PAR dot d calls) then 1 else 0
          | _ => 0
          end)%Z).
  { destruct c; simpl.
    - apply compute_direction_restart_count. apply run_restart_unset.
    - rewrite (proj2 (initialize_search_restart PAR _)). lia.
    - rewrite (proj2 (search_status_restart PAR _)). lia.
    - rewrite (proj2 (finalize_search_restart _)). lia.
    - lia.
    - lia. }
  split; [reflexivity|]. split; [exact Hstep|]. rewrite Hstep.
  destruct c; try lia. destruct (reports_restart _ _ _); lia.
Qed.

(** ** [finalize_search] *)

Lemma take_all (f : list float) : np.take f (seq 0 (length f)) = f.
Proof.
  apply (nth_ext _ _ nan nan).
  - unfold np.take. rewrite length_map, length_seq. reflexivity.
  - intros n Hn. unfold np.take in *. rewrite length_map, length_seq in Hn.
    rewrite (nth_indep _ nan (np.item f 0))
      by (rewrite length_map, length_seq; exact Hn).
    rewrite map_nth, seq_nth by exact Hn. reflexivity.
Qed.

Lemma func_vals_sorted_perm st :
  Permutation (func_vals true st) (map snd (search_history st)).
Proof.
  unfold func_vals.
  set (f := map snd (search_history st)).
  set (x := map fst (search_history st)).
  rewrite <- (take_all f) at 2. unfold np.take. apply Permutation_map.
  eapply Permutation_trans; [apply argsort_perm|].
  unfold np.absolute, x, f. rewrite !length_map. apply Permutation_refl.
Qed.

Lemma views_length st :
  length (step_lens true st) = length (search_history st)
  /\ length (func_vals true st) = length (search_history st).
Proof.
  unfold step_lens, func_vals, np.take.
  rewrite !length_map, argsort_length. unfold np.absolute.
  rewrite !length_map. auto.
Qed.

Lemma sorted_pair_in_history st k :
  k < length (search_history st) ->
  In (np.item (step_lens true st) k, np.item (func_vals true st) k)
    (search_history st).
Proof.
  intros Hk. destruct (views_length st) as [Hx Hf].
  assert (E : (np.item (step_lens true st) k, np.item (func_vals true st) k)
              = nth k (combine (step_lens true st) (func_vals true st))
                  (nan, nan)).
  { unfold np.item. rewrite combine_nth by congruence. reflexivity. }
  rewrite E, sorted_views.
  set (idx := np.argsort _).
  assert (Hidx : Permutation idx (seq 0 (length (search_history st)))).
  { eapply Permutation_trans; [apply argsort_perm|].
    unfold np.absolute. rewrite !length_map. apply Permutation_refl. }
  assert (Hlen : length idx = length (search_history st)).
  { rewrite (Permutation_length Hidx). apply length_seq. }
  rewrite (nth_indep _ (nan, nan) (nth 0 (search_history st) (nan, nan)))
    by (rewrite length_map; lia).
  pose proof (map_nth (fun i => nth i (search_history st) (nan, nan)) idx 0 k)
    as Hmn.
  cbv beta in Hmn. rewrite Hmn. apply nth_In.
  assert (Hin : In (nth k idx 0) idx) by (apply nth_In; lia).
  apply (Permutation_in _ Hidx), in_seq in Hin. lia.
Qed.

Lemma rotation_succeeds (d : gmap string value) :
  is_Some (d !! "m_new") -> is_Some (d !! "f_new") ->
  is_Some (d !! "g_new") -> is_Some (d !! "p_new") ->
  is_Some (d !! "s_new") ->
  exists d', mv_all rotation d = (true, d').
Proof.
  intros [vm Hm] [vf Hf] [vg Hg] [vp Hp] [vs Hs].
  unfold rotation, mv_all, mv. simplify_map_eq. eauto.
Qed.

Lemma finalize_search_commits st m g p s f0 :
  loadnpy "m_new" (fs st) = Some m ->
  loadnpy "g_new" (fs st) = Some g ->
  loadnpy "p_new" (fs st) = Some p ->
  loadtxt "s_new" (fs st) = Some s ->
  loadtxt "f_new" (fs st) = Some f0 ->
  length m = length p ->
  2 <= length (search_history st) ->
  exists st',
    finalize_search st = Ok tt st'
    /\ loadtxt "alpha" (fs st')
       = Some (np.item (step_lens true st) (np.argmin (func_vals true st)))
    /\ loadnpy "m_new" (fs st')
       = Some (zip_with PrimFloat.add m
                 (np.scale p (np.item (step_lens true st)
                                (np.argmin (func_vals true st)))))
    /\ loadtxt "f_new" (fs st') = Some (np.amin (func_vals true st)).
Proof.
  intros Hm Hg Hp Hs Hf Hlen Hh. unfold finalize_search.
  rewrite Hm, Hg, Hp, Hs.
  destruct (search_history st) as [|e h] eqn:Eh; [simpl in Hh; lia|].
  set (d0 := if (1 <? iter st)%Z then _ else _).
  assert (Hkeep : forall name,
            name <> "alpha" -> name <> "m_try" -> name <> "f_try" ->
            name <> "m_old" -> name <> "f_old" -> name <> "g_old" ->
            name <> "p_old" -> name <> "s_old" ->
            d0 !! name = fs st !! name).
  { intros name ? ? ? ? ? ? ? ?. unfold d0, rm.
    destruct (1 <? iter st)%Z; rewrite ?lookup_delete_ne by congruence;
      reflexivity. }
  unfold loadnpy, loadtxt in Hm, Hg, Hp, Hs, Hf.
  destruct (rotation_succeeds d0) as [d' Hrot].
  1-5: rewrite Hkeep by discriminate.
  - destruct (fs st !! "m_new"); [eauto | discriminate].
  - destruct (fs st !! "f_new"); [eauto | discriminate].
  - destruct (fs st !! "g_new"); [eauto | discriminate].
  - destruct (fs st !! "p_new"); [eauto | discriminate].
  - destruct (fs st !! "s_new"); [eauto | discriminate].
  - rewrite Hrot. unfold np.add, np.scale at 1.
    rewrite length_map, Hlen, Nat.eqb_refl.
    destruct (views_length st) as [_ Hfl]. rewrite Hfl, Eh.
    simpl length.
    destruct (Nat.ltb_spec (S (length h)) 2) as [Hlt|_];
      [simpl in Hh; lia|].
    eexists. split; [reflexivity|]. simpl fs.
    rewrite loadtxt_savetxt_ne, loadtxt_savenpy, loadtxt_savetxt
      by discriminate.
    rewrite loadnpy_savetxt, loadnpy_savenpy by discriminate.
    rewrite loadtxt_savetxt. auto.
Qed.

(** C1: [finalize_search] picks the step length at the position [argmin] of
    the objective values in the |step|-sorted view, writes it to [alpha],
    commits [m_new + alpha * p_new] as the new [m_new] and [f.min()] as the
    new [f_new]; that value is the objective recorded with the chosen step,
    and no entry of the history, baseline included, has a smaller
    objective. *)
Theorem finalize_search_commits_minimum st m g p s f0 :
  loadnpy "m_new" (fs st) = Some m ->
  loadnpy "g_new" (fs st) = Some g ->
  loadnpy "p_new" (fs st) = Some p ->
  loadtxt "s_new" (fs st) = Some s ->
  loadtxt "f_new" (fs st) = Some f0 ->
  length m = length p ->
  2 <= length (search_history st) ->
  exists st' alpha,
    finalize_search st = Ok tt st'
    /\ alpha = np.item (step_lens true st) (np.argmin (func_vals true st))
    /\ loadtxt "alpha" (fs st') = Some alpha
    /\ loadnpy "m_new" (fs st')
       = Some (zip_with PrimFloat.add m (np.scale p alpha))
    /\ loadtxt "f_new" (fs st') = Some (np.amin (func_vals true st))
    /\ In (alpha, np.amin (func_vals true st)) (search_history st)
    /\ (forall xi fi, In (xi, fi) (search_history st) ->
        (fi <? np.amin (func_vals true st))%float = false).
Proof.
  intros Hm Hg Hp Hs Hf Hlen Hh.
  destruct (finalize_search_commits st m g p s f0) as (st' & H1 & H2 & H3 & H4);
    try assumption.
  destruct (views_length st) as [_ Hfl].
  destruct (argmin_spec (func_vals true st)) as (Hk & Hmin & Hamin).
  { intros E. rewrite E in Hfl. simpl in Hfl. lia. }
  exists st', (np.item (step_lens true st) (np.argmin (func_vals true st))).
  split; [exact H1|]. split; [reflexivity|]. split; [exact H2|].
  split; [exact H3|]. split; [exact H4|]. split.
  - rewrite Hamin. apply sorted_pair_in_history. lia.
  - intros xi fi Hin. rewrite Hamin. apply Hmin.
    apply (Permutation_in _ (Permutation_sym (func_vals_sorted_perm st))).
    apply in_map_iff. exists (xi, fi). auto.
Qed.

Lemma finalize_search_commits_minimum_witness :
  exists st',
    finalize_search
      (after (line_search (sample_PAR "Backtrack" 10)
                [(1%float, 12%float); (0.5%float, 8%float)]
                (sample_search "Backtrack" 2)))
    = Ok tt st'
    /\ loadtxt "alpha" (fs st') = Some 0.5%float
    /\ loadnpy "m_new" (fs st') = Some [1.25%float; 1.5%float]
    /\ loadtxt "f_new" (fs st') = Some 8%float.
Proof.
  destruct (finalize_search_commits_minimum
              (after (line_search (sample_PAR "Backtrack" 10)
                        [(1%float, 12%float); (0.5%float, 8%float)]
                        (sample_search "Backtrack" 2)))
              [1%float; 2%float] [1%float; 1%float] [0.5%float; (-1)%float]
              (-1)%float 10%float)
    as (st' & alpha & Hrun & Halpha & Ha & Hm & Hf & _);
    try (vm_compute; reflexivity).
  - vm_compute. lia.
  - exists st'. split; [exact Hrun|]. rewrite Ha, Hm, Hf, Halpha.
    vm_compute. auto.
Defined.

(** ** A search that finds nothing better than the baseline *)

Lemma search_status_inv PAR t st r st' :
  search_status PAR (evaluate t st) = Ok r st' ->
  np.isnan (snd t) = false
  /\ search_history st' = search_history st ++ [t]
  /\ fs st' = fs (evaluate t st).
Proof.
  intros H. destruct (evaluate_loads t st) as [Ha Hf].
  destruct (np.isnan (snd t)) eqn:Hn.
  - unfold search_status in H. rewrite Ha, Hf, Hn in H. discriminate.
  - rewrite (search_status_ok _ _ _ _ Ha Hf Hn) in H. cbv zeta in H.
    injection H as _ <-.
    set (st0 := update_history (fst t) (snd t) (evaluate t st)).
    destruct (best_so_far_keeps st0) as (Hh1 & _ & _ & _ & _ & _ & Hf1).
    destruct (stopping_criteria_keeps PAR (best_so_far st0))
      as (Hh2 & _ & _ & Hf2).
    destruct (max_iter_keeps PAR (stopping_criteria PAR (best_so_far st0)))
      as (Hh3 & _ & _ & _ & Hf3).
    split; [reflexivity|]. split.
    + rewrite Hh3, Hh2, Hh1. destruct t; reflexivity.
    + rewrite Hf3, Hf2, Hf1. reflexivity.
Qed.

Lemma line_search_inv PAR trials : forall st rs stn,
  line_search PAR trials st = Ok rs stn ->
  Forall (fun t => np.isnan (snd t) = false) trials
  /\ search_history stn = search_history st ++ trials
  /\ (forall name, name <> "alpha" -> name <> "f_try" ->
      fs stn !! name = fs st !! name).
Proof.
  induction trials as [|t rest IH]; intros st rs stn H; simpl in H.
  - injection H as _ <-. rewrite app_nil_r. auto.
  - destruct (search_status PAR (evaluate t st)) as [r st'|] eqn:E;
      [|discriminate].
    destruct (line_search PAR rest st') as [rs' st''|] eqn:E';
      [|discriminate].
    injection H as _ <-.
    destruct (search_status_inv _ _ _ _ _ E) as (Hn & Hh & Hfs).
    destruct (IH _ _ _ E') as (Hns & Hhs & Hfss).
    split; [constructor; assumption|]. split.
    + rewrite Hhs, Hh, <- app_assoc. reflexivity.
    + intros name H1 H2. rewrite Hfss, Hfs by assumption.
      unfold evaluate, savetxt. simpl.
      rewrite !lookup_insert_ne by congruence. reflexivity.
Qed.

Lemma initialize_search_fs PAR st st0 :
  initialize_search PAR st = Ok tt st0 ->
  forall name, name <> "alpha" -> name <> "m_try" ->
  fs st0 !! name = fs st !! name.
Proof.
  unfold initialize_search. intros H name H1 H2.
  repeat case_match; simplify_eq. simpl.
  unfold savetxt, savenpy. rewrite !lookup_insert_ne by congruence.
  reflexivity.
Qed.

(** The baseline entry, at step 0, heads the sorted views. *)
Lemma argsort_zero_first x :
  length x <= 15 ->
  exists rest,
    np.argsort (np.absolute (0%float :: x)) = 0 :: rest
    /\ Forall (fun j => 1 <= j < S (length x)) rest.
Proof.
  intros Hshort.
  set (key := np.absolute (0%float :: x)).
  pose proof (argsort_perm key) as Hp.
  assert (Hlen : length key = S (length x)).
  { unfold key, np.absolute. rewrite length_map. reflexivity. }
  assert (Hs : StronglySorted (before key) (np.argsort key))
    by (apply argsort_sorted; lia).
  rewrite Hlen in Hp. simpl seq in Hp.
  destruct (np.argsort key) as [|a rest].
  { apply Permutation_nil in Hp. discriminate. }
  assert (Ha : a = 0).
  { destruct (Nat.eq_dec a 0) as [|Hne]; [assumption|].
    apply StronglySorted_inv in Hs as [_ Hall].
    assert (Hin : In 0 rest).
    { assert (H0 : In 0 (a :: rest))
        by (apply (Permutation_in _ (Permutation_sym Hp)); left; reflexivity).
      destruct H0 as [H0|H0]; [congruence | exact H0]. }
    rewrite List.Forall_forall in Hall.
    destruct (Hall 0 Hin) as [B|[_ B]]; [|lia].
    unfold key in B. rewrite !item_absolute in B.
    change (PrimFloat.abs (np.item (0%float :: x) 0)) with 0%float in B.
    rewrite DOUBLE_LT_abs_zero in B. discriminate. }
  subst a. exists rest. split; [reflexivity|].
  apply Permutation_cons_inv in Hp.
  eapply Permutation_Forall; [apply Permutation_sym, Hp|].
  rewrite List.Forall_forall. intros j Hj. apply in_seq in Hj. lia.
Qed.







(** ** [base.check] *)

Lemma default_union name v (PAR : gmap string config.pyval) :
  config.default name v PAR = PAR ∪ {[name := v]}.
Proof.
  unfold config.default. apply map_eq. intros k.
  rewrite lookup_union. destruct (PAR !! name) as [w|] eqn:E.
  - destruct (decide (name = k)) as [<-|Hne].
    + rewrite E, lookup_singleton_eq. reflexivity.
    + rewrite lookup_singleton_ne by exact Hne.
      destruct (PAR !! k); reflexivity.
  - destruct (decide (name = k)) as [<-|Hne].
    + rewrite lookup_insert_eq, E, lookup_singleton_eq. reflexivity.
    + rewrite lookup_insert_ne, lookup_singleton_ne by exact Hne.
      destruct (PAR !! k); reflexivity.
Qed.

Lemma default_lookup_ne name v (PAR : gmap string config.pyval) k :
  name <> k -> config.default name v PAR !! k = PAR !! k.
Proof.
  intros H. unfold config.default. destruct (PAR !! name); [reflexivity|].
  apply lookup_insert_ne, H.
Qed.

Lemma default_scheme (PAR : gmap string config.pyval) :
  config.default "SCHEME" (config.PyStr "LBFGS") PAR !! "SCHEME"
  = Some (scheme_in_force PAR).
Proof.
  unfold config.default, scheme_in_force.
  destruct (PAR !! "SCHEME") as [v|] eqn:E; [exact E|].
  apply lookup_insert_eq.
Qed.

(** X1: [base.check] raises [ParameterError] exactly when [BEGIN] or [END]
    is missing from the parameters or [SUBMIT] from the paths; with those
    present it raises (an [AttributeError]) exactly when neither [OPTIMIZE]
    nor [GLOBAL] is a known path, and succeeds otherwise. *)
Theorem check_errors (PAR : gmap string config.pyval)
  (PATH : gmap string string) :
  (config.check PAR PATH = inl config.ParameterError
   <-> PAR !! "BEGIN" = None \/ PAR !! "END" = None
       \/ PATH !! "SUBMIT" = None)
  /\ (config.check PAR PATH = inl config.AttributeError
      <-> PAR !! "BEGIN" <> None /\ PAR !! "END" <> None
          /\ PATH !! "SUBMIT" <> None
          /\ PATH !! "OPTIMIZE" = None /\ PATH !! "GLOBAL" = None).
Proof.
  unfold config.check.
  destruct (PAR !! "BEGIN"), (PAR !! "END"), (PATH !! "SUBMIT"),
    (PATH !! "OPTIMIZE"), (PATH !! "GLOBAL"); simpl;
    (split; split; [try discriminate; auto; intros _; auto
                   | try (intros [?|[?|?]]; congruence); auto
                   | try discriminate; auto
                   | try (intros (? & ? & ? & ? & ?); congruence); auto]).
  all: try (repeat split; congruence).
Qed.

(** Closes a closed equation by evaluation. *)
Ltac by_vm :=
  lazymatch goal with
  | |- ?a = _ => vm_cast_no_check (eq_refl a)
  end.

Lemma ending_ok {A : Type} (o : outcome A) (a : A) :
  ending o = inr a -> o = Ok a (after o).
Proof. destruct o; simpl; congruence. Qed.

Lemma ending_raise {A : Type} (o : outcome A) (e : exn) :
  ending o = inl e -> o = Raise e (after o).
Proof. destruct o; simpl; congruence. Qed.

Lemma step_ending_stepped (o : step_outcome) :
  step_ending o = None -> o = Stepped (after_step o).
Proof. destruct o; simpl; congruence. Qed.

(** Closes [o = Ok a st], [o = Raise e st] or [o = Stepped st] for a closed
    call [o] whose final state [st] is written as the state after [o]: only
    the way the call ended is evaluated. *)
Ltac by_run :=
  lazymatch goal with
  | |- ?o = Ok ?a _ =>
      exact_no_check (ending_ok o a (eq_refl (ending o)))
  | |- ?o = Raise ?e _ =>
      exact_no_check (ending_raise o e (eq_refl (ending o)))
  | |- ?o = Stepped _ =>
      exact_no_check (step_ending_stepped o (eq_refl (step_ending o)))
  end.

Lemma check_success (PAR PAR' : gmap string config.pyval)
  (PATH PATH' : gmap string string) :
  config.check PAR PATH = inr (PAR', PATH') ->
  PAR' = PAR ∪ default_table (scheme_in_force PAR)
  /\ (forall p, PATH !! "OPTIMIZE" = Some p -> PATH' = PATH)
  /\ (PATH !! "OPTIMIZE" = None ->
      exists g, PATH !! "GLOBAL" = Some g
                /\ PATH' = <["OPTIMIZE" := posixpath.join g ["optimize"]]> PATH).
Proof.
  unfold config.check. intros H.
  destruct (PAR !! "BEGIN"); [|discriminate].
  destruct (PAR !! "END"); [|discriminate].
  destruct (PATH !! "SUBMIT"); [|discriminate].
  assert (HP : forall P0 : gmap string config.pyval,
             P0 !! "SCHEME" = Some (scheme_in_force PAR) ->
             match P0 !! "LINESEARCH" with
             | Some _ => P0
             | None =>
                 if config.is_str (P0 !! "SCHEME") "LBFGS"
                 then <["LINESEARCH" := config.PyStr "Backtrack"]> P0
                 else <["LINESEARCH" := config.PyStr "Bracket"]> P0
             end
             = config.default "LINESEARCH"
                 (config.PyStr (if config.is_str (Some (scheme_in_force PAR))
                                     "LBFGS"
                                then "Backtrack" else "Bracket")) P0).
  { intros P0 E. unfold config.default. rewrite E.
    destruct (P0 !! "LINESEARCH"); [reflexivity|].
    destruct (config.is_str (Some (scheme_in_force PAR)) "LBFGS"); reflexivity. }
  rewrite HP in H
    by (rewrite default_lookup_ne by discriminate; apply default_scheme).
  rewrite !default_union in H.
  assert (E : PAR' = PAR ∪ default_table (scheme_in_force PAR)
              /\ match PATH !! "OPTIMIZE" with
                 | Some _ => Some PATH
                 | None =>
                     match PATH !! "GLOBAL" with
                     | Some g =>
                         Some (<["OPTIMIZE" := posixpath.join g ["optimize"]]>
                                 PATH)
                     | None => None
                     end
                 end = Some PATH').
  { destruct (match PATH !! "OPTIMIZE" with Some _ => _ | None => _ end)
      as [P1|]; [|discriminate].
    injection H as <- <-. split; [|reflexivity].
    rewrite <- !(assoc_L (∪)). f_equal. }
  destruct E as [E1 E2]. split; [exact E1|]. split.
  - intros q Hq. rewrite Hq in E2. congruence.
  - intros Hn. rewrite Hn in E2.
    destruct (PATH !! "GLOBAL") as [g|]; [|discriminate].
    exists g. split; congruence.
Qed.

(** X2: a successful [base.check] completes the parameter table with the
    table of defaults, given values winning, where the default line search
    is Backtrack for the LBFGS scheme and Bracket otherwise; it adds the path
    [OPTIMIZE], as [GLOBAL/optimize], only when it is not given. *)
Theorem check_fills_defaults (PAR PAR' : gmap string config.pyval)
  (PATH PATH' : gmap string string) :
  config.check PAR PATH = inr (PAR', PATH') ->
  PAR' = PAR ∪ default_table (scheme_in_force PAR)
  /\ (forall p, PATH !! "OPTIMIZE" = Some p -> PATH' = PATH)
  /\ (PATH !! "OPTIMIZE" = None ->
      exists g, PATH !! "GLOBAL" = Some g
                /\ PATH' = <["OPTIMIZE" := posixpath.join g ["optimize"]]> PATH).
Proof. apply check_success. Qed.

Lemma check_fills_defaults_witness :
  exists g,
    sample_paths !! "GLOBAL" = Some g
    /\ <["OPTIMIZE" := "/scratch/run/optimize"]> sample_paths
       = <["OPTIMIZE" := posixpath.join g ["optimize"]]> sample_paths.
Proof.
  assert (E : config.check sample_table sample_paths
              = inr (sample_table ∪ default_table (config.PyStr "NLCG"),
                     <["OPTIMIZE" := "/scratch/run/optimize"]> sample_paths))
    by by_vm.
  destruct (check_fills_defaults _ _ _ _ E) as (_ & _ & H).
  apply H. by_vm.
Defined.

Lemma scheme_in_force_completed (PAR : gmap string config.pyval) :
  scheme_in_force (PAR ∪ default_table (scheme_in_force PAR))
  = scheme_in_force PAR.
Proof.
  unfold scheme_in_force at 1. rewrite lookup_union.
  unfold scheme_in_force. destruct (PAR !! "SCHEME") as [v|]; reflexivity.
Qed.

(** X3: [base.check] is idempotent: run on the tables it returned, it
    succeeds and returns them unchanged. *)
Theorem check_idempotent (PAR PAR' : gmap string config.pyval)
  (PATH PATH' : gmap string string) :
  config.check PAR PATH = inr (PAR', PATH') ->
  config.check PAR' PATH' = inr (PAR', PATH').
Proof.
  intros E. destruct (check_success _ _ _ _ E) as (HP & Hsome & Hnone).
  assert (Hin : is_Some (PAR !! "BEGIN") /\ is_Some (PAR !! "END")
                /\ is_Some (PATH !! "SUBMIT")).
  { unfold config.check in E.
    destruct (PAR !! "BEGIN"); [|discriminate].
    destruct (PAR !! "END"); [|discriminate].
    destruct (PATH !! "SUBMIT"); [|discriminate]. eauto. }
  destruct Hin as ([b Hb] & [e He] & [sub Hs]).
  assert (Hopt : is_Some (PATH' !! "OPTIMIZE") /\ PATH' !! "SUBMIT" = Some sub).
  { destruct (PATH !! "OPTIMIZE") as [o|] eqn:Eo.
    - rewrite (Hsome o eq_refl), Eo. eauto.
    - destruct (Hnone eq_refl) as (g & _ & ->).
      rewrite lookup_insert_eq, lookup_insert_ne by discriminate. eauto. }
  destruct Hopt as [[o Ho] Hs'].
  destruct (config.check PAR' PATH') as [err|[PAR'' PATH'']] eqn:E'.
  - exfalso. unfold config.check in E'.
    rewrite HP in E'.
    rewrite (lookup_union_Some_l _ _ _ _ Hb),
      (lookup_union_Some_l _ _ _ _ He), Hs', Ho in E'. discriminate.
  - destruct (check_success _ _ _ _ E') as (HP' & Hsome' & _).
    rewrite (Hsome' o Ho), HP'. f_equal. f_equal. rewrite HP.
    rewrite scheme_in_force_completed, <- (assoc_L (∪)), (idemp_L (∪)).
    reflexivity.
Qed.

Lemma check_idempotent_witness :
  config.check (sample_table ∪ default_table (config.PyStr "NLCG"))
    (<["OPTIMIZE" := "/scratch/run/optimize"]> sample_paths)
  = inr (sample_table ∪ default_table (config.PyStr "NLCG"),
         <["OPTIMIZE" := "/scratch/run/optimize"]> sample_paths).
Proof.
  apply (check_idempotent sample_table _ sample_paths). by_vm.
Defined.

(** ** [tiger_sm.check] *)

Lemma append_empty_inv a b : String.append a b = "" -> a = "" /\ b = "".
Proof. destruct a; simpl; [auto | discriminate]. Qed.

Lemma append_assoc a b c :
  String.append (String.append a b) c = String.append a (String.append b c).
Proof.
  induction a as [|x a IH]; [reflexivity|].
  change (String x (String.append (String.append a b) c)
          = String x (String.append a (String.append b c))).
  rewrite IH. reflexivity.
Qed.

Lemma endswith_sep_append a b :
  b <> "" -> posixpath.endswith_sep (String.append a b)
             = posixpath.endswith_sep b.
Proof.
  intros Hb. induction a as [|c a IH]; [reflexivity|].
  change (String.append (String c a) b) with (String c (String.append a b)).
  destruct (String.append a b) as [|c' r] eqn:E.
  - apply append_empty_inv in E as [_ E]. congruence.
  - exact IH.
Qed.

(** X4: with no leading separator in the user name and the run identifier,
    and a user name that is not empty and does not end in a separator, the
    default scratch path of [tiger_sm.check],
    [join('/scratch/gpfs', user, 'seisflows', uuid)], is
    [/scratch/gpfs/<user>/seisflows/<uuid>]. *)
Theorem scratch_path user id :
  user <> "" ->
  posixpath.startswith_sep user = false ->
  posixpath.endswith_sep user = false ->
  posixpath.startswith_sep id = false ->
  posixpath.join "/scratch/gpfs" [user; "seisflows"; id]
  = String.append "/scratch/gpfs/"
      (String.append user (String.append "/seisflows/" id)).
Proof.
  intros Hne Hs He Hi. unfold posixpath.join. simpl fold_left.
  unfold posixpath.join_step at 3. rewrite Hs. simpl orb. cbv iota.
  unfold posixpath.join_step at 2. simpl posixpath.startswith_sep. cbv iota.
  assert (E1 : String.eqb (String.append "/scratch/gpfs" (String.append "/" user)) ""
               = false) by reflexivity.
  rewrite E1.
  rewrite (endswith_sep_append "/scratch/gpfs" (String.append "/" user))
    by discriminate.
  rewrite (endswith_sep_append "/" user) by exact Hne.
  rewrite He. simpl orb. cbv iota.
  unfold posixpath.join_step. rewrite Hi.
  set (p := String.append _ (String.append "/" "seisflows")).
  assert (E2 : String.eqb p "" = false).
  { apply String.eqb_neq. intros H. apply append_empty_inv in H as [H _].
    discriminate. }
  assert (E3 : posixpath.endswith_sep p = false).
  { unfold p. rewrite endswith_sep_append by discriminate. reflexivity. }
  rewrite E2, E3. simpl orb. cbv iota. unfold p.
  rewrite !append_assoc. reflexivity.
Qed.

Lemma scratch_path_witness :
  posixpath.join "/scratch/gpfs" ["rmodrak"; "seisflows"; "0e1a-42"]
  = "/scratch/gpfs/rmodrak/seisflows/0e1a-42".
Proof.
  apply (scratch_path "rmodrak" "0e1a-42"); [discriminate | reflexivity..].
Defined.

Lemma local_default (PATH : gmap string string) :
  match PATH !! "LOCAL" with
  | Some _ => PATH
  | None => <["LOCAL" := ""]> PATH
  end = PATH ∪ {["LOCAL" := ""]}.
Proof.
  apply map_eq. intros k. rewrite lookup_union.
  destruct (PATH !! "LOCAL") as [w|] eqn:E;
    destruct (decide ("LOCAL" = k)) as [<-|Hne];
    rewrite ?E, ?lookup_insert_eq, ?lookup_singleton_eq,
      ?lookup_insert_ne, ?lookup_singleton_ne by exact Hne;
    try rewrite E; try reflexivity; destruct (PATH !! k); reflexivity.
Qed.

(** X5: [tiger_sm.check] hands the parent's check the tables completed with
    its own defaults and nothing else changed: [UUID] is the fresh identifier
    unless given, [SCRATCH] is the joined scratch path for the identifier in
    force unless given, and [LOCAL] is the empty string unless given. *)
Theorem tiger_check_defaults (result : Type)
  (super_check : gmap string config.pyval -> gmap string string -> result)
  (uuid user : string) (PAR : gmap string config.pyval)
  (PATH : gmap string string) :
  (PATH !! "SCRATCH" = None ->
   forall v, PAR !! "UUID" = Some v -> exists s, v = config.PyStr s) ->
  exists PAR' PATH',
    tiger_sm.check result super_check uuid user PAR PATH
    = Some (super_check PAR' PATH')
    /\ PAR' = PAR ∪ {["UUID" := config.PyStr uuid]}
    /\ (forall p, PATH !! "SCRATCH" = Some p ->
        PATH' = PATH ∪ {["LOCAL" := ""]})
    /\ (PATH !! "SCRATCH" = None ->
        exists id,
          PAR' !! "UUID" = Some (config.PyStr id)
          /\ PATH' = <["SCRATCH" := posixpath.join "/scratch/gpfs"
                                     [user; "seisflows"; id]]> PATH
                     ∪ {["LOCAL" := ""]}).
Proof.
  intros Hstr. unfold tiger_sm.check, tiger_sm.check_defaults.
  rewrite default_union.
  destruct (PATH !! "SCRATCH") as [p|] eqn:Es.
  - rewrite local_default. do 2 eexists. split; [reflexivity|].
    split; [reflexivity|]. split; [reflexivity | discriminate].
  - assert (Hid : exists id,
              (PAR ∪ {["UUID" := config.PyStr uuid]}) !! "UUID"
              = Some (config.PyStr id)).
    { rewrite lookup_union. destruct (PAR !! "UUID") as [v|] eqn:Eu.
      - destruct (Hstr eq_refl v eq_refl) as [s ->]. exists s.
        rewrite lookup_singleton_eq. reflexivity.
      - exists uuid. rewrite lookup_singleton_eq. reflexivity. }
    destruct Hid as [id Hid]. rewrite Hid. simpl tiger_sm.component.
    cbv iota. rewrite local_default. do 2 eexists.
    split; [reflexivity|]. split; [reflexivity|].
    split; [discriminate|]. intros _. exists id. auto.
Qed.

Lemma tiger_check_defaults_witness :
  tiger_sm.check unit (fun _ _ => tt) "0e1a-42" "rmodrak" sample_table
    sample_paths
  = Some tt.
Proof.
  destruct (tiger_check_defaults unit (fun _ _ => tt) "0e1a-42" "rmodrak"
              sample_table sample_paths) as (PAR' & PATH' & H & _).
  - intros _ v Hv. exfalso. revert Hv.
    change (sample_table !! "UUID") with (@None config.pyval). discriminate.
  - exact H.
Defined.

(** ** [compute_direction] *)

Lemma binary_round_aux_nonpos mx ex lx :
  sf_nonpos (binary_round_aux prec emax true mx ex lx).
Proof.
  unfold binary_round_aux.
  destruct (shr_fexp prec emax mx ex lx) as [mrs' e'].
  destruct (shr_fexp prec emax _ e' loc_Exact) as [mrs'' e''].
  destruct (shr_m mrs''); simpl; auto.
  destruct (Z.leb _ _); reflexivity.
Qed.

Lemma binary_round_nonpos m e : sf_nonpos (binary_round prec emax true m e).
Proof.
  unfold binary_round. destruct (shl_align _ _ _) as [mz ez].
  apply binary_round_aux_nonpos.
Qed.

Lemma SFmul_opp_nonpos x : sf_nonpos (SF64mul x (SFopp x)).
Proof.
  destruct x as [s|s| |s m e]; simpl; auto.
  - destruct s; reflexivity.
  - replace (xorb s (negb s)) with true by (destruct s; reflexivity).
    apply binary_round_aux_nonpos.
Qed.

Lemma SFadd_nonpos x y :
  sf_nonpos x -> sf_nonpos y -> sf_nonpos (SF64add x y).
Proof.
  intros Hx Hy. unfold SF64add, SFadd.
  destruct x as [sx|sx| |sx mx ex], y as [sy|sy| |sy my ey];
    simpl in Hx, Hy; subst; try exact I; try reflexivity.
  all: try (destruct sx, sy; exact I).
  destruct (shl_align mx ex (Z.min ex ey)) as [mx' ex'].
  destruct (shl_align my ey (Z.min ex ey)) as [my' ey'].
  simpl. apply binary_round_nonpos.
Qed.

Lemma nonpos_not_above_zero x :
  sf_nonpos (Prim2SF x) -> (0 <? x)%float = false.
Proof.
  rewrite ltb_spec. change (Prim2SF 0) with (S754_zero false).
  destruct (Prim2SF x) as [s|s| |s m e]; simpl; intros H; subst; reflexivity.
Qed.

Lemma not_above_zero_nonpos x :
  (0 <? x)%float = false -> sf_nonpos (Prim2SF x).
Proof.
  rewrite ltb_spec. change (Prim2SF 0) with (S754_zero false).
  destruct (Prim2SF x) as [s|s| |s m e]; simpl; try (intros _; exact I).
  - destruct s; [reflexivity | discriminate].
  - destruct s; [reflexivity | discriminate].
Qed.

Lemma mul_opp_not_above_zero x : (0 <? x * - x)%float = false.
Proof.
  apply nonpos_not_above_zero. rewrite mul_spec, opp_spec.
  apply SFmul_opp_nonpos.
Qed.

Lemma opposite_products g :
  Forall2 (fun x y => (0 <? x * y)%float = false) g (map PrimFloat.opp g).
Proof.
  induction g as [|x g IH]; simpl; constructor;
    [apply mul_opp_not_above_zero | exact IH].
Qed.

Lemma sample_dot_keeps_sign : keeps_sign sample_dot.
Proof.
  unfold keeps_sign, sample_dot. intros a b H.
  apply nonpos_not_above_zero.
  assert (G : forall acc, sf_nonpos (Prim2SF acc) ->
            sf_nonpos
              (Prim2SF (fold_left (fun acc '(x, y) => (acc + x * y)%float)
                          (combine a b) acc))).
  { induction H as [|x y a b Hxy H IH]; intros acc Hacc; simpl;
      [exact Hacc|].
    apply IH. rewrite add_spec. apply SFadd_nonpos; [exact Hacc|].
    apply not_above_zero_nonpos, Hxy. }
  apply G. exact I.
Qed.

(** X6: under steepest descent ([SCHEME = 'SD']) [compute_direction]
    succeeds whenever [g_new] is stored, writes [p_new = -g_new] and, as the
    slope [s_new], what [np.dot] answers on [g_new] and [p_new], and leaves
    the restart flag as it was; the slope is not positive for any dot
    product that keeps the sign of sums of non-positive products, since no
    product [g * -g] is positive. *)
Theorem steepest_descent_direction PAR dot alg st g :
  SCHEME PAR = "SD" ->
  loadnpy "g_new" (fs st) = Some g ->
  exists st',
    compute_direction PAR dot alg st = Ok tt st'
    /\ loadnpy "p_new" (fs st') = Some (map PrimFloat.opp g)
    /\ loadtxt "s_new" (fs st') = Some (dot g (map PrimFloat.opp g))
    /\ (keeps_sign dot ->
        (0 <? dot g (map PrimFloat.opp g))%float = false)
    /\ restart st' = restart st.
Proof.
  intros Hs Hg. unfold compute_direction. rewrite Hg, Hs. simpl String.eqb.
  cbv iota beta. rewrite length_map, Nat.eqb_refl.
  eexists. split; [reflexivity|]. simpl.
  rewrite loadnpy_savetxt, loadnpy_savenpy, loadtxt_savetxt by discriminate.
  split; [reflexivity|]. split; [reflexivity|]. split.
  - intros Hdot. apply Hdot, opposite_products.
  - destruct (true_int (restart st)); reflexivity.
Qed.

Lemma steepest_descent_direction_witness :
  exists st',
    compute_direction sample_SD sample_dot ([], 0%Z) (setup sample_dir)
    = Ok tt st'
    /\ loadtxt "s_new" (fs st') = Some (-2)%float
    /\ (0 <? sample_dot [1; 1] [-1; -1])%float = false.
Proof.
  destruct (steepest_descent_direction sample_SD sample_dot ([], 0%Z)
              (setup sample_dir) [1%float; 1%float])
    as (st' & Hrun & _ & Hs & Hsign & _); [reflexivity | by_vm |].
  exists st'. split; [exact Hrun|]. split.
  - rewrite Hs. f_equal.
  - apply Hsign, sample_dot_keeps_sign.
Defined.

Lemma not_in_two (name a b : string) : ~ In name [a; b] -> a <> name /\ b <> name.
Proof. simpl. intros H. split; intros ->; apply H; auto. Qed.

(** X7: whatever the scheme and the outcome, [compute_direction] changes
    no file but [p_new] and [s_new] and none of the line-search attributes;
    it raises [IOError] on the untouched state when [g_new] is missing, and
    for a scheme other than SD, NLCG and LBFGS it raises (a [NameError])
    without writing any file. *)
Theorem compute_direction_effects PAR dot alg st :
  same_files_except ["p_new"; "s_new"] (fs st)
    (fs (after (compute_direction PAR dot alg st)))
  /\ iter (after (compute_direction PAR dot alg st)) = iter st
  /\ search_history (after (compute_direction PAR dot alg st))
     = search_history st
  /\ step_count (after (compute_direction PAR dot alg st)) = step_count st
  /\ isdone (after (compute_direction PAR dot alg st)) = isdone st
  /\ isbest (after (compute_direction PAR dot alg st)) = isbest st
  /\ isbrak (after (compute_direction PAR dot alg st)) = isbrak st
  /\ (loadnpy "g_new" (fs st) = None ->
      compute_direction PAR dot alg st = Raise IOError st)
  /\ (loadnpy "g_new" (fs st) <> None ->
      SCHEME PAR <> "SD" -> SCHEME PAR <> "NLCG" -> SCHEME PAR <> "LBFGS" ->
      exists st', compute_direction PAR dot alg st = Raise NameError st'
                  /\ fs st' = fs st).
Proof.
  unfold compute_direction.
  destruct (loadnpy "g_new" (fs st)) as [g|].
  - destruct (String.eqb_spec (SCHEME PAR) "SD");
      [|destruct (String.eqb_spec (SCHEME PAR) "NLCG");
        [|destruct (String.eqb_spec (SCHEME PAR) "LBFGS")]].
    1-3: (split; [|repeat split; try congruence;
                   destruct (true_int _), (Nat.eqb _ _); reflexivity]);
         intros name Hn; apply not_in_two in Hn as [H1 H2];
         destruct (true_int _), (Nat.eqb _ _); simpl;
         unfold savetxt, savenpy;
         rewrite !lookup_insert_ne by assumption; reflexivity.
    split; [intros name _; destruct (true_int _); reflexivity|].
    repeat split; try (destruct (true_int _); reflexivity); try congruence.
    intros _ _ _ _. eexists. split; [reflexivity|].
    destruct (true_int _); reflexivity.
  - split; [intros name _; reflexivity|]. repeat split; congruence.
Qed.

(** ** [initialize_search]: effects *)

Lemma initialize_search_inv PAR st st' :
  initialize_search PAR st = Ok tt st' ->
  exists m p f norm_m norm_p alpha0 m_try,
    loadnpy "m_new" (fs st) = Some m
    /\ loadnpy "p_new" (fs st) = Some p
    /\ loadtxt "f_new" (fs st) = Some f
    /\ np.py_max (np.absolute m) = Some norm_m
    /\ np.py_max (np.absolute p) = Some norm_p
    /\ initial_step PAR (norm_m / norm_p)%float (reset_search f st)
       = inr alpha0
    /\ np.add m (np.scale p (step_safeguard PAR (norm_m / norm_p)%float st
                               (ad_hoc_scaling PAR alpha0))) = Some m_try
    /\ st' = set_fs (savetxt "alpha"
                       (step_safeguard PAR (norm_m / norm_p)%float st
                          (ad_hoc_scaling PAR alpha0))
                       (savenpy "m_try" m_try (fs st))) (reset_search f st).
Proof.
  unfold initialize_search. intros H.
  destruct (loadnpy "m_new" (fs st)) as [m|]; [|discriminate].
  destruct (loadnpy "p_new" (fs st)) as [p|]; [|discriminate].
  destruct (loadtxt "f_new" (fs st)) as [f|]; [|discriminate].
  destruct (np.py_max (np.absolute m)) as [norm_m|] eqn:Enm; [|discriminate].
  destruct (np.py_max (np.absolute p)) as [norm_p|] eqn:Enp; [|discriminate].
  destruct (initial_step PAR _ _) as [e|alpha0] eqn:Es; [discriminate|].
  destruct (np.add m _) as [m_try|] eqn:Ea; [|discriminate].
  injection H as <-.
  exists m, p, f, norm_m, norm_p, alpha0, m_try.
  repeat split; assumption.
Qed.

(** X8: after a successful [initialize_search] the stored trial model is
    the model moved along the direction by the stored step,
    [m_try = m_new + p_new * alpha]; no other file is changed, and the
    outer-iteration attributes [iter], [restart] and [restart_count] are
    kept. *)
Theorem initialize_search_trial_model PAR st st' :
  initialize_search PAR st = Ok tt st' ->
  exists m p alpha m_try,
    loadnpy "m_new" (fs st) = Some m
    /\ loadnpy "p_new" (fs st) = Some p
    /\ loadtxt "alpha" (fs st') = Some alpha
    /\ np.add m (np.scale p alpha) = Some m_try
    /\ loadnpy "m_try" (fs st') = Some m_try
    /\ same_files_except ["m_try"; "alpha"] (fs st) (fs st')
    /\ iter st' = iter st /\ restart st' = restart st
    /\ restart_count st' = restart_count st.
Proof.
  intros H. destruct (initialize_search_inv _ _ _ H)
    as (m & p & f & nm & np' & a0 & m_try & Hm & Hp & _ & _ & _ & _ & Ha & ->).
  exists m, p, (step_safeguard PAR (nm / np')%float st (ad_hoc_scaling PAR a0)),
    m_try.
  simpl. rewrite loadtxt_savetxt, loadnpy_savetxt, loadnpy_savenpy
    by discriminate.
  repeat split; try assumption.
  intros name Hn. apply not_in_two in Hn as [H1 H2].
  unfold savetxt, savenpy. rewrite !lookup_insert_ne by assumption.
  reflexivity.
Qed.

Lemma initialize_search_trial_model_witness :
  loadnpy "m_try" (fs (sample_search "Backtrack" 2))
  = Some [1.5%float; 1%float].
Proof.
  destruct (initialize_search_trial_model (sample_PAR "Backtrack" 10)
              (set_iter 2 (setup sample_dir)) (sample_search "Backtrack" 2))
    as (m & p & alpha & m_try & Hm & Hp & Ha & Hadd & -> & _); [by_run|].
  rewrite <- Hadd. f_equal.
  assert (Em : Some m = Some [1%float; 2%float]) by (rewrite <- Hm; by_vm).
  assert (Ep : Some p = Some [0.5%float; (-1)%float])
    by (rewrite <- Hp; by_vm).
  assert (Ea : Some alpha = Some 1%float) by (rewrite <- Ha; by_vm).
  injection Em as ->. injection Ep as ->. injection Ea as ->. by_vm.
Defined.

(** X9: with a step threshold configured ([STEPTHRESH] set and non-zero)
    and beyond the first iteration, the initial step that
    [initialize_search] writes is never above [p_ratio * STEPTHRESH]. *)
Theorem initialize_search_step_bounded PAR st st' thresh :
  initialize_search PAR st = Ok tt st' ->
  STEPTHRESH PAR = Some thresh ->
  np.truthy thresh = true ->
  (1 < iter st)%Z ->
  exists m p norm_m norm_p alpha,
    loadnpy "m_new" (fs st) = Some m
    /\ loadnpy "p_new" (fs st) = Some p
    /\ np.py_max (np.absolute m) = Some norm_m
    /\ np.py_max (np.absolute p) = Some norm_p
    /\ loadtxt "alpha" (fs st') = Some alpha
    /\ (norm_m / norm_p * thresh <? alpha)%float = false.
Proof.
  intros H Ht Htr Hi. destruct (initialize_search_inv _ _ _ H)
    as (m & p & f & nm & np' & a0 & m_try & Hm & Hp & _ & Hnm & Hnp & _ & _ & ->).
  exists m, p, nm, np', (step_safeguard PAR (nm / np')%float st
                           (ad_hoc_scaling PAR a0)).
  simpl. rewrite loadtxt_savetxt.
  repeat split; try assumption.
  unfold step_safeguard. rewrite Ht, Htr.
  destruct (Z.ltb_spec 1 (iter st)); [|lia]. rewrite andb_true_r.
  destruct (nm / np' * thresh <? ad_hoc_scaling PAR a0)%float eqn:E;
    [apply ltb_irrefl | exact E].
Qed.

Lemma initialize_search_step_bounded_witness :
  loadtxt "alpha"
    (fs (after (initialize_search sample_thresh
                  (set_iter 2 (setup sample_dir)))))
  = Some 0.5%float.
Proof.
  destruct (initialize_search_step_bounded sample_thresh
              (set_iter 2 (setup sample_dir))
              (after (initialize_search sample_thresh
                        (set_iter 2 (setup sample_dir)))) 0.25%float)
    as (m & p & nm & np' & alpha & _ & _ & _ & _ & Ha & _);
    [by_run | reflexivity | reflexivity | reflexivity |].
  by_vm.
Defined.

(** X10: in the first iteration, after a restart, or under the Backtrack
    strategy, [initialize_search] reads only [m_new], [p_new] and [f_new]:
    it succeeds whenever they are stored and the two vectors are non-empty
    and of equal length. *)
Theorem initialize_search_returns PAR st m p f :
  loadnpy "m_new" (fs st) = Some m ->
  loadnpy "p_new" (fs st) = Some p ->
  loadtxt "f_new" (fs st) = Some f ->
  m <> [] ->
  length m = length p ->
  iter st = 1%Z \/ true_int (restart st) = true
  \/ LINESEARCH PAR = "Backtrack" ->
  exists st', initialize_search PAR st = Ok tt st'.
Proof.
  intros Hm Hp Hf Hne Hlen Hcase. unfold initialize_search.
  rewrite Hm, Hp, Hf.
  destruct m as [|m0 m]; [congruence|].
  destruct p as [|p0 p]; [discriminate|]. simpl np.py_max. cbv iota.
  set (p_ratio := (_ / _)%float).
  assert (Hs : exists alpha0,
             initial_step PAR p_ratio (reset_search f st) = inr alpha0).
  { unfold initial_step. simpl iter. simpl restart.
    destruct (Z.eqb_spec (iter st) 1); [eauto|].
    destruct (true_int (restart st)); [eauto|].
    destruct Hcase as [?|[?|Hb]]; try congruence.
    rewrite Hb. simpl. eauto. }
  destruct Hs as [alpha0 ->].
  unfold np.add, np.scale. rewrite length_map, Hlen, Nat.eqb_refl. eauto.
Qed.

Lemma initialize_search_returns_witness :
  exists st',
    initialize_search (sample_PAR "Bracket" 10) (setup sample_first)
    = Ok tt st'.
Proof.
  apply (initialize_search_returns (sample_PAR "Bracket" 10)
           (setup sample_first) [1%float; 2%float] [0.5%float; (-1)%float]
           10%float); try by_vm; [discriminate | auto].
Defined.

(** X11: a failing [initialize_search] writes no file; it may already have
    reset the line-search attributes, but leaves [iter], [restart] and
    [restart_count] alone. *)
Theorem initialize_search_failure PAR st e st' :
  initialize_search PAR st = Raise e st' ->
  fs st' = fs st /\ iter st' = iter st /\ restart st' = restart st
  /\ restart_count st' = restart_count st
  /\ (st' = st \/ exists f, loadtxt "f_new" (fs st) = Some f
                             /\ st' = reset_search f st).
Proof.
  unfold initialize_search. intros H.
  repeat case_match; simplify_eq; simpl; repeat split; eauto.
Qed.

Lemma initialize_search_failure_witness :
  fs (after (initialize_search (sample_PAR "Bracket" 10)
               (set_iter 2 (setup sample_first))))
  = sample_first.
Proof.
  apply (initialize_search_failure (sample_PAR "Bracket" 10)
           (set_iter 2 (setup sample_first)) IOError
           (after (initialize_search (sample_PAR "Bracket" 10)
                     (set_iter 2 (setup sample_first))))).
  by_run.
Defined.

(** ** Line searches: invariants *)

Lemma line_search_snoc PAR trials : forall t st,
  line_search PAR (trials ++ [t]) st
  = match line_search PAR trials st with
    | Raise e st' => Raise e st'
    | Ok rs st' =>
        match search_status PAR (evaluate t st') with
        | Raise e st'' => Raise e st''
        | Ok r st'' => Ok (rs ++ [r]) st''
        end
    end.
Proof.
  induction trials as [|t0 trials IH]; intros t st; simpl.
  - destruct (search_status PAR (evaluate t st)); reflexivity.
  - destruct (search_status PAR (evaluate t0 st)) as [r st'|e st'];
      [|reflexivity].
    rewrite IH. destruct (line_search PAR trials st') as [rs st''|e st''];
      [|reflexivity].
    destruct (search_status PAR (evaluate t st'')); reflexivity.
Qed.

(** One successful status call, spelled out. *)
Lemma search_status_call PAR t st r st' :
  search_status PAR (evaluate t st) = Ok r st' ->
  np.isnan (snd t) = false
  /\ st' = max_iter PAR (stopping_criteria PAR
             (best_so_far (update_history (fst t) (snd t) (evaluate t st))))
  /\ r = (isdone st', isbest st').
Proof.
  intros H. destruct (evaluate_loads t st) as [Ha Hf].
  destruct (np.isnan (snd t)) eqn:Hn.
  - unfold search_status in H. rewrite Ha, Hf, Hn in H. discriminate.
  - rewrite (search_status_ok _ _ _ _ Ha Hf Hn) in H. cbv zeta in H.
    injection H as <- <-. auto.
Qed.

Lemma stopping_criteria_frame PAR st :
  iter (stopping_criteria PAR st) = iter st
  /\ restart (stopping_criteria PAR st) = restart st
  /\ restart_count (stopping_criteria PAR st) = restart_count st.
Proof. unfold stopping_criteria. repeat case_match; auto. Qed.

Lemma max_iter_frame PAR st :
  iter (max_iter PAR st) = iter st
  /\ restart (max_iter PAR st) = restart st
  /\ restart_count (max_iter PAR st) = restart_count st.
Proof. unfold max_iter. case_match; auto. Qed.

(** What one successful status call does to each attribute. *)
Lemma search_status_attributes PAR t st r st' :
  search_status PAR (evaluate t st) = Ok r st' ->
  let st1 := best_so_far (update_history (fst t) (snd t) (evaluate t st)) in
  np.isnan (snd t) = false
  /\ r = (isdone st', isbest st')
  /\ search_history st' = search_history st ++ [t]
  /\ step_count st' = (step_count st + 1)%Z
  /\ iter st' = iter st /\ restart st' = restart st
  /\ search_history st1 = search_history st ++ [t]
  /\ iter st1 = iter st /\ restart st1 = restart st
  /\ isbrak st1 = isbrak st /\ isdone st1 = isdone st
  /\ isbest st'
     = (if np.last_below_all (map snd (search_history st ++ [t]))
        then 1%Z else isbest st)
  /\ isdone st'
     = (if (STEPMAX PAR <=? step_count st + 1)%Z then (-1)%Z
        else if criteria_met PAR st1 then 1%Z else isdone st)
  /\ isbrak st' = isbrak (stopping_criteria PAR st1).
Proof.
  intros H st1. destruct (search_status_call _ _ _ _ _ H) as (Hn & -> & ->).
  fold st1.
  destruct (best_so_far_keeps (update_history (fst t) (snd t) (evaluate t st)))
    as (Hh1 & Hc1 & Hd1 & Hb1 & Hi1 & Hr1 & _).
  fold st1 in Hh1, Hc1, Hd1, Hb1, Hi1, Hr1.
  simpl in Hh1, Hc1, Hd1, Hb1, Hi1, Hr1.
  assert (Hh1' : search_history st1 = search_history st ++ [t])
    by (rewrite Hh1; destruct t; reflexivity).
  destruct (stopping_criteria_keeps PAR st1) as (Hh2 & Hc2 & Hbest2 & _).
  destruct (stopping_criteria_frame PAR st1) as (Hi2 & Hr2 & _).
  destruct (max_iter_keeps PAR (stopping_criteria PAR st1))
    as (Hh3 & Hc3 & Hbest3 & Hbrak3 & _).
  destruct (max_iter_frame PAR (stopping_criteria PAR st1)) as (Hi3 & Hr3 & _).
  split; [exact Hn|]. split; [reflexivity|].
  split; [rewrite Hh3, Hh2; exact Hh1'|].
  split; [rewrite Hc3, Hc2; exact Hc1|].
  split; [rewrite Hi3, Hi2; exact Hi1|].
  split; [rewrite Hr3, Hr2; exact Hr1|].
  split; [exact Hh1'|]. split; [exact Hi1|]. split; [exact Hr1|].
  split; [exact Hb1|]. split; [exact Hd1|].
  split; [|split; [|exact Hbrak3]].
  - rewrite Hbest3, Hbest2. unfold st1, best_so_far, func_vals.
    simpl search_history.
    replace (search_history st ++ [(fst t, snd t)])
      with (search_history st ++ [t]) by (destruct t; reflexivity).
    destruct (np.last_below_all _); reflexivity.
  - unfold max_iter. rewrite Hc2, Hc1.
    destruct (STEPMAX PAR <=? step_count st + 1)%Z; simpl; [reflexivity|].
    rewrite stopping_criteria_isdone, Hd1. reflexivity.
Qed.

(** The shape of a line search that ran without error. *)
Lemma line_search_shape PAR trials : forall st rs stn,
  line_search PAR trials st = Ok rs stn ->
  Forall (fun t => np.isnan (snd t) = false) trials
  /\ search_history stn = search_history st ++ trials
  /\ step_count stn = (step_count st + Z.of_nat (length trials))%Z
  /\ length rs = length trials
  /\ iter stn = iter st /\ restart stn = restart st
  /\ (trials <> [] -> last rs = Some (isdone stn, isbest stn)).
Proof.
  induction trials as [|t trials IH] using rev_ind; intros st rs stn H.
  - simpl in H. injection H as <- <-. rewrite app_nil_r. simpl.
    split; [constructor|]. split; [reflexivity|]. split; [lia|].
    split; [reflexivity|]. split; [reflexivity|]. split; [reflexivity|].
    congruence.
  - rewrite line_search_snoc in H.
    destruct (line_search PAR trials st) as [rs' st'|] eqn:E; [|discriminate].
    destruct (search_status PAR (evaluate t st')) as [r st''|] eqn:E';
      [|discriminate].
    injection H as <- <-.
    destruct (IH _ _ _ E) as (Hn & Hh & Hc & Hl & Hi & Hr & _).
    destruct (search_status_attributes _ _ _ _ _ E')
      as (Hn' & -> & Hh' & Hc' & Hi' & Hr' & _).
    split; [apply Forall_app; split; [exact Hn | constructor; auto]|].
    split; [rewrite Hh', Hh, <- app_assoc; reflexivity|].
    split; [rewrite Hc', Hc, length_app; simpl; lia|].
    split; [rewrite !length_app, Hl; reflexivity|].
    split; [congruence|]. split; [congruence|].
    intros _. apply last_snoc.
Qed.



Lemma forallb_rev {A} (p : A -> bool) l : forallb p (rev l) = forallb p l.
Proof.
  induction l as [|a l IH]; [reflexivity|]. simpl.
  rewrite forallb_app, IH. simpl. rewrite andb_true_r. apply andb_comm.
Qed.

Lemma last_below_all_snoc l v :
  np.last_below_all (l ++ [v]) = forallb (fun y => (v <? y)%float) l.
Proof.
  unfold np.last_below_all. rewrite rev_app_distr. simpl. apply forallb_rev.
Qed.

Lemma existsb_snoc {A} (p : A -> bool) l x :
  existsb p (l ++ [x]) = existsb p l || p x.
Proof. rewrite existsb_app. simpl. rewrite orb_false_r. reflexivity. Qed.

(** [isbest] after a line search: set exactly when some trial was strictly
    below the baseline. *)
Lemma line_search_isbest PAR f trials : forall st0 rs stn,
  search_history st0 = [(0%float, f)] ->
  isbest st0 = 0%Z ->
  line_search PAR trials st0 = Ok rs stn ->
  isbest stn
  = if existsb (fun t => (snd t <? f)%float) trials then 1%Z else 0%Z.
Proof.
  induction trials as [|t trials IH] using rev_ind;
    intros st0 rs stn Hh0 Hb0 Hrun.
  - simpl in Hrun. injection Hrun as <- <-. exact Hb0.
  - rewrite line_search_snoc in Hrun.
    destruct (line_search PAR trials st0) as [rs' st'|] eqn:E;
      [|discriminate].
    destruct (search_status PAR (evaluate t st')) as [r st''|] eqn:E';
      [|discriminate].
    injection Hrun as <- <-.
    specialize (IH _ _ _ Hh0 Hb0 E).
    destruct (line_search_shape _ _ _ _ _ E) as (Hnan & Hh & _).
    destruct (search_status_attributes _ _ _ _ _ E')
      as (Hn & _ & _ & _ & _ & _ & _ & _ & _ & _ & _ & Hbest & _).
    rewrite Hbest, Hh, Hh0, existsb_snoc, IH. clear Hbest.
    rewrite map_app. change (map snd [t]) with [snd t].
    rewrite last_below_all_snoc. simpl map. simpl forallb.
    destruct (snd t <? f)%float eqn:Etf; simpl.
    + rewrite orb_true_r.
      destruct (forallb _ (map snd trials)) eqn:Eall; [reflexivity|].
      (* some earlier trial is not above this one, so it beat the baseline *)
      assert (Hex : existsb (fun t0 => (snd t0 <? f)%float) trials = true).
      { apply existsb_exists.
        destruct (forallb_forall (fun y => (snd t <? y)%float)
                    (map snd trials)) as [_ Hall].
        destruct (existsb (fun t0 => (snd t0 <? f)%float) trials) eqn:Ex;
          [apply existsb_exists in Ex; exact Ex|].
        exfalso. rewrite Hall in Eall; [discriminate|].
        intros y Hy. apply in_map_iff in Hy as (t' & <- & Ht').
        rewrite List.Forall_forall in Hnan.
        destruct (ltb_negtrans (snd t) (snd t') f (Hnan t' Ht') Etf)
          as [H|H]; [exact H|].
        assert (Hc : existsb (fun t0 => (snd t0 <? f)%float) trials = true)
          by (apply existsb_exists; eauto).
        congruence. }
      rewrite Hex. reflexivity.
    + rewrite orb_false_r. reflexivity.
Qed.

(** X13: after a line search, [isbest] is set exactly when some trial so far
    had an objective strictly below the baseline; it is not cleared by a
    later, worse trial. *)
Theorem isbest_iff_baseline_beaten PAR st st0 trials rs stn :
  initialize_search PAR st = Ok tt st0 ->
  line_search PAR trials st0 = Ok rs stn ->
  exists f,
    loadtxt "f_new" (fs st) = Some f
    /\ isbest stn
       = if existsb (fun t => (snd t <? f)%float) trials then 1%Z else 0%Z.
Proof.
  intros Hinit Hrun.
  destruct (initialize_search_resets _ _ _ Hinit)
    as (f & Hf & Hh0 & _ & _ & Hb0 & _).
  exists f. split; [exact Hf|].
  apply (line_search_isbest PAR f trials st0 rs stn Hh0 Hb0 Hrun).
Qed.

Lemma isbest_iff_baseline_beaten_witness :
  isbest (after (line_search (sample_PAR "Bracket" 10)
                   [(1%float, 8%float); (2%float, 9%float)]
                   (sample_search "Bracket" 2)))
  = 1%Z.
Proof.
  destruct (isbest_iff_baseline_beaten (sample_PAR "Bracket" 10)
              (set_iter 2 (setup sample_dir)) (sample_search "Bracket" 2)
              [(1%float, 8%float); (2%float, 9%float)]
              [(0%Z, 1%Z); (0%Z, 1%Z)]
              (after (line_search (sample_PAR "Bracket" 10)
                        [(1%float, 8%float); (2%float, 9%float)]
                        (sample_search "Bracket" 2))))
    as (f & Hf & ->); [by_run | by_run |].
  assert (E : Some f = Some 10%float) by (rewrite <- Hf; by_vm).
  injection E as ->. reflexivity.
Defined.

(** [isdone] after a line search is -1 exactly from the [STEPMAX]-th status
    call on. *)
Lemma line_search_isdone_failed PAR trials : forall st0 rs stn,
  isdone st0 = 0%Z -> step_count st0 = 0%Z ->
  line_search PAR trials st0 = Ok rs stn ->
  (isdone stn = (-1)%Z \/ isdone stn = 0%Z \/ isdone stn = 1%Z)
  /\ (isdone stn = (-1)%Z
      <-> trials <> [] /\ (STEPMAX PAR <= Z.of_nat (length trials))%Z).
Proof.
  induction trials as [|t trials IH] using rev_ind;
    intros st0 rs stn Hd0 Hc0 Hrun.
  - simpl in Hrun. injection Hrun as <- <-. rewrite Hd0.
    split; [auto|]. split; [discriminate | intros [H _]; congruence].
  - rewrite line_search_snoc in Hrun.
    destruct (line_search PAR trials st0) as [rs' st'|] eqn:E;
      [|discriminate].
    destruct (search_status PAR (evaluate t st')) as [r st''|] eqn:E';
      [|discriminate].
    injection Hrun as <- <-.
    destruct (IH _ _ _ Hd0 Hc0 E) as (Hrange & Hfail).
    destruct (line_search_shape _ _ _ _ _ E) as (_ & _ & Hc & _).
    destruct (search_status_attributes _ _ _ _ _ E')
      as (_ & _ & _ & _ & _ & _ & _ & _ & _ & _ & _ & _ & Hdone & _).
    rewrite Hdone, Hc, Hc0, length_app. simpl length. clear Hdone.
    destruct (Z.leb_spec (STEPMAX PAR) (0 + Z.of_nat (length trials) + 1)).
    + split; [auto|]. split; [|reflexivity].
      intros _. split; [destruct trials; discriminate | lia].
    + destruct (criteria_met PAR _).
      * split; [auto|]. split; [discriminate | intros [_ ?]; lia].
      * split; [exact Hrange|]. split.
        -- intros Hm. apply Hfail in Hm as [_ Hm]. lia.
        -- intros [_ ?]. lia.
Qed.

(** X14: for every strategy, the flag [isdone] left by a line search is one
    of -1, 0 and 1, and it is -1 (failed) exactly when at least [STEPMAX]
    status calls have been made; so once [STEPMAX] is reached every further
    call reports failure. *)
Theorem line_search_fails_iff_stepmax PAR st st0 trials rs stn :
  initialize_search PAR st = Ok tt st0 ->
  line_search PAR trials st0 = Ok rs stn ->
  (isdone stn = (-1)%Z \/ isdone stn = 0%Z \/ isdone stn = 1%Z)
  /\ (isdone stn = (-1)%Z
      <-> trials <> [] /\ (STEPMAX PAR <= Z.of_nat (length trials))%Z).
Proof.
  intros Hinit Hrun.
  destruct (initialize_search_resets _ _ _ Hinit)
    as (f & _ & _ & Hc0 & Hd0 & _).
  apply (line_search_isdone_failed PAR trials st0 rs stn Hd0 Hc0 Hrun).
Qed.

Lemma line_search_fails_iff_stepmax_witness :
  isdone (after (line_search (sample_PAR "Backtrack" 2)
                   [(1%float, 12%float); (0.5%float, 8%float);
                    (0.25%float, 7%float)]
                   (after (initialize_search (sample_PAR "Backtrack" 2)
                             (set_iter 2 (setup sample_dir))))))
  = (-1)%Z.
Proof.
  apply (line_search_fails_iff_stepmax (sample_PAR "Backtrack" 2)
           (set_iter 2 (setup sample_dir))
           (after (initialize_search (sample_PAR "Backtrack" 2)
                     (set_iter 2 (setup sample_dir))))
           [(1%float, 12%float); (0.5%float, 8%float); (0.25%float, 7%float)]
           [(0%Z, 0%Z); ((-1)%Z, 1%Z); ((-1)%Z, 1%Z)]
           (after (line_search (sample_PAR "Backtrack" 2)
                     [(1%float, 12%float); (0.5%float, 8%float);
                      (0.25%float, 7%float)]
                     (after (initialize_search (sample_PAR "Backtrack" 2)
                               (set_iter 2 (setup sample_dir)))))));
    [by_run | by_run |].
  split; [discriminate | simpl; lia].
Defined.

(** ** The baseline in the sorted views *)

Lemma nth_all {A} (h : list A) d :
  map (fun i => nth i h d) (seq 0 (length h)) = h.
Proof.
  apply (nth_ext _ _ d d).
  - rewrite length_map, length_seq. reflexivity.
  - intros n Hn. rewrite length_map, length_seq in Hn.
    rewrite (nth_indep _ d (nth 0 h d))
      by (rewrite length_map, length_seq; exact Hn).
    pose proof (map_nth (fun i => nth i h d) (seq 0 (length h)) 0 n) as E.
    cbv beta in E. rewrite E, seq_nth by exact Hn. reflexivity.
Qed.

Lemma sorted_views_baseline st f h :
  search_history st = (0%float, f) :: h ->
  length h <= 15 ->
  exists xs fs',
    step_lens true st = 0%float :: xs
    /\ func_vals true st = f :: fs'
    /\ Permutation (combine xs fs') h.
Proof.
  intros Hh Hshort.
  destruct (argsort_zero_first (map fst h)) as (rest & Hidx & Hrest);
    [rewrite length_map; exact Hshort|].
  pose proof (argsort_perm (np.absolute (0%float :: map fst h))) as Hp.
  rewrite Hidx in Hp. unfold np.absolute in Hp.
  rewrite length_map in Hp. change (length (0%float :: map fst h))
    with (S (length (map fst h))) in Hp.
  rewrite length_map in Hp.
  change (seq 0 (S (length h))) with (0 :: seq 1 (length h)) in Hp.
  apply Permutation_cons_inv in Hp.
  unfold step_lens, func_vals. rewrite Hh.
  change (map fst ((0%float, f) :: h)) with (0%float :: map fst h).
  change (map snd ((0%float, f) :: h)) with (f :: map snd h).
  rewrite Hidx.
  exists (np.take (0%float :: map fst h) rest),
    (np.take (f :: map snd h) rest).
  split; [reflexivity|]. split; [reflexivity|].
  rewrite combine_take.
  eapply Permutation_trans; [apply Permutation_map, Hp|].
  rewrite <- seq_shift, map_map.
  erewrite map_ext; [rewrite (nth_all h (nan, nan)); apply Permutation_refl|].
  intros i. cbv beta.
  apply (item_history ((0%float, f) :: h) (S i)).
Qed.

Lemma existsb_perm {A} (p : A -> bool) l l' :
  Permutation l l' -> existsb p l = existsb p l'.
Proof.
  induction 1; simpl; try congruence.
  destruct (p x), (p y); reflexivity.
Qed.

Lemma combine_split_perm (xs fs' : list float) h :
  length xs = length fs' ->
  Permutation (combine xs fs') h -> Permutation fs' (map snd h).
Proof.
  intros Hl Hp. apply (Permutation_map snd) in Hp.
  rewrite <- Hp. clear Hp. revert fs' Hl.
  induction xs as [|x xs IH]; intros [|y fs'] Hl; simpl in *;
    try discriminate; [constructor|].
  constructor. apply IH. lia.
Qed.

(** X15: whenever the history starts with the baseline at step 0 and has
    at most 16 entries (the histories numpy sorts by insertion), the sorted
    views start with the baseline too, [x[0] = 0] and [f[0] = f_new],
    whatever the other steps are (zero, negative or not-a-number included),
    and the rest of the views lists the trials. *)
Theorem baseline_heads_sorted_views st f h :
  search_history st = (0%float, f) :: h ->
  length h <= 15 ->
  exists xs fs',
    step_lens true st = 0%float :: xs
    /\ func_vals true st = f :: fs'
    /\ Permutation (combine xs fs') h.
Proof. apply sorted_views_baseline. Qed.

Lemma baseline_heads_sorted_views_witness :
  exists xs fs',
    step_lens true
      (set_search_history
         [(0%float, 10%float); (1%float, 12%float); ((-0)%float, 8%float)]
         (setup sample_dir))
    = 0%float :: xs
    /\ func_vals true
         (set_search_history
            [(0%float, 10%float); (1%float, 12%float); ((-0)%float, 8%float)]
            (setup sample_dir))
       = 10%float :: fs'.
Proof.
  destruct (baseline_heads_sorted_views
              (set_search_history
                 [(0%float, 10%float); (1%float, 12%float);
                  ((-0)%float, 8%float)]
                 (setup sample_dir))
              10%float [(1%float, 12%float); ((-0)%float, 8%float)])
    as (xs & fs' & Hx & Hf & _); [reflexivity | simpl; lia |].
  exists xs, fs'. split; assumption.
Defined.

Lemma any_below_first_baseline st f h :
  search_history st = (0%float, f) :: h ->
  length h <= 15 ->
  np.any_below_first (func_vals true st)
  = existsb (fun t => (snd t <? f)%float) h.
Proof.
  intros Hh Hshort. destruct (sorted_views_baseline st f h Hh Hshort)
    as (xs & fs' & Hx & Hf & Hp).
  destruct (views_length st) as [Hlx Hlf]. rewrite Hx, Hf in *.
  simpl in Hlx, Hlf. simpl.
  rewrite (existsb_perm _ _ _ (combine_split_perm xs fs' h ltac:(lia) Hp)).
  clear. induction h as [|t h IH]; simpl; congruence.
Qed.

(** ** Line searches: termination *)

Lemma initialize_search_keeps_outer PAR st st0 :
  initialize_search PAR st = Ok tt st0 ->
  iter st0 = iter st /\ restart st0 = restart st.
Proof.
  intros H. destruct (initialize_search_inv _ _ _ H)
    as (m & p & f & nm & np' & a0 & m_try & _ & _ & _ & _ & _ & _ & _ & ->).
  split; reflexivity.
Qed.

Lemma line_search_backtrack PAR f trials : forall st0 rs stn,
  LINESEARCH PAR = "Backtrack" ->
  iter st0 <> 1%Z -> true_int (restart st0) = false ->
  length trials <= 15 ->
  search_history st0 = [(0%float, f)] ->
  isdone st0 = 0%Z -> step_count st0 = 0%Z ->
  line_search PAR trials st0 = Ok rs stn ->
  isdone stn
  = if negb (Nat.eqb (length trials) 0)
       && (STEPMAX PAR <=? Z.of_nat (length trials))%Z then (-1)%Z
    else if existsb (fun t => (snd t <? f)%float) trials then 1%Z else 0%Z.
Proof.
  intros st0 rs stn Hb Hi Hr. revert rs stn.
  induction trials as [|t trials IH] using rev_ind;
    intros rs stn Hshort Hh0 Hd0 Hc0 Hrun.
  - simpl in Hrun. injection Hrun as <- <-. exact Hd0.
  - rewrite line_search_snoc in Hrun.
    destruct (line_search PAR trials st0) as [rs' st'|] eqn:E;
      [|discriminate].
    destruct (search_status PAR (evaluate t st')) as [r st''|] eqn:E';
      [|discriminate].
    injection Hrun as <- <-.
    rewrite length_app in Hshort. simpl in Hshort.
    specialize (IH _ _ ltac:(lia) Hh0 Hd0 Hc0 eq_refl).
    destruct (line_search_shape _ _ _ _ _ E) as (_ & Hh & Hc & _ & Hi' & Hr' & _).
    destruct (search_status_attributes _ _ _ _ _ E')
      as (_ & _ & _ & _ & _ & _ & Hh1 & Hi1 & Hr1 & _ & _ & _ & Hdone & _).
    rewrite Hdone, Hc, Hc0, length_app. simpl length. clear Hdone.
    set (st1 := best_so_far _) in *.
    assert (Hcr : criteria_met PAR st1
                  = existsb (fun t0 => (snd t0 <? f)%float) (trials ++ [t])).
    { unfold criteria_met. rewrite Hb, Hi1, Hr1, Hi', Hr', Hr.
      destruct (Z.eqb_spec (iter st0) 1); [contradiction|]. simpl.
      apply any_below_first_baseline;
        [|rewrite length_app; simpl; lia].
      rewrite Hh1, Hh, Hh0, <- app_assoc. reflexivity. }
    rewrite Hcr.
    replace (length trials + 1 =? 0)%nat with false
      by (symmetry; apply Nat.eqb_neq; lia).
    simpl negb. simpl andb.
    replace (Z.of_nat (length trials + 1))
      with (0 + Z.of_nat (length trials) + 1)%Z by lia.
    destruct (Z.leb_spec (STEPMAX PAR) (0 + Z.of_nat (length trials) + 1));
      [reflexivity|].
    destruct (existsb _ (trials ++ [t])) eqn:Ex; [reflexivity|].
    rewrite IH. rewrite existsb_snoc in Ex.
    apply orb_false_iff in Ex as [-> _].
    destruct (Z.leb_spec (STEPMAX PAR) (Z.of_nat (length trials))); [lia|].
    rewrite andb_false_r. reflexivity.
Qed.

(** X16: under the Backtrack strategy, beyond the first iteration and
    without a restart, in a line search of at most 15 trials (a history
    numpy sorts by insertion), the search is done as soon as some trial is
    strictly below the baseline: before [STEPMAX] status calls the flag
    [isdone] is 1 if some trial so far beat the baseline and 0 otherwise, and
    from the [STEPMAX]-th call on it is -1. *)
Theorem backtrack_done_iff_baseline_beaten PAR st st0 trials rs stn :
  LINESEARCH PAR = "Backtrack" ->
  iter st <> 1%Z -> true_int (restart st) = false ->
  length trials <= 15 ->
  initialize_search PAR st = Ok tt st0 ->
  line_search PAR trials st0 = Ok rs stn ->
  exists f,
    loadtxt "f_new" (fs st) = Some f
    /\ isdone stn
       = if negb (Nat.eqb (length trials) 0)
            && (STEPMAX PAR <=? Z.of_nat (length trials))%Z then (-1)%Z
         else if existsb (fun t => (snd t <? f)%float) trials
              then 1%Z else 0%Z.
Proof.
  intros Hb Hi Hr Hshort Hinit Hrun.
  destruct (initialize_search_resets _ _ _ Hinit)
    as (f & Hf & Hh0 & Hc0 & Hd0 & _).
  destruct (initialize_search_keeps_outer _ _ _ Hinit) as [Hi0 Hr0].
  exists f. split; [exact Hf|].
  apply (line_search_backtrack PAR f trials st0 rs stn); try assumption;
    congruence.
Qed.

Lemma backtrack_done_iff_baseline_beaten_witness :
  isdone (after (line_search (sample_PAR "Backtrack" 10)
                   [(1%float, 12%float); (0.5%float, 8%float)]
                   (sample_search "Backtrack" 2)))
  = 1%Z.
Proof.
  destruct (backtrack_done_iff_baseline_beaten (sample_PAR "Backtrack" 10)
              (set_iter 2 (setup sample_dir)) (sample_search "Backtrack" 2)
              [(1%float, 12%float); (0.5%float, 8%float)]
              [(0%Z, 0%Z); (1%Z, 1%Z)]
              (after (line_search (sample_PAR "Backtrack" 10)
                        [(1%float, 12%float); (0.5%float, 8%float)]
                        (sample_search "Backtrack" 2))))
    as (f & Hf & ->);
    [reflexivity | discriminate | reflexivity | simpl; lia | by_run
    | by_run |].
  assert (E : Some f = Some 10%float) by (rewrite <- Hf; by_vm).
  injection E as ->. reflexivity.
Defined.

Lemma bracket_not_found_single st f t :
  search_history st = [(0%float, f); t] -> bracket_found st = false.
Proof.
  intros Hh. destruct (sorted_views_baseline st f [t] Hh)
    as (xs & fs' & Hx & Hf & Hp); [simpl; lia|].
  destruct (views_length st) as [Hlx Hlf]. rewrite Hx, Hf, Hh in *.
  simpl in Hlx, Hlf.
  destruct fs' as [|f1 [|? ?]]; try discriminate.
  unfold bracket_found. rewrite Hf. simpl.
  destruct (f1 <? f)%float eqn:E; simpl; [|reflexivity].
  apply (ltb_asym _ _ E).
Qed.

(** X17: where the bracketing criterion is in force (the strategy is not
    Fixed and it is Bracket, or the iteration is the first, or a restart is
    flagged) a line search is never reported converged by its first or
    second status call, and the first call never flags a bracket: closing
    a bracket takes at least three trials. *)
Theorem bracket_needs_three_trials PAR st st0 trials rs stn :
  String.eqb (LINESEARCH PAR) "Fixed" = false ->
  String.eqb (LINESEARCH PAR) "Bracket" || (iter st =? 1)%Z
    || true_int (restart st) = true ->
  initialize_search PAR st = Ok tt st0 ->
  line_search PAR trials st0 = Ok rs stn ->
  length trials <= 2 ->
  isdone stn <> 1%Z /\ (length trials <= 1 -> isbrak stn = 0%Z).
Proof.
  intros Hfix Hbr Hinit Hrun Hlen.
  destruct (initialize_search_resets _ _ _ Hinit)
    as (f & Hf & Hh0 & Hc0 & Hd0 & _ & Hk0).
  destruct (initialize_search_keeps_outer _ _ _ Hinit) as [Hi0 Hr0].
  assert (Hone : forall t r st1,
             search_status PAR (evaluate t st0) = Ok r st1 ->
             isdone st1 <> 1%Z /\ isbrak st1 = 0%Z
             /\ iter st1 = iter st /\ restart st1 = restart st).
  { intros t r st1 E.
    destruct (search_status_attributes _ _ _ _ _ E)
      as (_ & _ & _ & _ & Hi & Hr & Hh1 & Hi1 & Hr1 & Hb1 & _ & _ & Hdone & Hbrak).
    set (s1 := best_so_far _) in *.
    assert (Hcr : criteria_met PAR s1 = false).
    { unfold criteria_met. rewrite Hfix, Hi1, Hr1, Hi0, Hr0, Hbr, Hb1, Hk0.
      reflexivity. }
    split; [|split; [|split; congruence]].
    - rewrite Hdone, Hcr, Hd0. destruct (_ <=? _)%Z; discriminate.
    - rewrite Hbrak, (stopping_criteria_isbrak PAR s1 Hfix)
        by (rewrite Hi1, Hr1, Hi0, Hr0; exact Hbr).
      rewrite Hb1, Hk0. simpl.
      rewrite (bracket_not_found_single s1 f t)
        by (rewrite Hh1, Hh0; reflexivity).
      reflexivity. }
  destruct trials as [|t1 [|t2 [|t3 trials]]]; simpl in Hlen; try lia.
  - simpl in Hrun. injection Hrun as <- <-. rewrite Hd0, Hk0.
    split; [discriminate | reflexivity].
  - simpl in Hrun.
    destruct (search_status PAR (evaluate t1 st0)) as [r1 st1|] eqn:E1;
      [|discriminate].
    injection Hrun as <- <-.
    destruct (Hone _ _ _ E1) as (Hd & Hk & _). auto.
  - simpl in Hrun.
    destruct (search_status PAR (evaluate t1 st0)) as [r1 st1|] eqn:E1;
      [|discriminate].
    destruct (search_status PAR (evaluate t2 st1)) as [r2 st2|] eqn:E2;
      [|discriminate].
    injection Hrun as <- <-.
    destruct (Hone _ _ _ E1) as (Hd & Hk & Hi & Hr).
    destruct (search_status_attributes _ _ _ _ _ E2)
      as (_ & _ & _ & _ & _ & _ & _ & Hi1 & Hr1 & Hb1 & _ & _ & Hdone & _).
    set (s1 := best_so_far _) in *.
    assert (Hcr : criteria_met PAR s1 = false).
    { unfold criteria_met. rewrite Hfix, Hi1, Hr1, Hi, Hr, Hbr, Hb1, Hk.
      reflexivity. }
    split; [|simpl; lia].
    rewrite Hdone, Hcr. destruct (_ <=? _)%Z; [discriminate | exact Hd].
Qed.

Lemma bracket_needs_three_trials_witness :
  isdone (after (line_search (sample_PAR "Bracket" 10)
                   [(1%float, 8%float); (2%float, 9%float)]
                   (sample_search "Bracket" 2)))
  <> 1%Z.
Proof.
  apply (bracket_needs_three_trials (sample_PAR "Bracket" 10)
           (set_iter 2 (setup sample_dir)) (sample_search "Bracket" 2)
           [(1%float, 8%float); (2%float, 9%float)]
           [(0%Z, 1%Z); (0%Z, 1%Z)]
           (after (line_search (sample_PAR "Bracket" 10)
                     [(1%float, 8%float); (2%float, 9%float)]
                     (sample_search "Bracket" 2))));
    [reflexivity | reflexivity | by_run | by_run | simpl; lia].
Defined.

Lemma stopping_criteria_no_bracket PAR st :
  String.eqb (LINESEARCH PAR) "Fixed" = true
  \/ String.eqb (LINESEARCH PAR) "Bracket" || (iter st =? 1)%Z
       || true_int (restart st) = false ->
  isbrak (stopping_criteria PAR st) = isbrak st.
Proof.
  unfold stopping_criteria. intros [->| H].
  - case_match; reflexivity.
  - rewrite H. repeat case_match; reflexivity.
Qed.

(** X18: under the Fixed strategy, and under any other strategy but Bracket
    beyond the first iteration and without a restart, no status call of a
    line search ever flags a bracket: [isbrak] stays 0. *)
Theorem isbrak_only_when_bracketing PAR st st0 trials rs stn :
  String.eqb (LINESEARCH PAR) "Fixed" = true
  \/ String.eqb (LINESEARCH PAR) "Bracket" || (iter st =? 1)%Z
       || true_int (restart st) = false ->
  initialize_search PAR st = Ok tt st0 ->
  line_search PAR trials st0 = Ok rs stn ->
  isbrak stn = 0%Z.
Proof.
  intros Hcond Hinit. revert rs stn.
  destruct (initialize_search_resets _ _ _ Hinit)
    as (f & _ & _ & _ & _ & _ & Hk0).
  destruct (initialize_search_keeps_outer _ _ _ Hinit) as [Hi0 Hr0].
  induction trials as [|t trials IH] using rev_ind; intros rs stn Hrun.
  - simpl in Hrun. injection Hrun as <- <-. exact Hk0.
  - rewrite line_search_snoc in Hrun.
    destruct (line_search PAR trials st0) as [rs' st'|] eqn:E;
      [|discriminate].
    destruct (search_status PAR (evaluate t st')) as [r st''|] eqn:E';
      [|discriminate].
    injection Hrun as <- <-.
    destruct (line_search_shape _ _ _ _ _ E) as (_ & _ & _ & _ & Hi & Hr & _).
    destruct (search_status_attributes _ _ _ _ _ E')
      as (_ & _ & _ & _ & _ & _ & _ & Hi1 & Hr1 & Hb1 & _ & _ & _ & Hbrak).
    rewrite Hbrak, stopping_criteria_no_bracket, Hb1; [apply (IH _ _ eq_refl)|].
    rewrite Hi1, Hr1, Hi, Hr, Hi0, Hr0. exact Hcond.
Qed.

Lemma isbrak_only_when_bracketing_witness :
  isbrak (after (line_search (sample_PAR "Fixed" 10)
                   [(1%float, 8%float); (2%float, 9%float)]
                   (sample_search "Fixed" 1)))
  = 0%Z.
Proof.
  apply (isbrak_only_when_bracketing (sample_PAR "Fixed" 10)
           (set_iter 1 (setup sample_dir)) (sample_search "Fixed" 1)
           [(1%float, 8%float); (2%float, 9%float)]
           [(0%Z, 1%Z); (1%Z, 1%Z)]
           (after (line_search (sample_PAR "Fixed" 10)
                     [(1%float, 8%float); (2%float, 9%float)]
                     (sample_search "Fixed" 1))));
    [left; reflexivity | by_run | by_run].
Defined.

(** X19: [search_status] writes no file and changes neither [iter] nor the
    restart bookkeeping, whatever its outcome; when [alpha] or [f_try] is
    missing it raises [IOError] and leaves the object as it was. *)
Theorem search_status_effects PAR st :
  fs (after (search_status PAR st)) = fs st
  /\ iter (after (search_status PAR st)) = iter st
  /\ restart (after (search_status PAR st)) = restart st
  /\ restart_count (after (search_status PAR st)) = restart_count st
  /\ (loadtxt "alpha" (fs st) = None \/ loadtxt "f_try" (fs st) = None ->
      search_status PAR st = Raise IOError st).
Proof.
  destruct (search_status_restart PAR st) as [Hr Hrc].
  split; [|split; [|split; [exact Hr|split; [exact Hrc|]]]].
  - unfold search_status, max_iter, stopping_criteria, best_so_far.
    repeat case_match; reflexivity.
  - unfold search_status, max_iter, stopping_criteria, best_so_far.
    repeat case_match; reflexivity.
  - unfold search_status. intros [->| ->]; [reflexivity|].
    destruct (loadtxt "alpha" (fs st)); reflexivity.
Qed.

(** ** [compute_step] *)

Section step_facts.

Variable PAR : parameters.
Variable polyfit2 : list float -> list float -> option float.
Variable backtrack2 :
  float -> float -> float -> float -> float -> float -> option float.
Variable c_pow : float -> float -> option float.

Lemma compute_step_inv st st' :
  compute_step PAR polyfit2 backtrack2 c_pow st = Stepped st' ->
  exists m p s norm_m norm_p alpha m_try,
    loadnpy "m_new" (fs st) = Some m
    /\ loadnpy "p_new" (fs st) = Some p
    /\ loadtxt "s_new" (fs st) = Some s
    /\ np.py_max (np.absolute m) = Some norm_m
    /\ np.py_max (np.absolute p) = Some norm_p
    /\ search_history st <> []
    /\ trial_step PAR polyfit2 backtrack2 c_pow (norm_m / norm_p)%float s st
       = inr alpha
    /\ np.add m (np.scale p alpha) = Some m_try
    /\ st' = set_fs (savenpy "m_try" m_try (savetxt "alpha" alpha (fs st))) st.
Proof.
  unfold compute_step. intros H.
  destruct (loadnpy "m_new" (fs st)) as [m|]; [|discriminate].
  destruct (loadnpy "p_new" (fs st)) as [p|]; [|discriminate].
  destruct (loadtxt "s_new" (fs st)) as [s|]; [|discriminate].
  destruct (np.py_max (np.absolute m)) as [norm_m|] eqn:Enm; [|discriminate].
  destruct (np.py_max (np.absolute p)) as [norm_p|] eqn:Enp; [|discriminate].
  destruct (search_history st) as [|e h] eqn:Eh; [discriminate|].
  destruct (trial_step _ _ _ _ _ _ _) as [e'|alpha] eqn:Et; [discriminate|].
  destruct (np.add m _) as [m_try|] eqn:Ea; [|discriminate].
  injection H as <-.
  exists m, p, s, norm_m, norm_p, alpha, m_try.
  repeat split; try assumption; try reflexivity. discriminate.
Qed.

(** X20: [compute_step] never touches an attribute of the object and
    changes no file but [alpha] and [m_try], whatever its outcome; when it
    succeeds the stored trial model is the model moved along the direction
    by the stored step, [m_try = m_new + p_new * alpha]. *)
Theorem compute_step_effects st :
  same_attributes st
    (after_step (compute_step PAR polyfit2 backtrack2 c_pow st))
  /\ same_files_except ["alpha"; "m_try"] (fs st)
       (fs (after_step (compute_step PAR polyfit2 backtrack2 c_pow st)))
  /\ (forall st',
      compute_step PAR polyfit2 backtrack2 c_pow st = Stepped st' ->
      exists m p alpha m_try,
        loadnpy "m_new" (fs st) = Some m
        /\ loadnpy "p_new" (fs st) = Some p
        /\ loadtxt "alpha" (fs st') = Some alpha
        /\ np.add m (np.scale p alpha) = Some m_try
        /\ loadnpy "m_try" (fs st') = Some m_try).
Proof.
  split; [|split].
  - unfold compute_step, same_attributes.
    repeat case_match; simpl; repeat split; congruence.
  - intros name Hn. apply not_in_two in Hn as [H1 H2].
    unfold compute_step. repeat case_match; simpl; try reflexivity;
      unfold savetxt, savenpy; rewrite !lookup_insert_ne by assumption;
      reflexivity.
  - intros st' H. destruct (compute_step_inv _ _ H)
      as (m & p & s & nm & np' & alpha & m_try
          & Hm & Hp & _ & _ & _ & _ & _ & Ha & ->).
    exists m, p, alpha, m_try. simpl.
    rewrite loadtxt_savenpy, loadtxt_savetxt, loadnpy_savenpy by discriminate.
    auto.
Qed.

Lemma stopping_criteria_sets_isbrak st :
  true_int (isbrak st) = false ->
  true_int (isbrak (stopping_criteria PAR st)) = true ->
  String.eqb (LINESEARCH PAR) "Fixed" = false
  /\ String.eqb (LINESEARCH PAR) "Bracket" || (iter st =? 1)%Z
       || true_int (restart st) = true
  /\ bracket_found st = true.
Proof.
  unfold stopping_criteria, bracket_found. intros H0 H1.
  repeat case_match; simpl in *; try congruence; auto.
Qed.

(** X21: a status call that newly flags a bracket is followed by a parabola
    fit: the next [compute_step], if it succeeds, stores as [alpha] what
    [polyfit2] answers on the sorted steps and objectives, the ones the
    status call decided on. *)
Theorem bracket_then_polyfit st r st' st'' :
  search_status PAR st = Ok r st' ->
  true_int (isbrak st) = false ->
  true_int (isbrak st') = true ->
  compute_step PAR polyfit2 backtrack2 c_pow st' = Stepped st'' ->
  exists alpha,
    polyfit2 (step_lens true st') (func_vals true st') = Some alpha
    /\ loadtxt "alpha" (fs st'') = Some alpha.
Proof.
  intros Hrun H0 H1 Hstep.
  unfold search_status in Hrun.
  destruct (loadtxt "alpha" (fs st)) as [x_|]; [|discriminate].
  destruct (loadtxt "f_try" (fs st)) as [f_|];
    [|discriminate].
  destruct (np.isnan f_); [discriminate|]. injection Hrun as _ <-.
  set (s1 := best_so_far (update_history x_ f_ st)) in *.
  destruct (best_so_far_keeps (update_history x_ f_ st))
    as (_ & _ & _ & Hb1 & Hi1 & Hr1 & _). fold s1 in Hb1, Hi1, Hr1.
  simpl in Hb1, Hi1, Hr1.
  destruct (max_iter_keeps PAR (stopping_criteria PAR s1))
    as (Hh3 & _ & _ & Hk3 & _).
  destruct (max_iter_frame PAR (stopping_criteria PAR s1)) as (Hi3 & Hr3 & _).
  destruct (stopping_criteria_keeps PAR s1) as (Hh2 & _).
  destruct (stopping_criteria_frame PAR s1) as (Hi2 & Hr2 & _).
  rewrite Hk3 in H1.
  destruct (stopping_criteria_sets_isbrak s1) as (Hfix & Hbr & Hfound);
    [rewrite Hb1; exact H0 | exact H1 |].
  set (s3 := max_iter PAR (stopping_criteria PAR s1)) in *.
  assert (Hfound3 : bracket_found s3 = true).
  { rewrite (bracket_found_history s1 s3); [exact Hfound|].
    rewrite Hh3, Hh2. reflexivity. }
  destruct (compute_step_inv _ _ Hstep)
    as (m & p & s & nm & np' & alpha & m_try
        & _ & _ & _ & _ & _ & _ & Ht & _ & ->).
  unfold trial_step in Ht. rewrite Hfix, Hi3, Hr3, Hi2, Hr2, Hbr in Ht.
  unfold bracket_found in Hfound3. rewrite Hfound3 in Ht.
  destruct (polyfit2 _ _) as [a|]; [|discriminate].
  injection Ht as <-. exists a. split; [reflexivity|]. simpl.
  rewrite loadtxt_savenpy, loadtxt_savetxt by discriminate. reflexivity.
Qed.

End step_facts.

Lemma bracket_then_polyfit_witness :
  loadtxt "alpha"
    (fs (after_step
           (compute_step (sample_PAR "Bracket" 10) sample_polyfit2
              sample_backtrack2 sample_pow
              (after (search_status (sample_PAR "Bracket" 10)
                        (evaluate (2%float, 9%float)
                           (after (line_search (sample_PAR "Bracket" 10)
                                     [(1%float, 8%float)]
                                     (sample_search "Bracket" 2)))))))))
  = Some 0.75%float.
Proof.
  set (st := evaluate (2%float, 9%float)
               (after (line_search (sample_PAR "Bracket" 10)
                         [(1%float, 8%float)]
                         (sample_search "Bracket" 2)))).
  set (st' := after (search_status (sample_PAR "Bracket" 10) st)).
  destruct (bracket_then_polyfit (sample_PAR "Bracket" 10) sample_polyfit2
              sample_backtrack2 sample_pow st (0%Z, 1%Z) st'
              (after_step
                 (compute_step (sample_PAR "Bracket" 10) sample_polyfit2
                    sample_backtrack2 sample_pow st')))
    as (alpha & Hfit & ->); [by_run | by_vm | by_vm | by_run |].
  rewrite <- Hfit. by_vm.
Defined.

Lemma SFltb_leb x y : SFltb x y = true -> SFleb x y = true.
Proof.
  unfold SFltb, SFleb. destruct (SFcompare x y) as [[ | | ]|]; congruence.
Qed.

Lemma ltb_leb x y : (x <? y)%float = true -> (x <=? y)%float = true.
Proof. rewrite ltb_spec, leb_spec. apply SFltb_leb. Qed.

Lemma any_at_or_below_first_baseline st f h :
  search_history st = (0%float, f) :: h ->
  length h <= 15 ->
  np.any_at_or_below_first (func_vals true st)
  = existsb (fun t => (snd t <=? f)%float) h.
Proof.
  intros Hh Hshort. destruct (sorted_views_baseline st f h Hh Hshort)
    as (xs & fs' & Hx & Hf & Hp).
  destruct (views_length st) as [Hlx Hlf]. rewrite Hx, Hf in *.
  simpl in Hlx, Hlf. simpl.
  rewrite (existsb_perm _ _ _ (combine_split_perm xs fs' h ltac:(lia) Hp)).
  clear. induction h as [|t h IH]; simpl; congruence.
Qed.

(** The step recorded last is the one left in [alpha]. *)
Lemma line_search_last_step PAR trials t st0 rs stn :
  line_search PAR (trials ++ [t]) st0 = Ok rs stn ->
  loadtxt "alpha" (fs stn) = Some (fst t).
Proof.
  rewrite line_search_snoc.
  destruct (line_search PAR trials st0) as [rs' st'|]; [|discriminate].
  destruct (search_status PAR (evaluate t st')) as [r st''|] eqn:E;
    [|discriminate].
  intros H. injection H as _ <-.
  destruct (search_status_inv _ _ _ _ _ E) as (_ & _ & ->).
  apply evaluate_loads.
Qed.

Section bracket_step.

Variable PAR : parameters.
Variable polyfit2 : list float -> list float -> option float.
Variable backtrack2 :
  float -> float -> float -> float -> float -> float -> option float.
Variable c_pow : float -> float -> option float.

(** X22: where the bracketing step rule is in force, the line search has
    made at most 15 trials (a history numpy sorts by insertion) and the
    sorted history shows no bracket, a successful [compute_step] scales the
    step tried last: by [STEPFACTOR] when no trial so far is at or below the
    baseline (contraction), and by [STEPFACTOR ** -1] when some trial is
    (expansion). *)
Theorem bracket_step_scales_last_step st st0 trials t rs stn st' f :
  String.eqb (LINESEARCH PAR) "Fixed" = false ->
  String.eqb (LINESEARCH PAR) "Bracket" || (iter st =? 1)%Z
    || true_int (restart st) = true ->
  initialize_search PAR st = Ok tt st0 ->
  loadtxt "f_new" (fs st) = Some f ->
  length (trials ++ [t]) <= 15 ->
  line_search PAR (trials ++ [t]) st0 = Ok rs stn ->
  bracket_found stn = false ->
  compute_step PAR polyfit2 backtrack2 c_pow stn = Stepped st' ->
  (existsb (fun t' => (snd t' <=? f)%float) (trials ++ [t]) = false ->
   loadtxt "alpha" (fs st') = Some (fst t * STEPFACTOR PAR)%float)
  /\ (existsb (fun t' => (snd t' <=? f)%float) (trials ++ [t]) = true ->
      exists r, reciprocal_power c_pow (STEPFACTOR PAR) = inr r
                /\ loadtxt "alpha" (fs st') = Some (fst t * r)%float).
Proof.
  intros Hfix Hbr Hinit Hf Hshort Hrun Hnb Hstep.
  destruct (initialize_search_resets _ _ _ Hinit) as (f' & Hf' & Hh0 & _).
  rewrite Hf in Hf'. injection Hf' as <-.
  destruct (initialize_search_keeps_outer _ _ _ Hinit) as [Hi0 Hr0].
  destruct (line_search_shape _ _ _ _ _ Hrun)
    as (_ & Hh & _ & _ & Hi & Hr & _).
  rewrite Hh0 in Hh. simpl in Hh.
  pose proof (line_search_last_step _ _ _ _ _ _ Hrun) as Ha.
  pose proof (any_at_or_below_first_baseline stn f _ Hh Hshort) as Hany.
  destruct (compute_step_inv _ _ _ _ _ _ Hstep)
    as (m & p & s & nm & np' & alpha & m_try
        & _ & _ & _ & _ & _ & _ & Ht & _ & ->).
  unfold trial_step in Ht. rewrite Hfix, Hi, Hr, Hi0, Hr0, Hbr in Ht.
  unfold bracket_found in Hnb. rewrite Hnb, Hany, Ha in Ht.
  simpl fs. rewrite loadtxt_savenpy, loadtxt_savetxt by discriminate.
  split; intros Hex; rewrite Hex in Ht.
  - injection Ht as <-. reflexivity.
  - destruct (reciprocal_power c_pow (STEPFACTOR PAR)) as [e|r];
      [discriminate|].
    injection Ht as <-. exists r. auto.
Qed.

End bracket_step.

Lemma bracket_step_scales_last_step_witness :
  loadtxt "alpha"
    (fs (after_step
           (compute_step (sample_PAR "Bracket" 10) sample_polyfit2
              sample_backtrack2 sample_pow
              (after (line_search (sample_PAR "Bracket" 10)
                        [(1%float, 12%float)]
                        (sample_search "Bracket" 2))))))
  = Some 0.5%float.
Proof.
  destruct (bracket_step_scales_last_step (sample_PAR "Bracket" 10)
              sample_polyfit2 sample_backtrack2 sample_pow
              (set_iter 2 (setup sample_dir)) (sample_search "Bracket" 2)
              [] (1%float, 12%float) [(0%Z, 0%Z)]
              (after (line_search (sample_PAR "Bracket" 10)
                        [(1%float, 12%float)]
                        (sample_search "Bracket" 2)))
              (after_step
                 (compute_step (sample_PAR "Bracket" 10) sample_polyfit2
                    sample_backtrack2 sample_pow
                    (after (line_search (sample_PAR "Bracket" 10)
                              [(1%float, 12%float)]
                              (sample_search "Bracket" 2)))))
              10%float)
    as [Hc _];
    [reflexivity | reflexivity | by_run | by_vm | simpl; lia | by_run
    | by_vm | by_run |].
  rewrite Hc; reflexivity.
Defined.

(** The entry right behind the baseline in the sorted views: a trial of
    least |step|. *)
Lemma sorted_second st f h :
  search_history st = (0%float, f) :: h ->
  h <> [] ->
  length h <= 15 ->
  exists t xs fs',
    step_lens true st = 0%float :: fst t :: xs
    /\ func_vals true st = f :: snd t :: fs'
    /\ In t h
    /\ (forall t', In t' h -> ~ smaller_step (fst t') (fst t)).
Proof.
  intros Hh Hne Hshort.
  destruct (argsort_zero_first (map fst h)) as (rest & Hidx & Hrest);
    [rewrite length_map; exact Hshort|].
  pose proof (argsort_perm (np.absolute (0%float :: map fst h))) as Hp.
  assert (Hs : StronglySorted (before (np.absolute (0%float :: map fst h)))
                 (np.argsort (np.absolute (0%float :: map fst h)))).
  { apply argsort_sorted. unfold np.absolute. rewrite length_map. simpl.
    rewrite length_map. lia. }
  rewrite Hidx in Hp, Hs. unfold np.absolute in Hp at 1.
  rewrite length_map in Hp. change (length (0%float :: map fst h))
    with (S (length (map fst h))) in Hp.
  rewrite length_map in Hp, Hrest.
  change (seq 0 (S (length h))) with (0 :: seq 1 (length h)) in Hp.
  apply Permutation_cons_inv in Hp.
  apply StronglySorted_inv in Hs as [Hs _].
  destruct rest as [|j rest'].
  { apply Permutation_nil in Hp. destruct h; [congruence | discriminate]. }
  apply StronglySorted_inv in Hs as [_ Hj].
  apply Forall_cons_iff in Hrest as [Hjr _].
  destruct j as [|j]; [lia|].
  assert (Hjlt : j < length h) by lia.
  set (t := nth j h (nan, nan)).
  assert (Hitem : forall i,
             (np.item (0%float :: map fst h) (S i),
              np.item (f :: map snd h) (S i)) = nth i h (nan, nan)).
  { intros i. apply (item_history ((0%float, f) :: h) (S i)). }
  exists t, (np.take (0%float :: map fst h) rest'),
    (np.take (f :: map snd h) rest').
  unfold step_lens, func_vals. rewrite Hh.
  change (map fst ((0%float, f) :: h)) with (0%float :: map fst h).
  change (map snd ((0%float, f) :: h)) with (f :: map snd h).
  rewrite Hidx. simpl np.take.
  pose proof (Hitem j) as Ej. fold t in Ej.
  assert (E1 : np.item (0%float :: map fst h) (S j) = fst t)
    by (rewrite <- Ej; reflexivity).
  assert (E2 : np.item (f :: map snd h) (S j) = snd t)
    by (rewrite <- Ej; reflexivity).
  rewrite E1, E2.
  split; [reflexivity|]. split; [reflexivity|].
  split; [apply nth_In, Hjlt|].
  intros t' Ht'. apply (In_nth _ _ (nan, nan)) in Ht' as (i & Hi & <-).
  assert (Ek : forall k,
             np.item (np.absolute (0%float :: map fst h)) (S k)
             = PrimFloat.abs (fst (nth k h (nan, nan)))).
  { intros k. rewrite item_absolute. f_equal. rewrite <- (Hitem k).
    reflexivity. }
  enough (G : np.DOUBLE_LT (PrimFloat.abs (fst (nth i h (nan, nan))))
                (PrimFloat.abs (fst t)) = false)
    by (intros C; apply DOUBLE_LT_abs in C; congruence).
  destruct (Nat.eq_dec i j) as [->|Hij].
  - apply DOUBLE_LT_irrefl.
  - assert (Hin : In (S i) rest').
    { assert (H0 : In (S i) (S j :: rest')).
      { apply (Permutation_in _ (Permutation_sym Hp)), in_seq. lia. }
      destruct H0 as [H0|H0]; [congruence | exact H0]. }
    rewrite List.Forall_forall in Hj. specialize (Hj _ Hin).
    unfold before in Hj. rewrite !Ek in Hj. fold t in Hj.
    destruct Hj as [B|[B _]]; [apply DOUBLE_LT_asym, B | exact B].
Qed.

Section backtrack_step.

Variable PAR : parameters.
Variable polyfit2 : list float -> list float -> option float.
Variable backtrack2 :
  float -> float -> float -> float -> float -> float -> option float.
Variable c_pow : float -> float -> option float.

(** X23: under the Backtrack strategy, beyond the first iteration and
    without a restart, in a line search of at most 15 trials (a history
    numpy sorts by insertion), a successful [compute_step] stores what
    [backtrack2] answers for the baseline objective, the stored slope
    [s_new], and the step and objective of one recorded trial, with
    safeguards 0.1 and 0.5; that trial is one of least |step| (no trial has
    a strictly smaller one, not-a-number counting as largest), not
    necessarily the latest. *)
Theorem backtrack_step_arguments st st0 trials rs stn st' :
  LINESEARCH PAR = "Backtrack" ->
  iter st <> 1%Z -> true_int (restart st) = false ->
  length trials <= 15 ->
  initialize_search PAR st = Ok tt st0 ->
  line_search PAR trials st0 = Ok rs stn ->
  compute_step PAR polyfit2 backtrack2 c_pow stn = Stepped st' ->
  exists f s t alpha,
    loadtxt "f_new" (fs st) = Some f
    /\ loadtxt "s_new" (fs st) = Some s
    /\ In t trials
    /\ (forall t', In t' trials -> ~ smaller_step (fst t') (fst t))
    /\ backtrack2 f s (fst t) (snd t) 0.1%float 0.5%float = Some alpha
    /\ loadtxt "alpha" (fs st') = Some alpha.
Proof.
  intros Hb Hi Hr Hshort Hinit Hrun Hstep.
  destruct (initialize_search_resets _ _ _ Hinit) as (f & Hf & Hh0 & _).
  destruct (initialize_search_keeps_outer _ _ _ Hinit) as [Hi0 Hr0].
  destruct (line_search_shape _ _ _ _ _ Hrun)
    as (_ & Hh & _ & _ & Hi' & Hr' & _).
  rewrite Hh0 in Hh. simpl in Hh.
  destruct (line_search_inv _ _ _ _ _ Hrun) as (_ & _ & Hfs).
  pose proof (initialize_search_fs _ _ _ Hinit) as Hfs0.
  destruct (compute_step_inv _ _ _ _ _ _ Hstep)
    as (m & p & s & nm & np' & alpha & m_try
        & _ & _ & Hs & _ & _ & _ & Ht & _ & ->).
  assert (Hs' : loadtxt "s_new" (fs st) = Some s).
  { unfold loadtxt in *. rewrite <- Hfs0, <- Hfs by discriminate. exact Hs. }
  unfold trial_step in Ht. rewrite Hb, Hi', Hr', Hi0, Hr0, Hr in Ht.
  destruct (Z.eqb_spec (iter st) 1); [contradiction|].
  simpl String.eqb in Ht. simpl orb in Ht. cbv iota in Ht.
  destruct trials as [|t0 trials0].
  { exfalso. unfold step_lens, func_vals in Ht. rewrite Hh in Ht.
    vm_compute in Ht. discriminate. }
  destruct (sorted_second stn f (t0 :: trials0) Hh)
    as (t & xs & fs' & Hx & Hfv & Hin & Hmin); [discriminate | exact Hshort|].
  rewrite Hx, Hfv in Ht.
  destruct (backtrack2 f s (fst t) (snd t) 0.1%float 0.5%float)
    as [a|] eqn:Eb; [|discriminate].
  injection Ht as <-. exists f, s, t, a.
  simpl fs. rewrite loadtxt_savenpy, loadtxt_savetxt by discriminate.
  split; [exact Hf|]. split; [exact Hs'|]. split; [exact Hin|].
  split; [exact Hmin|]. split; [exact Eb | reflexivity].
Qed.

(** X24: [compute_step] fails without writing a file in two cases the code
    does not guard: under the Backtrack rule when no trial has been recorded
    yet (the history holds the baseline only) it raises [IndexError], and
    for a strategy that is none of Fixed, Bracket and Backtrack, beyond the
    first iteration and without a restart, it raises (a [NameError]). *)
Theorem compute_step_unguarded st m p s f :
  loadnpy "m_new" (fs st) = Some m ->
  loadnpy "p_new" (fs st) = Some p ->
  loadtxt "s_new" (fs st) = Some s ->
  m <> [] -> p <> [] ->
  iter st <> 1%Z -> true_int (restart st) = false ->
  (LINESEARCH PAR = "Backtrack" -> search_history st = [(0%float, f)] ->
   compute_step PAR polyfit2 backtrack2 c_pow st
   = Step_raise (Builtin IndexError) st)
  /\ (LINESEARCH PAR <> "Fixed" -> LINESEARCH PAR <> "Bracket" ->
      LINESEARCH PAR <> "Backtrack" -> search_history st <> [] ->
      compute_step PAR polyfit2 backtrack2 c_pow st
      = Step_raise (Builtin NameError) st).
Proof.
  intros Hm Hp Hs Hmne Hpne Hi Hr.
  unfold compute_step. rewrite Hm, Hp, Hs.
  destruct m as [|m0 m]; [congruence|]. destruct p as [|p0 p]; [congruence|].
  simpl np.py_max. cbv iota. unfold trial_step. rewrite Hr.
  destruct (Z.eqb_spec (iter st) 1); [contradiction|]. split.
  - intros Hb Hh. rewrite Hb, Hh. unfold step_lens, func_vals. rewrite Hh.
    reflexivity.
  - intros H1 H2 H3 Hh.
    destruct (String.eqb_spec (LINESEARCH PAR) "Fixed"); [contradiction|].
    destruct (String.eqb_spec (LINESEARCH PAR) "Bracket"); [contradiction|].
    destruct (String.eqb_spec (LINESEARCH PAR) "Backtrack"); [contradiction|].
    destruct (search_history st); [congruence | reflexivity].
Qed.

End backtrack_step.

Lemma backtrack_step_arguments_witness :
  exists alpha,
    sample_backtrack2 10%float (-1)%float 1%float 12%float 0.1%float
      0.5%float = Some alpha
    /\ loadtxt "alpha"
         (fs (after_step
                (compute_step (sample_PAR "Backtrack" 10) sample_polyfit2
                   sample_backtrack2 sample_pow
                   (after (line_search (sample_PAR "Backtrack" 10)
                             [(1%float, 12%float)]
                             (sample_search "Backtrack" 2))))))
       = Some alpha.
Proof.
  destruct (backtrack_step_arguments (sample_PAR "Backtrack" 10)
              sample_polyfit2 sample_backtrack2 sample_pow
              (set_iter 2 (setup sample_dir)) (sample_search "Backtrack" 2)
              [(1%float, 12%float)] [(0%Z, 0%Z)]
              (after (line_search (sample_PAR "Backtrack" 10)
                        [(1%float, 12%float)]
                        (sample_search "Backtrack" 2)))
              (after_step
                 (compute_step (sample_PAR "Backtrack" 10) sample_polyfit2
                    sample_backtrack2 sample_pow
                    (after (line_search (sample_PAR "Backtrack" 10)
                              [(1%float, 12%float)]
                              (sample_search "Backtrack" 2))))))
    as (f & s & t & alpha & Hf & Hs & Hin & _ & Hb & Ha);
    [reflexivity | discriminate | reflexivity | simpl; lia | by_run
    | by_run | by_run |].
  exists alpha. split; [|exact Ha].
  destruct Hin as [<-|[]].
  assert (Ef : Some f = Some 10%float) by (rewrite <- Hf; by_vm).
  assert (Es : Some s = Some (-1)%float) by (rewrite <- Hs; by_vm).
  injection Ef as ->. injection Es as ->. exact Hb.
Defined.

Lemma compute_step_unguarded_witness :
  compute_step (sample_PAR "Backtrack" 10) sample_polyfit2 sample_backtrack2
    sample_pow (sample_search "Backtrack" 2)
  = Step_raise (Builtin IndexError) (sample_search "Backtrack" 2).
Proof.
  apply (compute_step_unguarded (sample_PAR "Backtrack" 10) sample_polyfit2
           sample_backtrack2 sample_pow (sample_search "Backtrack" 2)
           [1%float; 2%float] [0.5%float; (-1)%float] (-1)%float 10%float);
    try by_vm; try discriminate; reflexivity.
Defined.

(** ** [finalize_search]: rotation *)

Lemma mv_all_rotation (d d' : gmap string value) :
  mv_all rotation d = (true, d') ->
  exists vm vf vg vp vs,
    d !! "m_new" = Some vm /\ d !! "f_new" = Some vf
    /\ d !! "g_new" = Some vg /\ d !! "p_new" = Some vp
    /\ d !! "s_new" = Some vs
    /\ d' = <["s_old" := vs]> (delete "s_new"
            (<["p_old" := vp]> (delete "p_new"
            (<["g_old" := vg]> (delete "g_new"
            (<["f_old" := vf]> (delete "f_new"
            (<["m_old" := vm]> (delete "m_new" d))))))))).
Proof.
  intros H. unfold rotation, mv_all, mv in H.
  repeat case_match; simplify_eq.
  repeat match goal with
  | H : _ !! _ = Some _ |- _ =>
      repeat first [ rewrite lookup_insert_ne in H by discriminate
                   | rewrite lookup_delete_ne in H by discriminate ];
      revert H
  end.
  intros. do 5 eexists.
  split; [reflexivity|]. do 4 (split; [eassumption|]). reflexivity.
Qed.

Lemma finalize_search_inv st st' :
  finalize_search st = Ok tt st' ->
  exists m g p s vf d0 alpha m_new,
    loadnpy "m_new" (fs st) = Some m
    /\ loadnpy "g_new" (fs st) = Some g
    /\ loadnpy "p_new" (fs st) = Some p
    /\ loadtxt "s_new" (fs st) = Some s
    /\ fs st !! "f_new" = Some vf
    /\ 2 <= length (search_history st)
    /\ (forall name,
        ~ In name ["alpha"; "m_try"; "f_try"; "m_old"; "f_old"; "g_old";
                   "p_old"; "s_old"] ->
        d0 !! name = fs st !! name)
    /\ d0 !! "m_try" = None /\ d0 !! "f_try" = None
    /\ alpha = np.item (step_lens true st) (np.argmin (func_vals true st))
    /\ np.add m (np.scale p alpha) = Some m_new
    /\ st' = set_fs
               (savetxt "f_new" (np.amin (func_vals true st))
                  (savenpy "m_new" m_new
                     (savetxt "alpha" alpha
                        (<["s_old" := Scalar s]> (delete "s_new"
                         (<["p_old" := Array p]> (delete "p_new"
                         (<["g_old" := Array g]> (delete "g_new"
                         (<["f_old" := vf]> (delete "f_new"
                         (<["m_old" := Array m]>
                            (delete "m_new" d0))))))))))))) st.
Proof.
  unfold finalize_search. intros H.
  destruct (loadnpy "m_new" (fs st)) as [m|] eqn:Em; [|discriminate].
  destruct (loadnpy "g_new" (fs st)) as [g|] eqn:Eg; [|discriminate].
  destruct (loadnpy "p_new" (fs st)) as [p|] eqn:Ep; [|discriminate].
  destruct (loadtxt "s_new" (fs st)) as [s|] eqn:Es; [|discriminate].
  destruct (search_history st) as [|e h] eqn:Eh; [discriminate|].
  set (d0 := if (1 <? iter st)%Z then _ else _) in H.
  assert (Hkeep : forall name,
            ~ In name ["alpha"; "m_try"; "f_try"; "m_old"; "f_old"; "g_old";
                       "p_old"; "s_old"] ->
            d0 !! name = fs st !! name).
  { intros name Hn. simpl in Hn. unfold d0, rm.
    destruct (1 <? iter st)%Z;
      repeat rewrite lookup_delete_ne by (intros E; apply Hn; auto 10);
      reflexivity. }
  assert (Htry : d0 !! "m_try" = None /\ d0 !! "f_try" = None).
  { unfold d0, rm. destruct (1 <? iter st)%Z; split;
      repeat first [ apply lookup_delete_eq
                   | rewrite lookup_delete_ne by discriminate ]. }
  destruct Htry as [Htm Htf].
  destruct (mv_all rotation d0) as [[|] d'] eqn:Erot; [|discriminate].
  destruct (mv_all_rotation _ _ Erot)
    as (vm & vf & vg & vp & vs & Hvm & Hvf & Hvg & Hvp & Hvs & ->).
  rewrite Hkeep in Hvm, Hvf, Hvg, Hvp, Hvs
    by (simpl; intros H'; repeat destruct H' as [H'|H'];
        first [discriminate | contradiction]).
  destruct (np.add m _) as [m_new|] eqn:Ea; [|discriminate].
  destruct (views_length st) as [_ Hfl].
  destruct (length (func_vals true st) <? 2)%nat eqn:El; [discriminate|].
  apply Nat.ltb_ge in El. rewrite Hfl in El.
  injection H as <-.
  unfold loadnpy in Em, Eg, Ep. unfold loadtxt in Es.
  rewrite Hvm in Em. rewrite Hvg in Eg. rewrite Hvp in Ep. rewrite Hvs in Es.
  destruct vm as [|vm']; [discriminate|]. injection Em as ->.
  destruct vg as [|vg']; [discriminate|]. injection Eg as ->.
  destruct vp as [|vp']; [discriminate|]. injection Ep as ->.
  destruct vs as [vs'|]; [|discriminate]. injection Es as ->.
  exists m, g, p, s, vf, d0, (np.item (step_lens true st)
                               (np.argmin (func_vals true st))), m_new.
  rewrite <- Eh. repeat split; try assumption; try reflexivity.
Qed.

(** X25: a successful [finalize_search] rotates the iteration's files:
    [m_old], [f_old], [g_old], [p_old] and [s_old] hold what [m_new],
    [f_new], [g_new], [p_new] and [s_new] held; the gradient, direction and
    slope of the finished iteration and the trial files [m_try] and [f_try]
    no longer exist; no attribute of the object is changed. *)
Theorem finalize_search_rotates st st' :
  finalize_search st = Ok tt st' ->
  fs st' !! "m_old" = fs st !! "m_new"
  /\ fs st' !! "f_old" = fs st !! "f_new"
  /\ fs st' !! "g_old" = fs st !! "g_new"
  /\ fs st' !! "p_old" = fs st !! "p_new"
  /\ fs st' !! "s_old" = fs st !! "s_new"
  /\ fs st' !! "g_new" = None /\ fs st' !! "p_new" = None
  /\ fs st' !! "s_new" = None
  /\ fs st' !! "m_try" = None /\ fs st' !! "f_try" = None
  /\ same_attributes st st'.
Proof.
  intros H. destruct (finalize_search_inv _ _ H)
    as (m & g & p & s & vf & d0 & alpha & m_new
        & Hm & Hg & Hp & Hs & Hf & _ & Hkeep & Htm & Htf & _ & _ & ->).
  unfold loadnpy, loadtxt in Hm, Hg, Hp, Hs.
  assert (Hm' : fs st !! "m_new" = Some (Array m))
    by (destruct (fs st !! "m_new") as [[|]|]; congruence).
  assert (Hg' : fs st !! "g_new" = Some (Array g))
    by (destruct (fs st !! "g_new") as [[|]|]; congruence).
  assert (Hp' : fs st !! "p_new" = Some (Array p))
    by (destruct (fs st !! "p_new") as [[|]|]; congruence).
  assert (Hs' : fs st !! "s_new" = Some (Scalar s))
    by (destruct (fs st !! "s_new") as [[|]|]; congruence).
  unfold same_attributes, savetxt, savenpy. simpl.
  rewrite Hm', Hg', Hp', Hs', Hf.
  repeat first [ rewrite lookup_insert_eq | rewrite lookup_delete_eq
               | rewrite lookup_insert_ne by discriminate
               | rewrite lookup_delete_ne by discriminate ].
  rewrite Htm, Htf. repeat split; reflexivity.
Qed.

Lemma finalize_search_rotates_witness :
  exists st',
    finalize_search
      (after (line_search (sample_PAR "Backtrack" 10)
                [(1%float, 12%float); (0.5%float, 8%float)]
                (sample_search "Backtrack" 2)))
    = Ok tt st'
    /\ loadtxt "f_old" (fs st') = Some 10%float
    /\ loadtxt "s_old" (fs st') = Some (-1)%float
    /\ fs st' !! "g_new" = None.
Proof.
  set (st := after (line_search (sample_PAR "Backtrack" 10)
                      [(1%float, 12%float); (0.5%float, 8%float)]
                      (sample_search "Backtrack" 2))).
  assert (E : finalize_search st = Ok tt (after (finalize_search st)))
    by by_run.
  exists (after (finalize_search st)). split; [exact E|].
  destruct (finalize_search_rotates st _ E)
    as (_ & Hf & _ & _ & Hs & Hg & _).
  unfold loadtxt. rewrite Hf, Hs, Hg.
  split; [by_vm|]. split; [by_vm|]. reflexivity.
Defined.

(** ** One whole iteration: the objective does not increase *)

Lemma not_ltb_leb x y :
  np.isnan x = false -> np.isnan y = false ->
  (x <? y)%float = false -> (y <=? x)%float = true.
Proof.
  intros Hx Hy H. destruct (y <=? x)%float eqn:E; [reflexivity|].
  rewrite (not_leb_gt _ _ Hy Hx E) in H. discriminate.
Qed.

(** X26: over one iteration that runs without error ([initialize_search],
    the status calls of the trials, [finalize_search]) the objective never
    increases: [f_old] is the value [f_new] held when the search began, and
    the [f_new] committed is not above it (unless that baseline was
    not-a-number). *)
Theorem iteration_never_increases_objective PAR st st0 trials rs stn st' :
  initialize_search PAR st = Ok tt st0 ->
  line_search PAR trials st0 = Ok rs stn ->
  finalize_search stn = Ok tt st' ->
  exists f_old f_new,
    loadtxt "f_new" (fs st) = Some f_old
    /\ loadtxt "f_old" (fs st') = Some f_old
    /\ loadtxt "f_new" (fs st') = Some f_new
    /\ (np.isnan f_old = false -> (f_new <=? f_old)%float = true).
Proof.
  intros Hinit Hrun Hfin.
  destruct (initialize_search_resets _ _ _ Hinit) as (f & Hf & Hh0 & _).
  destruct (line_search_inv _ _ _ _ _ Hrun) as (Hnan & Hh & Hfs).
  destruct (finalize_search_inv _ _ Hfin)
    as (m & g & p & s & vf & d0 & alpha & m_new
        & _ & _ & _ & _ & Hvf & _ & _ & _ & _ & _ & _ & ->).
  rewrite Hh0 in Hh. simpl in Hh.
  assert (Hvf' : vf = Scalar f).
  { rewrite Hfs in Hvf by discriminate.
    rewrite (initialize_search_fs _ _ _ Hinit) in Hvf by discriminate.
    unfold loadtxt in Hf. destruct (fs st !! "f_new") as [[|]|]; congruence. }
  subst vf. exists f, (np.amin (func_vals true stn)).
  split; [exact Hf|]. split.
  { unfold loadtxt, savetxt, savenpy. simpl.
    repeat first [ rewrite lookup_insert_eq
                 | rewrite lookup_insert_ne by discriminate
                 | rewrite lookup_delete_ne by discriminate ].
    reflexivity. }
  split; [apply loadtxt_savetxt|].
  intros Hnf.
  destruct (views_length stn) as [_ Hfl].
  destruct (argmin_spec (func_vals true stn)) as (Hk & Hmin & Hamin).
  { intros E. rewrite E, Hh in Hfl. discriminate. }
  assert (Hall : Forall (fun z => np.isnan z = false) (func_vals true stn)).
  { apply List.Forall_forall. intros z Hz.
    apply (Permutation_in _ (func_vals_sorted_perm stn)) in Hz.
    rewrite Hh in Hz. simpl in Hz. destruct Hz as [<-|Hz]; [exact Hnf|].
    apply in_map_iff in Hz as ((x & z') & <- & Hz).
    apply (proj1 (List.Forall_forall _ _) Hnan _ Hz). }
  assert (Hf0 : In f (func_vals true stn)).
  { apply (Permutation_in _ (Permutation_sym (func_vals_sorted_perm stn))).
    rewrite Hh. left. reflexivity. }
  rewrite Hamin. apply not_ltb_leb.
  - exact Hnf.
  - apply (proj1 (List.Forall_forall _ _) Hall).
    unfold np.item. apply nth_In. exact Hk.
  - apply Hmin. exact Hf0.
Qed.

Lemma iteration_never_increases_objective_witness :
  exists st' f_new,
    finalize_search
      (after (line_search (sample_PAR "Backtrack" 10)
                [(1%float, 12%float); (0.5%float, 8%float)]
                (sample_search "Backtrack" 2)))
    = Ok tt st'
    /\ loadtxt "f_old" (fs st') = Some 10%float
    /\ loadtxt "f_new" (fs st') = Some f_new
    /\ (f_new <=? 10)%float = true.
Proof.
  set (stn := after (line_search (sample_PAR "Backtrack" 10)
                       [(1%float, 12%float); (0.5%float, 8%float)]
                       (sample_search "Backtrack" 2))).
  assert (E : finalize_search stn = Ok tt (after (finalize_search stn)))
    by by_run.
  destruct (iteration_never_increases_objective (sample_PAR "Backtrack" 10)
              (set_iter 2 (setup sample_dir)) (sample_search "Backtrack" 2)
              [(1%float, 12%float); (0.5%float, 8%float)]
              [(0%Z, 0%Z); (1%Z, 1%Z)] stn (after (finalize_search stn)))
    as (f_old & f_new & H1 & H2 & H3 & H4); [by_run | by_run | exact E |].
  assert (E0 : Some f_old = Some 10%float) by (rewrite <- H1; by_vm).
  injection E0 as ->.
  exists (after (finalize_search stn)), f_new.
  split; [exact E|]. split; [exact H2|]. split; [exact H3|].
  apply H4. reflexivity.
Defined.

(** ** [finalize_search] with no trial in the history *)

Lemma add_scale_defined m p a b r :
  np.add m (np.scale p a) = Some r ->
  exists r', np.add m (np.scale p b) = Some r'.
Proof.
  unfold np.add, np.scale. rewrite !length_map.
  destruct (Nat.eqb (length m) (length p)); [eauto|].
  destruct m as [|x [|x' m]]; destruct p as [|y [|y' p]]; simpl;
    intros H; first [discriminate | eauto].
Qed.

Lemma finalize_search_no_gradient st :
  fs st !! "g_new" = None -> finalize_search st = Raise IOError st.
Proof.
  intros H. assert (E : loadnpy "g_new" (fs st) = None)
    by (unfold loadnpy; rewrite H; reflexivity).
  unfold finalize_search. rewrite E.
  destruct (loadnpy "m_new" (fs st)); reflexivity.
Qed.

(** X27: [finalize_search] called right after [initialize_search], before
    any trial has been recorded, raises [IndexError] (the history has no
    second entry for the statistics), and it does so after the files have
    been rotated and the baseline committed again: [alpha] is 0, [f_new] is
    unchanged, the gradient, direction and slope of the iteration now exist
    only as [g_old], [p_old] and [s_old], so a second call finds no [g_new]
    and raises [IOError]. *)
Theorem finalize_search_without_trials PAR st st0 g s :
  initialize_search PAR st = Ok tt st0 ->
  loadnpy "g_new" (fs st) = Some g ->
  loadtxt "s_new" (fs st) = Some s ->
  exists st',
    finalize_search st0 = Raise IndexError st'
    /\ loadtxt "alpha" (fs st') = Some 0%float
    /\ loadtxt "f_new" (fs st') = loadtxt "f_new" (fs st)
    /\ loadnpy "g_old" (fs st') = Some g
    /\ loadtxt "s_old" (fs st') = Some s
    /\ fs st' !! "g_new" = None /\ fs st' !! "p_new" = None
    /\ fs st' !! "s_new" = None
    /\ same_attributes st0 st'
    /\ finalize_search st' = Raise IOError st'.
Proof.
  intros Hinit Hg Hs.
  destruct (initialize_search_resets _ _ _ Hinit) as (f & Hf & Hh0 & _).
  destruct (initialize_search_inv _ _ _ Hinit)
    as (m & p & f' & nm & np' & a0 & m_try & Hm & Hp & _ & _ & _ & _ & Hadd & _).
  pose proof (initialize_search_fs _ _ _ Hinit) as Hfs.
  destruct (add_scale_defined _ _ _ 0%float _ Hadd) as (m0 & Hadd0).
  unfold loadnpy, loadtxt in Hm, Hp, Hg, Hs, Hf.
  assert (Hm' : fs st0 !! "m_new" = Some (Array m))
    by (rewrite Hfs by discriminate;
        destruct (fs st !! "m_new") as [[|]|]; congruence).
  assert (Hg' : fs st0 !! "g_new" = Some (Array g))
    by (rewrite Hfs by discriminate;
        destruct (fs st !! "g_new") as [[|]|]; congruence).
  assert (Hp' : fs st0 !! "p_new" = Some (Array p))
    by (rewrite Hfs by discriminate;
        destruct (fs st !! "p_new") as [[|]|]; congruence).
  assert (Hs' : fs st0 !! "s_new" = Some (Scalar s))
    by (rewrite Hfs by discriminate;
        destruct (fs st !! "s_new") as [[|]|]; congruence).
  assert (Hf' : fs st0 !! "f_new" = Some (Scalar f))
    by (rewrite Hfs by discriminate;
        destruct (fs st !! "f_new") as [[|]|]; congruence).
  unfold finalize_search at 1, loadnpy at 1 2 3, loadtxt at 1.
  rewrite Hm', Hg', Hp', Hs', Hh0.
  set (d0 := if (1 <? iter st0)%Z then _ else _).
  assert (Hkeep : forall name,
            ~ In name ["alpha"; "m_try"; "f_try"; "m_old"; "f_old"; "g_old";
                       "p_old"; "s_old"] ->
            d0 !! name = fs st0 !! name).
  { intros name Hn. simpl in Hn. unfold d0, rm.
    destruct (1 <? iter st0)%Z;
      repeat rewrite lookup_delete_ne by (intros E; apply Hn; auto 10);
      reflexivity. }
  assert (Hin : forall name,
            In name ["m_new"; "f_new"; "g_new"; "p_new"; "s_new"] ->
            d0 !! name = fs st0 !! name).
  { intros name Hn. apply Hkeep. simpl in Hn |- *. intros H'.
    repeat destruct Hn as [<-|Hn]; try contradiction;
      repeat destruct H' as [H'|H']; first [discriminate | contradiction]. }
  destruct (rotation_succeeds d0) as [d' Hrot].
  1-5: rewrite Hin by (simpl; auto 10); eauto.
  rewrite Hrot.
  destruct (mv_all_rotation _ _ Hrot)
    as (vm & vf & vg & vp & vs & Hvm & Hvf & Hvg & Hvp & Hvs & ->).
  rewrite Hin in Hvm, Hvf, Hvg, Hvp, Hvs by (simpl; auto 10).
  assert (vm = Array m) by congruence. assert (vf = Scalar f) by congruence.
  assert (vg = Array g) by congruence. assert (vp = Array p) by congruence.
  assert (vs = Scalar s) by congruence. subst vm vf vg vp vs.
  assert (Ex : step_lens true st0 = [0%float])
    by (unfold step_lens; rewrite Hh0; reflexivity).
  assert (Ef : func_vals true st0 = [f])
    by (unfold func_vals; rewrite Hh0; reflexivity).
  assert (Ek : np.argmin [f] = 0)
    by (unfold np.argmin; destruct (np.isnan f); reflexivity).
  rewrite Ex, Ef, Ek. change (np.amin [f]) with f.
  change (np.item [0%float] 0) with 0%float.
  rewrite Hadd0. simpl Nat.ltb. cbv iota.
  eexists. split; [reflexivity|].
  match goal with |- context [set_fs ?d st0] => set (d1 := d) end.
  assert (Hg1 : d1 !! "g_new" = None).
  { unfold d1, savetxt, savenpy.
    repeat first [ apply lookup_delete_eq
                 | rewrite lookup_insert_ne by discriminate
                 | rewrite lookup_delete_ne by discriminate ]. }
  assert (Hp1 : d1 !! "p_new" = None).
  { unfold d1, savetxt, savenpy.
    repeat first [ apply lookup_delete_eq
                 | rewrite lookup_insert_ne by discriminate
                 | rewrite lookup_delete_ne by discriminate ]. }
  assert (Hs1 : d1 !! "s_new" = None).
  { unfold d1, savetxt, savenpy.
    repeat first [ apply lookup_delete_eq
                 | rewrite lookup_insert_ne by discriminate
                 | rewrite lookup_delete_ne by discriminate ]. }
  change (fs (set_fs d1 st0)) with d1.
  split.
  { unfold d1. rewrite loadtxt_savetxt_ne, loadtxt_savenpy by discriminate.
    apply loadtxt_savetxt. }
  split.
  { unfold d1. rewrite loadtxt_savetxt. unfold loadtxt. rewrite Hf.
    reflexivity. }
  split.
  { unfold d1, loadnpy, savetxt, savenpy.
    repeat first [ rewrite lookup_insert_eq
                 | rewrite lookup_insert_ne by discriminate
                 | rewrite lookup_delete_ne by discriminate ].
    reflexivity. }
  split.
  { unfold d1, loadtxt, savetxt, savenpy.
    repeat first [ rewrite lookup_insert_eq
                 | rewrite lookup_insert_ne by discriminate
                 | rewrite lookup_delete_ne by discriminate ].
    reflexivity. }
  split; [exact Hg1|]. split; [exact Hp1|]. split; [exact Hs1|].
  split; [unfold same_attributes; repeat split; reflexivity|].
  apply finalize_search_no_gradient. exact Hg1.
Qed.

Lemma finalize_search_without_trials_witness :
  exists st',
    finalize_search (sample_search "Backtrack" 2) = Raise IndexError st'
    /\ loadtxt "alpha" (fs st') = Some 0%float
    /\ fs st' !! "g_new" = None
    /\ finalize_search st' = Raise IOError st'.
Proof.
  destruct (finalize_search_without_trials (sample_PAR "Backtrack" 10)
              (set_iter 2 (setup sample_dir)) (sample_search "Backtrack" 2)
              [1%float; 1%float] (-1)%float)
    as (st' & H1 & H2 & _ & _ & _ & H3 & _ & _ & _ & H4);
    [by_run | by_vm | by_vm |].
  exists st'. split; [exact H1|]. split; [exact H2|]. split; assumption.
Defined.

(** ** From one line search to the next *)

(** X28: the step [step_init] proposes for the next line search is built
    from what [finalize_search] left: as long as [alpha] and [s_old] are
    not rewritten in between, it is twice the ratio of the new slope to the
    slope of the finished iteration, times the step that iteration
    committed; when the finished iteration's slope was zero it raises
    [ZeroDivisionError]. *)
Theorem step_init_after_finalize st st1 st2 s' :
  finalize_search st = Ok tt st1 ->
  fs st2 !! "alpha" = fs st1 !! "alpha" ->
  fs st2 !! "s_old" = fs st1 !! "s_old" ->
  loadtxt "s_new" (fs st2) = Some s' ->
  exists s,
    loadtxt "s_new" (fs st) = Some s
    /\ step_init st2
       = if (s =? 0)%float then inl ZeroDivisionError
         else inr (2 * (s' / s)
                   * np.item (step_lens true st)
                       (np.argmin (func_vals true st)))%float.
Proof.
  intros H Ha Hso Hsn.
  destruct (finalize_search_inv _ _ H)
    as (m & g & p & s & vf & d0 & alpha & m_new
        & _ & _ & _ & Hs & _ & _ & _ & _ & _ & -> & _ & ->).
  exists s. split; [exact Hs|].
  unfold step_init. rewrite Hsn. unfold loadtxt. rewrite Ha, Hso.
  unfold savetxt, savenpy. simpl fs.
  repeat first [ rewrite lookup_insert_eq
               | rewrite lookup_insert_ne by discriminate ].
  reflexivity.
Qed.

Lemma step_init_after_finalize_witness :
  step_init
    (set_fs (savetxt "s_new" (-4)%float
               (fs (after (finalize_search
                     (after (line_search (sample_PAR "Bracket" 10)
                               [(1%float, 12%float); (0.5%float, 8%float)]
                               (sample_search "Bracket" 2)))))))
       (set_iter 3 (sample_search "Bracket" 2)))
  = inr 4%float.
Proof.
  set (stn := after (line_search (sample_PAR "Bracket" 10)
                       [(1%float, 12%float); (0.5%float, 8%float)]
                       (sample_search "Bracket" 2))).
  assert (E : finalize_search stn = Ok tt (after (finalize_search stn)))
    by by_run.
  destruct (step_init_after_finalize stn (after (finalize_search stn))
              (set_fs (savetxt "s_new" (-4)%float
                         (fs (after (finalize_search stn))))
                 (set_iter 3 (sample_search "Bracket" 2)))
              (-4)%float E)
    as (s & Hs & ->); [reflexivity | reflexivity | apply loadtxt_savetxt |].
  assert (E0 : Some s = Some (-1)%float) by (rewrite <- Hs; by_vm).
  injection E0 as ->. by_vm.
Defined.
